(** * Smart HIM Optimizer: the hybrid decision engine

    A shallow embedding of the prediction core of the back end
    ([services/prediction_service.py], [models/predictors.py],
    [services/him_service.py], [api/v1/predictions.py], [core/config.py])
    and the properties of its specification.

    Conventions of the embedding:
    - a Python [float] is a binary64 value of the kernel ([PrimFloat]), so
      that [0.3 + 0.2] rounds here exactly as it does in CPython;
    - a Python [int] is a [Z];
    - a Python [str] is a [string] holding its UTF-8 encoding; [len] counts
      code points ([py_len]);
    - a [Dict[str, Any]] record is a [gmap string pyval];
    - a class label of an estimator is a [label]: a string, or an integer;
    - a raised exception is the [Raise] branch of [result]; methods that read
      or write attributes of the module-level singletons thread the state
      they touch ([M]). *)

From Stdlib Require Import ZArith List String Ascii Floats Bool Lia DecimalString.
From stdpp Require Import base option list gmap strings.

Set Warnings "-inexact-float".

Local Open Scope string_scope.
Local Open Scope Z_scope.
Import ListNotations.

(** ** Python run-time values *)

Module Py.

(** The values an admission record holds under the keys the engine reads. *)
Inductive pyval :=
| PyNone
| PyInt (z : Z)
| PyStr (s : string)
| PyList (l : list string).

(** The exception classes the engine can meet.  [LibraryError] stands for
    whatever pandas, scikit-learn, XGBoost or the retrieval stack raise. *)
Inductive exn :=
| TypeError
| AttributeError
| KeyError
| IndexError
| ValueError
| ValidationError
| LibraryError (msg : string).

Inductive result (A : Type) :=
| Ok (a : A)
| Raise (e : exn).
Arguments Ok {A} a.
Arguments Raise {A} e.

Definition rbind {A B} (r : result A) (k : A -> result B) : result B :=
  match r with
  | Ok a => k a
  | Raise e => Raise e
  end.

(** [str(e)] of an exception.  The wording of the interpreter and of the
    libraries is not modelled: an exception they raise is rendered by the
    name of its class, and no property below states such a text, only that
    there is one. *)
Definition exn_message (e : exn) : string :=
  match e with
  | TypeError => "TypeError"
  | AttributeError => "AttributeError"
  | KeyError => "KeyError"
  | IndexError => "IndexError"
  | ValueError => "ValueError"
  | ValidationError => "ValidationError"
  | LibraryError msg => msg
  end.

(** *** Stateful, fallible computations

    A method that touches state [S]: it ends with a value or an exception,
    and the state it leaves behind is kept in both cases, as in Python. *)
Definition M (S A : Type) : Type := S -> result A * S.

Definition ret {S A} (a : A) : M S A := fun s => (Ok a, s).
Definition throw {S A} (e : exn) : M S A := fun s => (Raise e, s).
Definition bind {S A B} (m : M S A) (k : A -> M S B) : M S B :=
  fun s => match m s with
           | (Ok a, s') => k a s'
           | (Raise e, s') => (Raise e, s')
           end.
Definition lift {S A} (r : result A) : M S A := fun s => (r, s).
Definition gets {S A} (f : S -> A) : M S A := fun s => (Ok (f s), s).
Definition modify {S} (f : S -> S) : M S unit := fun s => (Ok tt, f s).

(** [try: m  except Exception as e: h e] *)
Definition try_except {S A} (m : M S A) (h : exn -> M S A) : M S A :=
  fun s => match m s with
           | (Ok a, s') => (Ok a, s')
           | (Raise e, s') => h e s'
           end.

(** Run a method of a component held in a field of the larger state. *)
Definition zoom {S T A} (get : S -> T) (set : T -> S -> S) (m : M T A) : M S A :=
  fun s => let (r, t') := m (get s) in (r, set t' s).

(** *** Dictionaries *)

(** [d.get(k, default)] *)
Definition dict_get (d : gmap string pyval) (k : string) (default : pyval) : pyval :=
  match d !! k with
  | Some v => v
  | None => default
  end.

(** Truth value of an object: [None], [0], [""] and [[]] are false. *)
Definition truthy (v : pyval) : bool :=
  match v with
  | PyNone => false
  | PyInt z => negb (z =? 0)
  | PyStr s => negb (String.eqb s "")
  | PyList l => match l with [] => false | _ => true end
  end.

(** [o is not None] for an attribute that holds an object or [None]. *)
Definition is_not_none {A} (o : option A) : bool :=
  match o with
  | Some _ => true
  | None => false
  end.

(** [l.append(x)] *)
Definition append {A} (l : list A) (x : A) : list A := (l ++ [x])%list.

(** *** Strings *)

(** A byte [10xxxxxx] continues the code point that an earlier byte began. *)
Definition is_continuation (c : ascii) : bool :=
  let n := N_of_ascii c in ((128 <=? n) && (n <? 192))%N.

(** [len(s)] of a [str]: the number of code points. *)
Fixpoint py_len (s : string) : nat :=
  match s with
  | EmptyString => 0%nat
  | String c s' => if is_continuation c then py_len s' else S (py_len s')
  end.

(** [s[:n]]: the first [n] code points. *)
Fixpoint take_chars (n : nat) (s : string) : string :=
  match s with
  | EmptyString => EmptyString
  | String c s' =>
      if is_continuation c then String c (take_chars n s')
      else match n with
           | O => EmptyString
           | S n' => String c (take_chars n' s')
           end
  end.

(** [len(v)]: defined on strings and lists only. *)
Definition len (v : pyval) : result nat :=
  match v with
  | PyStr s => Ok (py_len s)
  | PyList l => Ok (length l)
  | PyNone | PyInt _ => Raise TypeError
  end.

(** [s.startswith((p1, ..., pn))] *)
Definition startswith (s : string) (prefixes : list string) : bool :=
  existsb (fun p => String.prefix p s) prefixes.

(** [v.startswith(prefixes)]: only [str] has the method. *)
Definition method_startswith (v : pyval) (prefixes : list string) : result bool :=
  match v with
  | PyStr s => Ok (startswith s prefixes)
  | PyNone | PyInt _ | PyList _ => Raise AttributeError
  end.

(** [needle in hay] on strings. *)
Fixpoint contains (needle hay : string) : bool :=
  String.prefix needle hay
  || match hay with
     | EmptyString => false
     | String _ hay' => contains needle hay'
     end.

(** [str(z)] of an [int]. *)
Definition str_of_int (z : Z) : string := NilZero.string_of_int (Z.to_int z).

(** *** Numbers *)

(** The left operand of [v < n] or [v > n] against an [int] literal: an
    ordering comparison of [None], a [str] or a [list] with an [int] raises
    [TypeError]. *)
Definition int_operand (v : pyval) : result Z :=
  match v with
  | PyInt z => Ok z
  | PyNone | PyStr _ | PyList _ => Raise TypeError
  end.

(** [v == s] for a [str] literal [s]. *)
Definition eq_str (v : pyval) (s : string) : bool :=
  match v with
  | PyStr s' => String.eqb s' s
  | PyNone | PyInt _ | PyList _ => false
  end.

(** [a >= b] on floats. *)
Definition ge (a b : float) : bool := (b <=? a)%float.

(** [min(a, b)]: the first argument unless the second is smaller. *)
Definition min (a b : float) : float := if (b <? a)%float then b else a.

(** *** Class labels

    A class label of a fitted estimator, an element of [model.classes_]: a
    string, or an integer where the target column was numbered (a NumPy
    integer, which is no [int] and no [str]). *)
Inductive label :=
| LStr (s : string)
| LInt (z : Z).

Coercion LStr : string >-> label.

(** [str(l)], which is also what an f-string puts for [{l}]. *)
Definition str (l : label) : string :=
  match l with
  | LStr s => s
  | LInt z => str_of_int z
  end.

(** [l == s] for a [str] literal [s]: an integer equals no string. *)
Definition label_eq (l : label) (s : string) : bool :=
  match l with
  | LStr s' => String.eqb s' s
  | LInt _ => false
  end.

(** [d.get(l)] on a dictionary with [str] keys: an integer is no key of it. *)
Definition get_label {A} (d : gmap string A) (l : label) : option A :=
  match l with
  | LStr s => d !! s
  | LInt _ => None
  end.

(** Quotient of [n] by [d > 0] rounded to nearest, ties to even. *)
Definition round_half_even (n d : Z) : Z :=
  let q := n / d in
  let r := n mod d in
  if 2 * r <? d then q
  else if d <? 2 * r then q + 1
  else if Z.even q then q else q + 1.

(** [f"{x:.1f}"]: the exact binary value of [x], correctly rounded to one
    decimal. *)
Definition format_1f (x : float) : string :=
  match Prim2SF x with
  | S754_nan => "nan"
  | S754_infinity s => if s then "-inf" else "inf"
  | S754_zero s => if s then "-0.0" else "0.0"
  | S754_finite s m e =>
      let q := if 0 <=? e then 10 * Z.pos m * 2 ^ e
               else round_half_even (10 * Z.pos m) (2 ^ (- e)) in
      (if s then "-" else "") +:+ str_of_int (q / 10) +:+ "." +:+ str_of_int (q mod 10)
  end.

End Py.
Import Py.

Notation "'let*' x := m 'in' k" := (bind m (fun x => k))
  (at level 10, x name, m at level 100, k at level 200).
Notation "'let?' x := r 'in' k" := (rbind r (fun x => k))
  (at level 10, x name, r at level 100, k at level 200).

(** A record as the services receive it. *)
Abbreviation pydict := (gmap string pyval).

(** ** [core/config.py] *)

Module Settings.
Record t := { A_GROUP_THRESHOLD : float; DENIAL_THRESHOLD : float }.
(** The values of the class body; the environment may override them. *)
Definition default : t :=
  {| A_GROUP_THRESHOLD := 0.6; DENIAL_THRESHOLD := 0.5 |}.
End Settings.

(** ** [models/predictors.py] *)

(** A fitted estimator as the engine sees it.  [classes_] holds the class
    labels, as they are.  [predict_proba est record] is the probability row
    [model.predict_proba(X)[0]] for the one-row frame built from [record]
    with the encoders the predictor holds; it is [Raise] when building the
    frame, encoding it or the estimator itself raises. *)
Record Estimator := {
  classes_ : list label;
  predict_proba : pydict -> result (list float)
}.

(** The two pickle files under [ML_MODEL_PATH].  Each [..._pkl] is the value
    the unpickled dictionary holds under ['model'], [None] when opening the
    file, unpickling it or that lookup raises.  [a_group_classifier_pkl_rest]
    tells whether the classifier's dictionary also holds the keys
    ['encoders'] and ['features'], which [load_model] reads after it has
    assigned the model. *)
Record ModelFiles := {
  a_group_classifier_pkl : option Estimator;
  a_group_classifier_pkl_rest : bool;
  denial_predictor_pkl : option Estimator
}.

(** The dictionary a denial-risk prediction returns.  [recommendations] is
    [None] where the key is not set. *)
Module DenialRisk.
Record t := {
  denial_probability : float;
  risk_level : string;
  risk_factors : list string;
  recommendations : option (list string)
}.
End DenialRisk.

Module numpy.

(** [np.argmax] on a row of doubles: the first index whose value is not
    below-or-equal the running maximum wins; a NaN ends the scan. *)
Fixpoint argmax_from (mp : float) (max_ind i : nat) (ip : list float) : nat :=
  match ip with
  | [] => max_ind
  | x :: ip' =>
      if PrimFloat.is_nan mp then max_ind
      else if negb (x <=? mp)%float then argmax_from x i (S i) ip'
      else argmax_from mp max_ind (S i) ip'
  end.

Definition argmax (ip : list float) : result nat :=
  match ip with
  | [] => Raise ValueError
  | x :: ip' => Ok (argmax_from x 0%nat 1%nat ip')
  end.

(** [np.max]: [maximum.reduce], which keeps the accumulator when it is
    greater-or-equal or NaN. *)
Definition maximum (a b : float) : float :=
  if ge a b || PrimFloat.is_nan a then a else b.

Definition max (ip : list float) : result float :=
  match ip with
  | [] => Raise ValueError
  | x :: ip' => Ok (fold_left maximum ip' x)
  end.

End numpy.

Module AGroupClassifier.

Record t := { model : option Estimator }.

Record Prediction := {
  predicted_group : label;
  probabilities : gmap string float;
  a_group_probability : float;
  can_upgrade : bool;
  confidence : float
}.

Definition __init__ : t := {| model := None |}.

(** [self.model] is assigned before the encoders and the features are
    looked up: where one of these two keys is missing, the handler returns
    [False] and the model stays assigned. *)
Definition load_model (files : ModelFiles) : M t bool :=
  fun self =>
    match a_group_classifier_pkl files with
    | Some est =>
        if a_group_classifier_pkl_rest files
        then (Ok true, {| model := Some est |})
        else (Ok false, {| model := Some est |})
    | None => (Ok false, self)
    end.

(** [for i, cls in enumerate(classes): group_probs[str(cls)] = float(proba[i])] *)
Fixpoint group_probs_loop (classes : list label) (proba : list float) (i : nat)
    (group_probs : gmap string float) : result (gmap string float) :=
  match classes with
  | [] => Ok group_probs
  | cls :: classes' =>
      match nth_error proba i with
      | Some p => group_probs_loop classes' proba (S i) (<[str cls := p]> group_probs)
      | None => Raise IndexError
      end
  end.

Definition predict (settings : Settings.t) (files : ModelFiles)
    (admission_data : pydict) : M t Prediction :=
  let* loaded := gets model in
  let* _ := match loaded with
            | None => load_model files
            | Some _ => ret true
            end in
  let* current := gets model in
  match current with
  | None => throw AttributeError
  | Some est =>
      lift (let? proba := predict_proba est admission_data in
            let classes := classes_ est in
            let? group_probs := group_probs_loop classes proba 0%nat ∅ in
            let a_group_prob := default 0.0%float (group_probs !! "A") in
            let? winner := numpy.argmax proba in
            let? group := match nth_error classes winner with
                          | Some cls => Ok cls
                          | None => Raise IndexError
                          end in
            let? top := numpy.max proba in
            Ok {| predicted_group := group;
                  probabilities := group_probs;
                  a_group_probability := a_group_prob;
                  can_upgrade := ge a_group_prob (Settings.A_GROUP_THRESHOLD settings);
                  confidence := top |})
  end.

End AGroupClassifier.

Module DenialPredictor.

Record t := { model : option Estimator }.

Definition __init__ : t := {| model := None |}.

Definition load_model (files : ModelFiles) : M t bool :=
  fun self =>
    match denial_predictor_pkl files with
    | Some est => (Ok true, {| model := Some est |})
    | None => (Ok false, self)
    end.

Definition _get_risk_level (probability : float) : string :=
  if ge probability 0.7 then "HIGH"
  else if ge probability 0.4 then "MEDIUM"
  else "LOW".

Definition _identify_risk_factors (claim_data : pydict) : result (list string) :=
  let factors := [] in
  let factors :=
    if negb (truthy (dict_get claim_data "principal_diagnosis" PyNone))
    then append factors "주진단 미기재" else factors in
  let los := dict_get claim_data "length_of_stay" (PyInt 0) in
  let? days := int_operand los in
  let factors :=
    if days <? 2 then append factors "단기 재원 (1일 이하)" else factors in
  let factors :=
    if negb (truthy (dict_get claim_data "secondary_diagnoses" PyNone))
    then append factors "부진단 미기재" else factors in
  let drg_group := dict_get claim_data "drg_group" PyNone in
  let factors :=
    if eq_str drg_group "C" then append factors "심층질병군(C그룹)" else factors in
  Ok factors.

Definition _rule_based_prediction (claim_data : pydict) : result DenialRisk.t :=
  let risk_score := 0.0%float in
  let risk_factors := [] in
  let '(risk_score, risk_factors) :=
    if negb (truthy (dict_get claim_data "principal_diagnosis" PyNone))
    then ((risk_score + 0.3)%float, append risk_factors "주진단 미기재")
    else (risk_score, risk_factors) in
  let los := dict_get claim_data "length_of_stay" (PyInt 0) in
  let? days := int_operand los in
  let '(risk_score, risk_factors) :=
    if (days <? 1) || (days >? 365)
    then ((risk_score + 0.2)%float,
          append risk_factors ("비정상 재원일수: " +:+ str_of_int days +:+ "일"))
    else (risk_score, risk_factors) in
  let '(risk_score, risk_factors) :=
    if negb (truthy (dict_get claim_data "drg_code" PyNone))
    then ((risk_score + 0.3)%float, append risk_factors "DRG 코드 미지정")
    else (risk_score, risk_factors) in
  let? past := int_operand (dict_get claim_data "past_denials" (PyInt 0)) in
  let '(risk_score, risk_factors) :=
    if past >? 0
    then ((risk_score + 0.2)%float, append risk_factors "과거 삭감 이력 존재")
    else (risk_score, risk_factors) in
  Ok {| DenialRisk.denial_probability := Py.min risk_score 1.0;
        DenialRisk.risk_level := _get_risk_level risk_score;
        DenialRisk.risk_factors := risk_factors;
        DenialRisk.recommendations := None |}.

Definition predict_risk (self : t) (claim_data : pydict) : result DenialRisk.t :=
  match model self with
  | None => _rule_based_prediction claim_data
  | Some est =>
      let? proba := predict_proba est claim_data in
      let denial_prob :=
        if (1 <? length proba)%nat then nth 1 proba 0.0%float else 0.0%float in
      let level := _get_risk_level denial_prob in
      let? factors := _identify_risk_factors claim_data in
      Ok {| DenialRisk.denial_probability := denial_prob;
            DenialRisk.risk_level := level;
            DenialRisk.risk_factors := factors;
            DenialRisk.recommendations := None |}
  end.

End DenialPredictor.

(** ** [services/prediction_service.py] *)

Module PredictionService.

(** The attributes of the service object. *)
Record t := { models_loaded : bool; use_ml : bool }.

(** One entry of the static upgrade table. *)
Record Suggestion := {
  type : string;
  priority : string;
  description : string;
  expected_impact : float
}.

(** The dictionary a group prediction returns. *)
Record GroupPrediction := {
  predicted_group : label;
  confidence : float;
  drg_code : string;
  a_group_probability : float;
  can_upgrade : bool;
  upgrade_suggestions : list Suggestion
}.

(** The inner dictionaries of [cmi_values]. *)
Record Cmi := { current : float; potential : float }.

(** The dictionary [predict_comprehensive] returns. *)
Record Assessment := {
  group_prediction : GroupPrediction;
  denial_risk : DenialRisk.t;
  estimated_cmi : float;
  potential_cmi : float;
  revenue_impact : float;
  recommendations : list string
}.

(** The module-level singletons the service works with: [settings], the
    model files, [a_group_classifier], [denial_predictor] and the service
    object itself. *)
Record Process := {
  settings : Settings.t;
  files : ModelFiles;
  a_group_classifier : AGroupClassifier.t;
  denial_predictor : DenialPredictor.t;
  prediction_service : t
}.

Definition set_a_group_classifier (c : AGroupClassifier.t) (p : Process) : Process :=
  {| settings := settings p; files := files p; a_group_classifier := c;
     denial_predictor := denial_predictor p;
     prediction_service := prediction_service p |}.

Definition set_denial_predictor (d : DenialPredictor.t) (p : Process) : Process :=
  {| settings := settings p; files := files p;
     a_group_classifier := a_group_classifier p; denial_predictor := d;
     prediction_service := prediction_service p |}.

Definition set_prediction_service (s : t) (p : Process) : Process :=
  {| settings := settings p; files := files p;
     a_group_classifier := a_group_classifier p;
     denial_predictor := denial_predictor p; prediction_service := s |}.

Definition set_use_ml (b : bool) : M Process unit :=
  modify (fun p => set_prediction_service
                     {| models_loaded := models_loaded (prediction_service p);
                        use_ml := b |} p).

Definition set_models_loaded (b : bool) : M Process unit :=
  modify (fun p => set_prediction_service
                     {| models_loaded := b;
                        use_ml := use_ml (prediction_service p) |} p).

Definition _load_models : M Process unit :=
  try_except
    (let* fs := gets files in
     let* classifier_ok :=
       zoom a_group_classifier set_a_group_classifier
            (AGroupClassifier.load_model fs) in
     let* _ := if classifier_ok then set_use_ml true else ret tt in
     let* _ :=
       zoom denial_predictor set_denial_predictor
            (DenialPredictor.load_model fs) in
     set_models_loaded true)
    (fun _ => set_use_ml false).

Definition __init__ : M Process unit :=
  let* _ := set_models_loaded false in
  let* _ := set_use_ml false in
  _load_models.

Definition _get_upgrade_suggestions (current_group : label) (diagnosis : pyval)
    : list Suggestion :=
  let suggestions := [] in
  if label_eq current_group "B" then
    [ {| type := "documentation"; priority := "high";
         description := "합병증 상세 기록 추가"; expected_impact := 0.15 |};
      {| type := "diagnosis"; priority := "medium";
         description := "중증도 등급 재평가"; expected_impact := 0.10 |};
      {| type := "procedure"; priority := "medium";
         description := "수술/처치 기록 확인"; expected_impact := 0.08 |} ]
  else if label_eq current_group "C" then
    [ {| type := "diagnosis"; priority := "high";
         description := "주진단 세부화"; expected_impact := 0.12 |};
      {| type := "documentation"; priority := "medium";
         description := "동반질환 기록 강화"; expected_impact := 0.08 |} ]
  else suggestions.

Definition _predict_with_ml (data : pydict) : M Process GroupPrediction :=
  let* cfg := gets settings in
  let* fs := gets files in
  let* result :=
    zoom a_group_classifier set_a_group_classifier
         (AGroupClassifier.predict cfg fs data) in
  let predicted_group := AGroupClassifier.predicted_group result in
  let confidence := AGroupClassifier.confidence result in
  let probabilities := AGroupClassifier.probabilities result in
  ret {| predicted_group := predicted_group;
         confidence := confidence;
         drg_code := str predicted_group +:+ "001";
         a_group_probability := default 0.0%float (probabilities !! "A");
         can_upgrade := ge (default 0.0%float (probabilities !! "A"))
                           (Settings.A_GROUP_THRESHOLD cfg);
         upgrade_suggestions :=
           _get_upgrade_suggestions predicted_group
             (dict_get data "principal_diagnosis" (PyStr "")) |}.

Definition _predict_with_rules (cfg : Settings.t) (data : pydict)
    : result GroupPrediction :=
  let diagnosis := dict_get data "principal_diagnosis" (PyStr "") in
  let? is_a := method_startswith diagnosis ["A1"; "A2"; "A3"; "B1"; "B2"] in
  let? group_conf :=
    if is_a then Ok ("A", 0.75%float)
    else
      let? is_c := method_startswith diagnosis ["C1"; "C2"; "D1"] in
      if is_c then Ok ("C", 0.65%float) else Ok ("B", 0.60%float) in
  let '(predicted_group, confidence) := group_conf in
  let a_group_probability :=
    if String.eqb predicted_group "B" then 0.3%float
    else if String.eqb predicted_group "C" then 0.1%float
    else 0.9%float in
  Ok {| predicted_group := predicted_group;
        confidence := confidence;
        drg_code := predicted_group +:+ "001";
        a_group_probability := a_group_probability;
        can_upgrade := ge a_group_probability (Settings.A_GROUP_THRESHOLD cfg);
        upgrade_suggestions :=
          _get_upgrade_suggestions predicted_group diagnosis |}.

(** [record_prediction], [record_prediction_latency] and [log_prediction]
    write to the metrics registry and the log only; they read
    [result["predicted_group"]] and [result["confidence"]], which both
    paths set, and leave the state modelled here alone. *)
Definition predict_group (data : pydict) : M Process GroupPrediction :=
  let* self := gets prediction_service in
  let* classifier := gets a_group_classifier in
  let* cfg := gets settings in
  let* result :=
    if use_ml self && is_not_none (AGroupClassifier.model classifier)
    then try_except (_predict_with_ml data)
                    (fun _ => lift (_predict_with_rules cfg data))
    else lift (_predict_with_rules cfg data) in
  ret result.

Definition _get_denial_recommendations (risk_factors : list string) : list string :=
  let recommendations := [] in
  let recommendations :=
    if existsb (contains "진단") risk_factors
    then append recommendations "진단 코드 정확성 확인" else recommendations in
  let recommendations :=
    if existsb (contains "재원") risk_factors
    then append recommendations "입퇴원일자 확인" else recommendations in
  let recommendations :=
    match recommendations with
    | [] => append recommendations "기록完整性 확인"
    | _ => recommendations
    end in
  recommendations.

Definition _predict_denial_with_rules (data : pydict) : result DenialRisk.t :=
  let diagnosis := dict_get data "principal_diagnosis" (PyStr "") in
  let risk_score := 0.0%float in
  let risk_factors := [] in
  let '(risk_score, risk_factors) :=
    if negb (truthy diagnosis)
    then ((risk_score + 0.3)%float, append risk_factors "주진단 미기재")
    else (risk_score, risk_factors) in
  let? n := len diagnosis in
  let '(risk_score, risk_factors) :=
    if (n <? 3)%nat
    then ((risk_score + 0.2)%float, append risk_factors "진단 코드 불명확")
    else (risk_score, risk_factors) in
  let los := dict_get data "length_of_stay" (PyInt 0) in
  let? days := int_operand los in
  let '(risk_score, risk_factors) :=
    if (days <? 1) || (days >? 365)
    then ((risk_score + 0.2)%float,
          append risk_factors ("비정상 재원일수: " +:+ str_of_int days +:+ "일"))
    else (risk_score, risk_factors) in
  let risk_level :=
    if ge risk_score 0.7 then "HIGH"
    else if ge risk_score 0.4 then "MEDIUM"
    else "LOW" in
  Ok {| DenialRisk.denial_probability := Py.min risk_score 1.0;
        DenialRisk.risk_level := risk_level;
        DenialRisk.risk_factors := risk_factors;
        DenialRisk.recommendations := Some (_get_denial_recommendations risk_factors) |}.

Definition predict_denial_risk (data : pydict) : M Process DenialRisk.t :=
  let* self := gets prediction_service in
  let* predictor := gets denial_predictor in
  if use_ml self && is_not_none (DenialPredictor.model predictor)
  then try_except (lift (DenialPredictor.predict_risk predictor data))
                  (fun _ => lift (_predict_denial_with_rules data))
  else lift (_predict_denial_with_rules data).

Definition _generate_recommendations (group_pred : GroupPrediction)
    (denial_pred : DenialRisk.t) : list string :=
  let recommendations := [] in
  let recommendations :=
    if can_upgrade group_pred
    then append recommendations
           ("A그룹 전환 가능성: "
            +:+ format_1f (a_group_probability group_pred * 100)%float +:+ "%")
    else recommendations in
  let recommendations :=
    if existsb (String.eqb (DenialRisk.risk_level denial_pred)) ["HIGH"; "MEDIUM"]
    then append recommendations ("청구 삭감 위험: " +:+ DenialRisk.risk_level denial_pred)
    else recommendations in
  recommendations.

Definition predict_comprehensive (data : pydict) : M Process Assessment :=
  let* group_pred := predict_group data in
  let* denial_pred := predict_denial_risk data in
  let group := predicted_group group_pred in
  let cmi_values : gmap string Cmi :=
    <["C" := {| current := 0.7;
                potential := if can_upgrade group_pred then 1.0 else 0.7 |}]>
    (<["B" := {| current := 1.0;
                 potential := if can_upgrade group_pred then 1.3 else 1.0 |}]>
    (<["A" := {| current := 1.3; potential := 1.3 |}]> ∅)) in
  let* fallback := lift (match cmi_values !! "B" with
                         | Some row => Ok row
                         | None => Raise KeyError
                         end) in
  let cmi := default fallback (get_label cmi_values group) in
  let revenue_impact := ((potential cmi - current cmi) * 300000)%float in
  ret {| group_prediction := group_pred;
         denial_risk := denial_pred;
         estimated_cmi := current cmi;
         potential_cmi := potential cmi;
         revenue_impact := revenue_impact;
         recommendations := _generate_recommendations group_pred denial_pred |}.

End PredictionService.

(** ** [api/schemas.py] and [api/v1/predictions.py] *)

Module schemas.

Record GroupPredictionRequest := {
  principal_diagnosis : string;
  secondary_diagnoses : list string;
  procedures : list string;
  age : option Z;
  gender : option string;
  department : option string;
  length_of_stay : option Z;
  clinical_notes : option string
}.

Record GroupPredictionResponse := {
  predicted_group : string;
  confidence : float;
  drg_code : option string;
  upgrade_suggestions : option (list string)
}.

Record DenialRiskResponse := {
  risk_level : string;
  risk_score : float;
  denial_reasons : list string;
  recommendations : list string
}.

Record PredictionResponse := {
  admission_id : option string;
  group_prediction : GroupPredictionResponse;
  denial_risk : DenialRiskResponse;
  estimated_cmi : option float;
  potential_cmi : option float;
  revenue_impact : option float
}.

End schemas.

Module predictions.

Import PredictionService.

(** What the route hands back: the response model, or the
    [HTTPException(500)] its handler raises. *)
Inductive http (A : Type) :=
| HTTP200 (body : A)
| HTTP500 (detail : string).
Arguments HTTP200 {A} body.
Arguments HTTP500 {A} detail.

(** An [Optional[int]] or [Optional[str]] attribute as a dictionary value. *)
Definition of_optional_int (o : option Z) : pyval :=
  match o with
  | Some z => PyInt z
  | None => PyNone
  end.

Definition of_optional_str (o : option string) : pyval :=
  match o with
  | Some s => PyStr s
  | None => PyNone
  end.

(** The keys every route copies from the request. *)
Definition common_fields (request : schemas.GroupPredictionRequest) : pydict :=
  <["length_of_stay" := of_optional_int (schemas.length_of_stay request)]>
  (<["department" := of_optional_str (schemas.department request)]>
  (<["gender" := of_optional_str (schemas.gender request)]>
  (<["age" := of_optional_int (schemas.age request)]>
  (<["procedures" := PyList (schemas.procedures request)]>
  (<["secondary_diagnoses" := PyList (schemas.secondary_diagnoses request)]>
  (<["principal_diagnosis" := PyStr (schemas.principal_diagnosis request)]> ∅)))))).

(** [request.clinical_notes or ""] *)
Definition notes_or_empty (request : schemas.GroupPredictionRequest) : pyval :=
  match schemas.clinical_notes request with
  | Some s => PyStr s
  | None => PyStr ""
  end.

(** [GroupPredictionResponse(...)]: the model validates its fields, and
    [predicted_group: str] accepts no integer label. *)
Definition group_response (prediction : GroupPrediction)
    : Py.result schemas.GroupPredictionResponse :=
  match predicted_group prediction with
  | LStr group =>
      Ok {| schemas.predicted_group := group;
            schemas.confidence := confidence prediction;
            schemas.drg_code := Some (drg_code prediction);
            schemas.upgrade_suggestions :=
              Some (map description (upgrade_suggestions prediction)) |}
  | LInt _ => Raise ValidationError
  end.

(** [result["recommendations"]] raises [KeyError] where the key is not set. *)
Definition denial_response (result : DenialRisk.t) : Py.result schemas.DenialRiskResponse :=
  match DenialRisk.recommendations result with
  | Some recs =>
      Ok {| schemas.risk_level := DenialRisk.risk_level result;
            schemas.risk_score := DenialRisk.denial_probability result;
            schemas.denial_reasons := DenialRisk.risk_factors result;
            schemas.recommendations := recs |}
  | None => Raise KeyError
  end.

Definition predict_group (request : schemas.GroupPredictionRequest)
    : M Process (http schemas.GroupPredictionResponse) :=
  try_except
    (let admission_data :=
       <["clinical_notes" := notes_or_empty request]> (common_fields request) in
     let* prediction := PredictionService.predict_group admission_data in
     let* body := lift (group_response prediction) in
     ret (HTTP200 body))
    (fun e => ret (HTTP500 ("예측 중 오류 발생: " +:+ exn_message e))).

Definition predict_denial_risk (request : schemas.GroupPredictionRequest)
    : M Process (http schemas.DenialRiskResponse) :=
  try_except
    (let admission_data := common_fields request in
     let* result := PredictionService.predict_denial_risk admission_data in
     let* body := lift (denial_response result) in
     ret (HTTP200 body))
    (fun e => ret (HTTP500 ("위험도 예측 중 오류 발생: " +:+ exn_message e))).

(** The [admission_data] of the comprehensive route. *)
Definition comprehensive_admission_data (request : schemas.GroupPredictionRequest)
    (admission_id : option string) : pydict :=
  <["clinical_notes" := notes_or_empty request]>
  (<["admission_id" := of_optional_str admission_id]> (common_fields request)).

Definition predict_comprehensive (request : schemas.GroupPredictionRequest)
    (admission_id : option string) : M Process (http schemas.PredictionResponse) :=
  try_except
    (let admission_data := comprehensive_admission_data request admission_id in
     let* result := PredictionService.predict_comprehensive admission_data in
     let* group :=
       lift (group_response (PredictionService.group_prediction result)) in
     let* risk := lift (denial_response (PredictionService.denial_risk result)) in
     ret (HTTP200
            {| schemas.admission_id :=
                 Some (match admission_id with
                       | Some "" | None => "temp"
                       | Some id => id
                       end);
               schemas.group_prediction := group;
               schemas.denial_risk := risk;
               schemas.estimated_cmi := Some (PredictionService.estimated_cmi result);
               schemas.potential_cmi := Some (PredictionService.potential_cmi result);
               schemas.revenue_impact := Some (PredictionService.revenue_impact result) |}))
    (fun e => ret (HTTP500 ("종합 예측 중 오류 발생: " +:+ exn_message e))).

(** One element of the ["results"] list of the batch route. *)
Record BatchItem := {
  item_admission_id : string;        (* key "admission_id" *)
  item_predicted_group : label;      (* key "predicted_group" *)
  item_confidence : float;           (* key "confidence" *)
  item_drg_code : string             (* key "drg_code" *)
}.

Record BatchBody := { results : list BatchItem; count : nat }.

(** The [admission_data] of the [i]-th request of a batch. *)
Definition batch_admission_data (i : nat) (req : schemas.GroupPredictionRequest)
    : pydict :=
  <["clinical_notes" := notes_or_empty req]>
  (<["admission_id" := PyStr ("batch_" +:+ str_of_int (Z.of_nat i))]>
     (common_fields req)).

(** [for i, req in enumerate(requests): ...], from index [i] on. *)
Fixpoint batch_loop (requests : list schemas.GroupPredictionRequest) (i : nat)
    (results : list BatchItem) : M Process (list BatchItem) :=
  match requests with
  | [] => ret results
  | req :: requests' =>
      let admission_data := batch_admission_data i req in
      let* pred := PredictionService.predict_group admission_data in
      let results :=
        append results
               {| item_admission_id := "batch_" +:+ str_of_int (Z.of_nat i);
                  item_predicted_group := predicted_group pred;
                  item_confidence := confidence pred;
                  item_drg_code := drg_code pred |} in
      batch_loop requests' (S i) results
  end.

Definition batch_predict (requests : list schemas.GroupPredictionRequest)
    : M Process (http BatchBody) :=
  try_except
    (let* results := batch_loop requests 0%nat [] in
     ret (HTTP200 {| results := results; count := length results |}))
    (fun e => ret (HTTP500 ("일괄 예측 중 오류 발생: " +:+ exn_message e))).

End predictions.

(** ** [services/him_service.py] *)

Module HIMService.

(** One dictionary of [ClinicalEntityExtractor.extract_diagnoses] or
    [extract_procedures]. *)
Record Entity := {
  keyword : string;
  suggested_codes : list string;
  context : option string
}.

(** The entity extractor, by what its two methods return on the clinical
    text or raise. *)
Record ClinicalEntityExtractor := {
  extract_diagnoses : pyval -> result (list Entity);
  extract_procedures : pyval -> result (list Entity)
}.

(** The answer of the retrieval collaborator. *)
Record UpgradeAdvice := {
  current_group : pyval;
  advice_text : string;                  (* key "upgrade_suggestions" *)
  required_documentation : list string;
  sources : list string
}.

(** [rag_retriever.suggest_a_group_upgrade], awaited: its answer for the
    principal diagnosis, the secondary diagnoses, the procedures and the
    current group, or the exception the retrieval stack raises. *)
Record RagRetriever := {
  suggest_a_group_upgrade : pyval -> pyval -> pyval -> pyval -> result UpgradeAdvice
}.

(** The singletons the service holds on to. *)
Record Env := {
  process : PredictionService.Process;
  entity_extractor : ClinicalEntityExtractor;
  rag_retriever : RagRetriever
}.

Definition set_process (p : PredictionService.Process) (e : Env) : Env :=
  {| process := p; entity_extractor := entity_extractor e;
     rag_retriever := rag_retriever e |}.

(** The [results] dictionary; a key not set yet is [None]. *)
Record Results := {
  group_prediction : option AGroupClassifier.Prediction;
  denial_risk : option DenialRisk.t;
  extracted_entities : option (list Entity * list Entity);
  upgrade_suggestions : option UpgradeAdvice;
  recommendations : option (list string);
  admission_id : option pyval
}.

Definition empty_results : Results :=
  {| group_prediction := None; denial_risk := None; extracted_entities := None;
     upgrade_suggestions := None; recommendations := None; admission_id := None |}.

Definition _generate_recommendations (results : Results) : list string :=
  let recommendations := [] in
  let group_pred := group_prediction results in
  let recommendations :=
    match group_pred with
    | Some gp =>
        if AGroupClassifier.can_upgrade gp
        then append recommendations
               ("A그룹 전환 가능성 있음 ("
                +:+ format_1f (AGroupClassifier.a_group_probability gp * 100)%float
                +:+ "%)")
        else recommendations
    | None => recommendations
    end in
  let denial_risk := denial_risk results in
  let recommendations :=
    match denial_risk with
    | Some dr =>
        if String.eqb (DenialRisk.risk_level dr) "HIGH"
        then append recommendations
               ("삭감 위험도 높음 ("
                +:+ format_1f (DenialRisk.denial_probability dr * 100)%float
                +:+ "%)")
        else recommendations
    | None => recommendations
    end in
  let risk_factors :=
    match denial_risk with
    | Some dr => DenialRisk.risk_factors dr
    | None => []
    end in
  let recommendations :=
    match risk_factors with
    | [] => recommendations
    | _ => (recommendations ++ map (fun rf => "위험 요인: " +:+ rf) risk_factors)%list
    end in
  recommendations.

Definition predict_admission_outcome (admission_data : pydict) : M Env Results :=
  let results := empty_results in
  let* cfg := gets (fun e => PredictionService.settings (process e)) in
  let* fs := gets (fun e => PredictionService.files (process e)) in
  let* group_prediction :=
    zoom process set_process
      (zoom PredictionService.a_group_classifier
            PredictionService.set_a_group_classifier
            (AGroupClassifier.predict cfg fs admission_data)) in
  let results :=
    {| group_prediction := Some group_prediction;
       denial_risk := denial_risk results;
       extracted_entities := extracted_entities results;
       upgrade_suggestions := upgrade_suggestions results;
       recommendations := recommendations results;
       admission_id := admission_id results |} in
  let* predictor := gets (fun e => PredictionService.denial_predictor (process e)) in
  let* denial_risk := lift (DenialPredictor.predict_risk predictor admission_data) in
  let results :=
    {| group_prediction := HIMService.group_prediction results;
       denial_risk := Some denial_risk;
       extracted_entities := extracted_entities results;
       upgrade_suggestions := upgrade_suggestions results;
       recommendations := recommendations results;
       admission_id := admission_id results |} in
  let clinical_text := dict_get admission_data "clinical_notes" (PyStr "") in
  let* extractor := gets entity_extractor in
  let* results :=
    if truthy clinical_text then
      let* diagnoses := lift (extract_diagnoses extractor clinical_text) in
      let* procedures := lift (extract_procedures extractor clinical_text) in
      ret {| group_prediction := HIMService.group_prediction results;
             denial_risk := HIMService.denial_risk results;
             extracted_entities := Some (diagnoses, procedures);
             upgrade_suggestions := upgrade_suggestions results;
             recommendations := recommendations results;
             admission_id := admission_id results |}
    else ret results in
  let* rag := gets rag_retriever in
  let* results :=
    if (AGroupClassifier.a_group_probability group_prediction
        <? Settings.A_GROUP_THRESHOLD cfg)%float then
      let* advice :=
        lift (suggest_a_group_upgrade rag
                (dict_get admission_data "principal_diagnosis" (PyStr ""))
                (dict_get admission_data "secondary_diagnoses" (PyList []))
                (dict_get admission_data "procedures" (PyList []))
                (dict_get admission_data "drg_group" (PyStr "B"))) in
      ret {| group_prediction := HIMService.group_prediction results;
             denial_risk := HIMService.denial_risk results;
             extracted_entities := extracted_entities results;
             upgrade_suggestions := Some advice;
             recommendations := recommendations results;
             admission_id := admission_id results |}
    else ret results in
  ret {| group_prediction := HIMService.group_prediction results;
         denial_risk := HIMService.denial_risk results;
         extracted_entities := extracted_entities results;
         upgrade_suggestions := upgrade_suggestions results;
         recommendations := Some (_generate_recommendations results);
         admission_id := admission_id results |}.

(** One element of the list [batch_predict_admissions] returns: the
    prediction of a record, or the two-key dictionary that stands for a
    record whose prediction raised. *)
Inductive BatchEntry :=
| Prediction (prediction : Results)
| Error (admission_id : pyval) (error : string).

(** [for admission_data in admissions_data: ...] *)
Fixpoint batch_loop (admissions_data : list pydict) (results : list BatchEntry)
    : M Env (list BatchEntry) :=
  match admissions_data with
  | [] => ret results
  | admission_data :: rest =>
      let* results :=
        try_except
          (let* prediction := predict_admission_outcome admission_data in
           let prediction :=
             {| group_prediction := group_prediction prediction;
                denial_risk := denial_risk prediction;
                extracted_entities := extracted_entities prediction;
                upgrade_suggestions := upgrade_suggestions prediction;
                recommendations := recommendations prediction;
                admission_id :=
                  Some (dict_get admission_data "admission_id" PyNone) |} in
           ret (append results (Prediction prediction)))
          (fun e =>
             ret (append results
                    (Error (dict_get admission_data "admission_id" PyNone)
                           (exn_message e)))) in
      batch_loop rest results
  end.

Definition batch_predict_admissions (admissions_data : list pydict)
    : M Env (list BatchEntry) :=
  batch_loop admissions_data [].

End HIMService.

(** ** Fixtures: process states and records of the specification's scenarios *)

Module Scenario.

Import PredictionService.

Definition no_files : ModelFiles :=
  {| a_group_classifier_pkl := None; a_group_classifier_pkl_rest := false;
     denial_predictor_pkl := None |}.

(** The process before the service object is constructed. *)
Definition cold (cfg : Settings.t) (fs : ModelFiles) : Process :=
  {| settings := cfg; files := fs;
     a_group_classifier := AGroupClassifier.__init__;
     denial_predictor := DenialPredictor.__init__;
     prediction_service := {| models_loaded := false; use_ml := false |} |}.

(** The process after [prediction_service = PredictionService()]. *)
Definition boot (cfg : Settings.t) (fs : ModelFiles) : Process :=
  snd (__init__ (cold cfg fs)).

(** "No model loaded": default settings, no artifact on disk. *)
Definition rule_based : Process := boot Settings.default no_files.

(** An artifact whose estimator raises on every record. *)
Definition broken : Estimator :=
  {| classes_ := [LStr "A"; LStr "B"; LStr "C"];
     predict_proba := fun _ => Raise (LibraryError "feature shape mismatch") |}.

(** An artifact whose estimator answers with one fixed row. *)
Definition steady : Estimator :=
  {| classes_ := [LStr "A"; LStr "B"; LStr "C"];
     predict_proba := fun _ => Ok [0.2; 0.7; 0.1]%float |}.

Definition learned (est : Estimator) : Process :=
  boot Settings.default
       {| a_group_classifier_pkl := Some est; a_group_classifier_pkl_rest := true;
          denial_predictor_pkl := Some est |}.

(** Scenario 1: [principal_diagnosis="A11", age=60]. *)
Definition scenario1 : pydict :=
  <["age" := PyInt 60]> (<["principal_diagnosis" := PyStr "A11"]> ∅).

(** Scenario 2: [principal_diagnosis="", length_of_stay=400]. *)
Definition scenario2 : pydict :=
  <["length_of_stay" := PyInt 400]> (<["principal_diagnosis" := PyStr ""]> ∅).

(** Scenario 3: [principal_diagnosis="B50"]. *)
Definition scenario3 : pydict :=
  <["principal_diagnosis" := PyStr "B50"]> ∅.

(** The request of [test_predict_comprehensive_with_admission_id]:
    [{"principalDiagnosis": "A01", "age": 70}]. *)
Definition request_a01 : schemas.GroupPredictionRequest :=
  {| schemas.principal_diagnosis := "A01";
     schemas.secondary_diagnoses := [];
     schemas.procedures := [];
     schemas.age := Some 70;
     schemas.gender := None;
     schemas.department := None;
     schemas.length_of_stay := None;
     schemas.clinical_notes := None |}.

(** The first request of [test_batch_predict_success]. *)
Definition request_i50 : schemas.GroupPredictionRequest :=
  {| schemas.principal_diagnosis := "I50";
     schemas.secondary_diagnoses := [];
     schemas.procedures := [];
     schemas.age := Some 65;
     schemas.gender := None;
     schemas.department := None;
     schemas.length_of_stay := None;
     schemas.clinical_notes := None |}.

(** Scenario 4 on the HIM service: collaborators that answer without
    raising, a record with a corrupt feature (a null length of stay) and a
    sound one. *)
Definition quiet_extractor : HIMService.ClinicalEntityExtractor :=
  {| HIMService.extract_diagnoses := fun _ => Ok [];
     HIMService.extract_procedures := fun _ => Ok [] |}.

Definition canned_retriever : HIMService.RagRetriever :=
  {| HIMService.suggest_a_group_upgrade :=
       fun _ _ _ group =>
         Ok {| HIMService.current_group := group;
               HIMService.advice_text := "";
               HIMService.required_documentation := [];
               HIMService.sources := [] |} |}.

Definition him_env (est : Estimator) : HIMService.Env :=
  {| HIMService.process := learned est;
     HIMService.entity_extractor := quiet_extractor;
     HIMService.rag_retriever := canned_retriever |}.

Definition corrupt_record : pydict :=
  <["admission_id" := PyStr "ADM001"]>
  (<["length_of_stay" := PyNone]> (<["principal_diagnosis" := PyStr "I50"]> ∅)).

Definition sound_record : pydict :=
  <["admission_id" := PyStr "ADM002"]>
  (<["length_of_stay" := PyInt 5]> (<["principal_diagnosis" := PyStr "A01"]> ∅)).

End Scenario.

(** ** The words of the specification, as definitions to compare with *)

Module Spec.

(** Section 4.3: the additive score of the rule-based risk scorer. *)
Definition rule_score (missing short abnormal_stay : bool) : float :=
  (0.0 + (if missing then 0.3 else 0.0)
       + (if short then 0.2 else 0.0)
       + (if abnormal_stay then 0.2 else 0.0))%float.

(** "Clamped to the closed interval [0,1]". *)
Definition clamp01 (x : float) : float :=
  if (x <? 0)%float then 0%float
  else if (1 <? x)%float then 1%float
  else x.

(** The three factors of section 4.3, in the order they are recorded. *)
Definition rule_factors (missing short abnormal_stay : bool) (days : Z) : list string :=
  ((if missing then ["주진단 미기재"] else [])
   ++ (if short then ["진단 코드 불명확"] else [])
   ++ (if abnormal_stay
       then ["비정상 재원일수: " +:+ str_of_int days +:+ "일"] else []))%list.

(** Section 4.2: the first two characters of the diagnosis code, tested
    against the two prefix sets. *)
Definition a_prefixes : list string := ["A1"; "A2"; "A3"; "B1"; "B2"].
Definition c_prefixes : list string := ["C1"; "C2"; "D1"].

Definition rule_group (diagnosis : string) : label * float :=
  let first_two := take_chars 2 diagnosis in
  if startswith first_two a_prefixes then (LStr "A", 0.75%float)
  else if startswith first_two c_prefixes then (LStr "C", 0.65%float)
  else (LStr "B", 0.60%float).

(** Section 4.3: [HIGH] if at least 0.7, [MEDIUM] if at least 0.4, else
    [LOW].  The order of the tiers: *)
Definition level_rank (level : string) : nat :=
  if String.eqb level "HIGH" then 2%nat
  else if String.eqb level "MEDIUM" then 1%nat
  else 0%nat.

(** Section 4.4: the case-mix table, an unrecognized group taking the B row. *)
Definition cmi_row (group : label) (can_upgrade : bool) : float * float :=
  if label_eq group "A" then (1.3, 1.3)%float
  else if label_eq group "C"
       then (0.7%float, if can_upgrade then 1.0%float else 0.7%float)
       else (1.0%float, if can_upgrade then 1.3%float else 1.0%float).

(** Section 4.5: the shape of the synthesized list: an upgrade line when
    [can_upgrade], a risk-level line when the level is [MEDIUM] or [HIGH],
    then one line per risk factor, in order, each holding its factor. *)
Definition synthesized (can_upgrade : bool) (level : string)
    (factors : list string) (out : list string) : Prop :=
  exists upgrade_line level_line factor_lines,
    out = (upgrade_line ++ level_line ++ factor_lines)%list
    /\ length upgrade_line = (if can_upgrade then 1%nat else 0%nat)
    /\ length level_line =
         (if String.eqb level "MEDIUM" || String.eqb level "HIGH"
          then 1%nat else 0%nat)
    /\ Forall2 (fun line factor => contains factor line = true)
               factor_lines factors.

(** Section 5: "processes each record independently; one record's failure
    must not abort the batch".  A run of a batch over the records, one
    entry per record: the record's prediction under its own identifier when
    its prediction returns, the error entry under its own identifier when
    it raises; the next record starts from the state the previous one left. *)
Definition with_admission_id (prediction : HIMService.Results) (id : pyval)
    : HIMService.Results :=
  {| HIMService.group_prediction := HIMService.group_prediction prediction;
     HIMService.denial_risk := HIMService.denial_risk prediction;
     HIMService.extracted_entities := HIMService.extracted_entities prediction;
     HIMService.upgrade_suggestions := HIMService.upgrade_suggestions prediction;
     HIMService.recommendations := HIMService.recommendations prediction;
     HIMService.admission_id := Some id |}.

Inductive batch_run
  : list pydict -> HIMService.Env -> list HIMService.BatchEntry -> HIMService.Env -> Prop :=
| batch_done (env : HIMService.Env) : batch_run [] env [] env
| batch_predicted (d : pydict) (rest : list pydict) (env env1 env' : HIMService.Env)
    (prediction : HIMService.Results) (entries : list HIMService.BatchEntry) :
    HIMService.predict_admission_outcome d env = (Ok prediction, env1) ->
    batch_run rest env1 entries env' ->
    batch_run (d :: rest) env
      (HIMService.Prediction
         (with_admission_id prediction (dict_get d "admission_id" PyNone))
       :: entries) env'
| batch_failed (d : pydict) (rest : list pydict) (env env1 env' : HIMService.Env)
    (e : exn) (entries : list HIMService.BatchEntry) :
    HIMService.predict_admission_outcome d env = (Raise e, env1) ->
    batch_run rest env1 entries env' ->
    batch_run (d :: rest) env
      (HIMService.Error (dict_get d "admission_id" PyNone) (exn_message e)
       :: entries) env'.

(** The value under the key ["admission_id"] of an entry. *)
Definition entry_admission_id (entry : HIMService.BatchEntry) : option pyval :=
  match entry with
  | HIMService.Prediction prediction => HIMService.admission_id prediction
  | HIMService.Error id _ => Some id
  end.

(** The element of the batch route for the [i]-th request. *)
Definition batch_item (i : nat) (pred : PredictionService.GroupPrediction)
    : predictions.BatchItem :=
  {| predictions.item_admission_id := "batch_" +:+ str_of_int (Z.of_nat i);
     predictions.item_predicted_group := PredictionService.predicted_group pred;
     predictions.item_confidence := PredictionService.confidence pred;
     predictions.item_drg_code := PredictionService.drg_code pred |}.

End Spec.

(** ** More of the code: the compliance route, the entity extractor and the
    tallies of the HIM service *)

(** [check_compliance] of [api/v1/predictions.py]. *)
Module compliance.

(** The dictionary the route returns. *)
Record Body := {
  is_compliant : bool;
  issues : list string;
  recommendations : list string
}.

Definition check_compliance (request : schemas.GroupPredictionRequest)
    : M PredictionService.Process (predictions.http Body) :=
  try_except
    (let diagnosis := PyStr (schemas.principal_diagnosis request) in
     let issues := [] in
     let* n := lift (len diagnosis) in
     let issues :=
       if (n <? 3)%nat then append issues "진단 코드가 3자리 미만입니다" else issues in
     ret (predictions.HTTP200
            {| is_compliant := (length issues =? 0)%nat;
               issues := issues;
               recommendations :=
                 match issues with
                 | [] => []
                 | _ => ["진단 코드 정확성 확인"]
                 end |}))
    (fun e =>
       ret (predictions.HTTP500 ("규정 준수 검증 중 오류 발생: " +:+ exn_message e))).

End compliance.

(** [ClinicalEntityExtractor] of [models/predictors.py]: its tables and the
    extraction of procedures.  A table is a dictionary read in insertion
    order. *)
Module ClinicalEntityExtractor.

Record t := {
  diagnosis_keywords : list (string * list string);
  procedure_keywords : list (string * list string)
}.

Definition __init__ : t :=
  {| diagnosis_keywords := []; procedure_keywords := [] |}.

Definition load_knowledge_base : M t unit :=
  modify (fun _ =>
    {| diagnosis_keywords :=
         [ ("폐렴", ["J18"; "J15"; "J12"]);
           ("당뇨", ["E10"; "E11"; "E12"]);
           ("고혈압", ["I10"; "I11"; "I12"]);
           ("뇌졸중", ["I63"; "I64"; "I60"]);
           ("심근경색", ["I21"; "I22"; "I23"]);
           ("폐결핵", ["A15"; "A16"; "A17"]);
           ("간염", ["B15"; "B16"; "B17"; "B18"]);
           ("신부전", ["N17"; "N18"; "N19"]) ];
       procedure_keywords :=
         [ ("수술", ["O"; "코드"]);
           ("내시경", ["F"; "검사"]);
           ("영상", ["X선"; "CT"; "MRI"]) ] |}).

(** One dictionary of [extract_procedures]. *)
Record Procedure := { keyword : string; suggested_codes : list string }.

(** [keyword in clinical_text]: a substring test on a [str], a membership
    test on a [list]; [None] and an [int] are not containers. *)
Definition keyword_in (keyword : string) (clinical_text : pyval) : result bool :=
  match clinical_text with
  | PyStr text => Ok (contains keyword text)
  | PyList items => Ok (existsb (String.eqb keyword) items)
  | PyNone | PyInt _ => Raise TypeError
  end.

(** [for keyword, codes in self.procedure_keywords.items(): ...] *)
Fixpoint procedures_loop (items : list (string * list string)) (clinical_text : pyval)
    (procedures : list Procedure) : result (list Procedure) :=
  match items with
  | [] => Ok procedures
  | (keyword, codes) :: items' =>
      let? found := keyword_in keyword clinical_text in
      let procedures :=
        if found
        then append procedures {| keyword := keyword; suggested_codes := codes |}
        else procedures in
      procedures_loop items' clinical_text procedures
  end.

Definition extract_procedures (self : t) (clinical_text : pyval)
    : result (list Procedure) :=
  procedures_loop (procedure_keywords self) clinical_text [].

End ClinicalEntityExtractor.

(** The tallies of [calculate_cmi_metrics] and [get_denial_analytics] of
    [services/him_service.py], over the rows the query returned. *)
Module Tallies.

(** The columns of an [Admission] row the tallies read. *)
Record Admission := {
  drg_group : option string;
  denial_reason : option string
}.

(** [value or 'Unknown'] for a nullable text column. *)
Definition or_unknown (value : option string) : string :=
  match value with
  | Some text => if String.eqb text "" then "Unknown" else text
  | None => "Unknown"
  end.

(** [for adm in admissions: group = adm.drg_group or 'Unknown';
     group_dist[group] = group_dist.get(group, 0) + 1] *)
Fixpoint group_dist_loop (admissions : list Admission) (group_dist : gmap string Z)
    : gmap string Z :=
  match admissions with
  | [] => group_dist
  | adm :: admissions' =>
      let group := or_unknown (drg_group adm) in
      group_dist_loop admissions'
        (<[group := default 0 (group_dist !! group) + 1]> group_dist)
  end.

(** [for claim in denied_claims: reason = claim.denial_reason or 'Unknown';
     denial_reasons[reason] = denial_reasons.get(reason, 0) + 1] *)
Fixpoint denial_reasons_loop (denied_claims : list Admission)
    (denial_reasons : gmap string Z) : gmap string Z :=
  match denied_claims with
  | [] => denial_reasons
  | claim :: denied_claims' =>
      let reason := or_unknown (denial_reason claim) in
      denial_reasons_loop denied_claims'
        (<[reason := default 0 (denial_reasons !! reason) + 1]> denial_reasons)
  end.

End Tallies.

(** Further fixtures. *)
Module Fixture.

(** The request of [test_predict_group_success]. *)
Definition request_full : schemas.GroupPredictionRequest :=
  {| schemas.principal_diagnosis := "I50";
     schemas.secondary_diagnoses := ["E11"];
     schemas.procedures := [];
     schemas.age := Some 65;
     schemas.gender := Some "M";
     schemas.department := Some "내과";
     schemas.length_of_stay := Some 5;
     schemas.clinical_notes := None |}.

(** The HIM service in a process that holds no model and finds no artifact. *)
Definition bare_env : HIMService.Env :=
  {| HIMService.process := Scenario.rule_based;
     HIMService.entity_extractor := Scenario.quiet_extractor;
     HIMService.rag_retriever := Scenario.canned_retriever |}.

(** An estimator whose classes are numbered. *)
Definition numbered : Estimator :=
  {| classes_ := [LInt 0; LInt 1; LInt 2];
     predict_proba := fun _ => Ok [0.2; 0.7; 0.1]%float |}.

(** A classifier that has not loaded yet, with an artifact on disk. *)
Definition steady_files : ModelFiles :=
  {| a_group_classifier_pkl := Some Scenario.steady;
     a_group_classifier_pkl_rest := true;
     denial_predictor_pkl := Some Scenario.steady |}.

End Fixture.

(** * Properties *)

Import PredictionService.

(** ** The order of binary64 values *)

Section FloatOrder.

Ltac compare_cases :=
  repeat match goal with
         | |- context [Z.compare ?a ?b] => destruct (Z.compare_spec a b); subst
         | H : context [Z.compare ?a ?b] |- _ => destruct (Z.compare_spec a b); subst
         | |- context [Pos.compare ?a ?b] => destruct (Pos.compare_spec a b); subst
         | H : context [Pos.compare ?a ?b] |- _ => destruct (Pos.compare_spec a b); subst
         end.

Ltac by_shape :=
  unfold SFleb, SFltb, SFcompare;
  repeat match goal with
         | x : spec_float |- _ => destruct x as [[|]|[|]| |[|] ? ?]
         end;
  simpl; try easy;
  change (Pos.compare_cont Eq) with Pos.compare; intros; compare_cases;
  simpl in *; try easy; try lia.

Lemma SFleb_trans (x y z : spec_float) :
  SFleb x y = true -> SFleb y z = true -> SFleb x z = true.
Proof. by_shape. Qed.

Lemma SFleb_false_SFltb (x y : spec_float) :
  SFleb x y = false -> x <> S754_nan -> y <> S754_nan -> SFltb y x = true.
Proof. by_shape. Qed.

Lemma SFltb_SFleb_false (x y : spec_float) :
  SFltb y x = true -> SFleb x y = false.
Proof. by_shape. Qed.

Lemma SFleb_nan_r (x : spec_float) : SFleb x S754_nan = false.
Proof. by_shape. Qed.

Lemma leb_trans (x y z : float) :
  (x <=? y)%float = true -> (y <=? z)%float = true -> (x <=? z)%float = true.
Proof. rewrite !leb_spec. apply SFleb_trans. Qed.

(** Below a threshold that is a number, a value that compares at all is
    strictly below it. *)
Lemma below_threshold (t lo p : float) :
  Prim2SF t <> S754_nan ->
  (lo <=? p)%float = true -> (t <=? p)%float = false -> (p <? t)%float = true.
Proof.
  rewrite !leb_spec, ltb_spec. intros Ht Hlo Hp.
  apply SFleb_false_SFltb; trivial.
  intros E. rewrite E, SFleb_nan_r in Hlo. discriminate.
Qed.

Lemma ltb_leb_false (t p : float) :
  (p <? t)%float = true -> (t <=? p)%float = false.
Proof. rewrite leb_spec, ltb_spec. apply SFltb_SFleb_false. Qed.

Lemma SFleb_SFltb_trans (x y z : spec_float) :
  SFleb x y = true -> SFltb y z = true -> SFltb x z = true.
Proof. by_shape. Qed.

Lemma leb_ltb_trans (x y z : float) :
  (x <=? y)%float = true -> (y <? z)%float = true -> (x <? z)%float = true.
Proof. rewrite leb_spec, !ltb_spec. apply SFleb_SFltb_trans. Qed.

End FloatOrder.

(** ** The risk tiers (C7) *)

Section RiskLevel.

Import DenialPredictor.

Lemma high_iff (p : float) :
  _get_risk_level p = "HIGH" <-> (0.7 <=? p)%float = true.
Proof.
  unfold _get_risk_level, ge.
  destruct (0.7 <=? p)%float; [easy|].
  destruct (0.4 <=? p)%float; easy.
Qed.

Lemma high_is_medium (p : float) :
  (0.7 <=? p)%float = true -> (0.4 <=? p)%float = true.
Proof. apply leb_trans. reflexivity. Qed.

Lemma medium_iff (p : float) :
  _get_risk_level p = "MEDIUM"
  <-> (0.4 <=? p)%float = true /\ (p <? 0.7)%float = true.
Proof.
  unfold _get_risk_level, ge. split.
  - destruct (0.7 <=? p)%float eqn:Hhi; [easy|].
    destruct (0.4 <=? p)%float eqn:Hlo; [|easy].
    intros _. split; [reflexivity|].
    apply (below_threshold 0.7 0.4 p); trivial. vm_compute. discriminate.
  - intros [Hlo Hlt]. rewrite (ltb_leb_false _ _ Hlt), Hlo. reflexivity.
Qed.

Lemma low_iff (p : float) :
  _get_risk_level p = "LOW" <-> (0.4 <=? p)%float = false.
Proof.
  unfold _get_risk_level, ge. split.
  - destruct (0.7 <=? p)%float; [easy|]. destruct (0.4 <=? p)%float; easy.
  - intros Hlo. destruct (0.7 <=? p)%float eqn:Hhi.
    + rewrite (high_is_medium _ Hhi) in Hlo. discriminate.
    + rewrite Hlo. reflexivity.
Qed.

Lemma risk_level_monotone (p q : float) :
  (p <=? q)%float = true ->
  (Spec.level_rank (_get_risk_level p) <= Spec.level_rank (_get_risk_level q))%nat.
Proof.
  intros Hpq. unfold _get_risk_level, ge.
  destruct (0.7 <=? p)%float eqn:Hp7.
  - rewrite (leb_trans _ _ _ Hp7 Hpq). reflexivity.
  - destruct (0.4 <=? p)%float eqn:Hp4.
    + destruct (0.7 <=? q)%float; [vm_compute; lia|].
      rewrite (leb_trans _ _ _ Hp4 Hpq). reflexivity.
    + destruct (0.7 <=? q)%float; [vm_compute; lia|].
      destruct (0.4 <=? q)%float; vm_compute; lia.
Qed.

(** The tier the service's own rules return is the tier of the probability
    they return. *)
Lemma service_rules_level (data : pydict) (r : DenialRisk.t) :
  _predict_denial_with_rules data = Ok r ->
  DenialRisk.risk_level r = _get_risk_level (DenialRisk.denial_probability r).
Proof.
  unfold _predict_denial_with_rules.
  destruct (truthy _); destruct (len _) as [n|]; simpl; try discriminate;
    destruct (n <? 3)%nat; destruct (int_operand _) as [days|]; simpl;
    try discriminate;
    destruct ((days <? 1) || (days >? 365)); intros [= <-]; reflexivity.
Qed.

Lemma predictor_rules_level (claim_data : pydict) (r : DenialRisk.t) :
  _rule_based_prediction claim_data = Ok r ->
  DenialRisk.risk_level r = _get_risk_level (DenialRisk.denial_probability r).
Proof.
  unfold _rule_based_prediction.
  destruct (truthy (dict_get claim_data "principal_diagnosis" PyNone));
    destruct (int_operand (dict_get claim_data "length_of_stay" _)) as [days|];
    simpl; try discriminate;
    destruct ((days <? 1) || (days >? 365));
    destruct (truthy (dict_get claim_data "drg_code" PyNone));
    destruct (int_operand (dict_get claim_data "past_denials" _)) as [past|];
    simpl; try discriminate;
    destruct (past >? 0); intros [= <-]; reflexivity.
Qed.

Lemma predictor_level (self : DenialPredictor.t) (claim_data : pydict)
    (r : DenialRisk.t) :
  predict_risk self claim_data = Ok r ->
  DenialRisk.risk_level r = _get_risk_level (DenialRisk.denial_probability r).
Proof.
  unfold predict_risk. destruct (model self) as [est|].
  - destruct (predict_proba est claim_data) as [proba|]; simpl; [|discriminate].
    destruct (_identify_risk_factors claim_data); simpl; [|discriminate].
    intros [= <-]. reflexivity.
  - apply predictor_rules_level.
Qed.

Lemma service_level (data : pydict) (w : Process) (r : DenialRisk.t) :
  fst (predict_denial_risk data w) = Ok r ->
  DenialRisk.risk_level r = _get_risk_level (DenialRisk.denial_probability r).
Proof.
  unfold predict_denial_risk, bind, gets, try_except, lift.
  destruct (use_ml _ && is_not_none _); simpl.
  - destruct (predict_risk (denial_predictor w) data) eqn:E; simpl.
    + intros [= <-]. eapply predictor_level, E.
    + apply service_rules_level.
  - apply service_rules_level.
Qed.

End RiskLevel.

(** C7: the tier is a function of the probability alone, [HIGH] exactly from
    0.7 on, [MEDIUM] exactly from 0.4 up to but not including 0.7, [LOW]
    otherwise; a larger probability never has a lower tier; and on every
    denial-risk path (the service's rules, the predictor's rules, the learned
    predictor, and the service's dispatch over them) the tier returned is the
    tier of the clamped probability returned. *)
Theorem C7_risk_level_thresholds :
  (forall p : float,
      (DenialPredictor._get_risk_level p = "HIGH" <-> (0.7 <=? p)%float = true)
      /\ (DenialPredictor._get_risk_level p = "MEDIUM"
          <-> (0.4 <=? p)%float = true /\ (p <? 0.7)%float = true)
      /\ (DenialPredictor._get_risk_level p = "LOW" <-> (0.4 <=? p)%float = false))
  /\ (forall p q : float,
         (p <=? q)%float = true ->
         (Spec.level_rank (DenialPredictor._get_risk_level p)
          <= Spec.level_rank (DenialPredictor._get_risk_level q))%nat)
  /\ (forall (data : pydict) (r : DenialRisk.t),
         _predict_denial_with_rules data = Ok r
         \/ DenialPredictor._rule_based_prediction data = Ok r
         \/ (exists self, DenialPredictor.predict_risk self data = Ok r)
         \/ (exists w, fst (predict_denial_risk data w) = Ok r) ->
         DenialRisk.risk_level r
         = DenialPredictor._get_risk_level (DenialRisk.denial_probability r)).
Proof.
  split; [|split].
  - intros p. split; [apply high_iff|split; [apply medium_iff|apply low_iff]].
  - apply risk_level_monotone.
  - intros data r [H|[H|[[self H]|[w H]]]].
    + eapply service_rules_level, H.
    + eapply predictor_rules_level, H.
    + eapply predictor_level, H.
    + eapply service_level, H.
Qed.

(** ** The rule-based risk score (C1) *)

(** C1, as stated, at scenario 2: the claim puts the probability at 0.5 and
    the tier at [MEDIUM].  The empty diagnosis is also shorter than three
    characters, so the rules add 0.3, 0.2 and 0.2: the probability is 0.7 and
    the tier is [HIGH]. *)
Lemma C1_scenario2_is_not_medium :
  exists r : DenialRisk.t,
    fst (predict_denial_risk Scenario.scenario2 Scenario.rule_based) = Ok r
    /\ DenialRisk.denial_probability r = 0.7%float
    /\ (DenialRisk.denial_probability r =? 0.5)%float = false
    /\ DenialRisk.risk_level r = "HIGH"
    /\ DenialRisk.risk_level r <> "MEDIUM".
Proof.
  eexists. split; [vm_compute; reflexivity|].
  repeat split; try reflexivity. discriminate.
Qed.

(** C1, amended: on a record whose principal diagnosis is the string [d] (or
    absent, which reads as the empty string) and whose length of stay is the
    integer [days] (or absent, which reads as 0), the rule-based scorer
    returns; its probability is the sum of 0.3 for an empty diagnosis, 0.2
    for a diagnosis shorter than 3 characters and 0.2 for a stay below 1 or
    above 365, clamped to [0,1]; its factors are those of the contributions
    made, in that order.  At scenario 2 (empty diagnosis, 400 days, no model
    loaded) all three contributions are made: the factors are the missing
    diagnosis, the ambiguous code and the abnormal stay, the probability is
    0.7 and the tier is [HIGH]. *)
Theorem C1_rule_based_denial_score (data : pydict) (d : string) (days : Z) :
  dict_get data "principal_diagnosis" (PyStr "") = PyStr d ->
  dict_get data "length_of_stay" (PyInt 0) = PyInt days ->
  let missing := String.eqb d "" in
  let short := (py_len d <? 3)%nat in
  let abnormal := (days <? 1) || (days >? 365) in
  (exists r : DenialRisk.t,
      _predict_denial_with_rules data = Ok r
      /\ DenialRisk.denial_probability r
         = Spec.clamp01 (Spec.rule_score missing short abnormal)
      /\ DenialRisk.risk_factors r = Spec.rule_factors missing short abnormal days
      /\ (missing = true -> short = true))
  /\ fst (predict_denial_risk Scenario.scenario2 Scenario.rule_based)
     = Ok {| DenialRisk.denial_probability := 0.7;
             DenialRisk.risk_level := "HIGH";
             DenialRisk.risk_factors :=
               ["주진단 미기재"; "진단 코드 불명확"; "비정상 재원일수: 400일"];
             DenialRisk.recommendations :=
               Some ["진단 코드 정확성 확인"; "입퇴원일자 확인"] |}.
Proof.
  intros Hd Hdays missing short abnormal. split; [|vm_compute; reflexivity].
  assert (Himp : missing = true -> short = true).
  { subst missing short. destruct d; [reflexivity|discriminate]. }
  unfold _predict_denial_with_rules. rewrite Hd, Hdays.
  cbn [truthy len rbind int_operand]. fold missing short abnormal.
  clearbody missing short abnormal.
  destruct missing, short, abnormal; eexists;
    (split; [reflexivity|]); repeat split; try reflexivity; exact Himp.
Qed.

(** The rules at scenario 2: both hypotheses hold there, all three
    contributions are made. *)
Lemma C1_rule_based_denial_score_witness :
  dict_get Scenario.scenario2 "principal_diagnosis" (PyStr "") = PyStr ""
  /\ dict_get Scenario.scenario2 "length_of_stay" (PyInt 0) = PyInt 400
  /\ exists r : DenialRisk.t,
       _predict_denial_with_rules Scenario.scenario2 = Ok r
       /\ DenialRisk.denial_probability r
          = Spec.clamp01 (Spec.rule_score true true true)
       /\ DenialRisk.risk_factors r = Spec.rule_factors true true true 400.
Proof.
  split; [reflexivity|]. split; [reflexivity|].
  destruct (C1_rule_based_denial_score Scenario.scenario2 "" 400
              eq_refl eq_refl) as [[r (Hr & Hp & Hf & _)] _].
  exists r. repeat split; assumption.
Defined.

(** ** The rule-based classifier (C3) *)

Section RuleClassifier.

Lemma prefix_empty (s : string) : String.prefix "" s = true.
Proof. destruct s; reflexivity. Qed.

(** A two-character ASCII prefix is read off the first two characters. *)
Lemma prefix_take_chars (a b : ascii) (d : string) :
  is_continuation a = false -> is_continuation b = false ->
  String.prefix (String a (String b "")) (take_chars 2 d)
  = String.prefix (String a (String b "")) d.
Proof.
  intros Ha Hb. destruct d as [|c1 d1]; [reflexivity|]. simpl.
  destruct (is_continuation c1) eqn:Hc1; simpl.
  - destruct (ascii_dec a c1) as [->|]; [congruence|reflexivity].
  - destruct (ascii_dec a c1) as [->|]; [|reflexivity].
    destruct d1 as [|c2 d2]; [reflexivity|]. simpl.
    destruct (is_continuation c2) eqn:Hc2; simpl.
    + destruct (ascii_dec b c2) as [->|]; [congruence|reflexivity].
    + destruct (ascii_dec b c2); [|reflexivity].
      now rewrite !prefix_empty.
Qed.

Lemma startswith_a_take_chars (d : string) :
  startswith (take_chars 2 d) ["A1"; "A2"; "A3"; "B1"; "B2"]
  = startswith d ["A1"; "A2"; "A3"; "B1"; "B2"].
Proof.
  unfold startswith, existsb. now rewrite !prefix_take_chars by reflexivity.
Qed.

Lemma startswith_c_take_chars (d : string) :
  startswith (take_chars 2 d) ["C1"; "C2"; "D1"]
  = startswith d ["C1"; "C2"; "D1"].
Proof.
  unfold startswith, existsb. now rewrite !prefix_take_chars by reflexivity.
Qed.

(** Records that agree on the two prefix tests get the same prediction. *)
Lemma rules_by_prefix_tests (cfg : Settings.t) (data data' : pydict) (d d' : string) :
  dict_get data "principal_diagnosis" (PyStr "") = PyStr d ->
  dict_get data' "principal_diagnosis" (PyStr "") = PyStr d' ->
  startswith d' Spec.a_prefixes = startswith d Spec.a_prefixes ->
  startswith d' Spec.c_prefixes = startswith d Spec.c_prefixes ->
  _predict_with_rules cfg data' = _predict_with_rules cfg data.
Proof.
  intros Hd Hd' Ha Hc. unfold _predict_with_rules. rewrite Hd, Hd'.
  unfold method_startswith. cbn [rbind].
  change ["A1"; "A2"; "A3"; "B1"; "B2"] with Spec.a_prefixes.
  change ["C1"; "C2"; "D1"] with Spec.c_prefixes.
  rewrite Ha, Hc.
  destruct (startswith d Spec.a_prefixes); [reflexivity|]. cbn [rbind].
  destruct (startswith d Spec.c_prefixes); reflexivity.
Qed.

Lemma prefix2_inv (a b : ascii) (d : string) :
  String.prefix (String a (String b "")) d = true ->
  exists rest, d = String a (String b rest).
Proof.
  destruct d as [|c1 d1]; cbn [String.prefix]; [discriminate|].
  destruct (ascii_dec a c1) as [<-|]; [|discriminate].
  destruct d1 as [|c2 d2]; cbn [String.prefix]; [discriminate|].
  destruct (ascii_dec b c2) as [<-|]; [|discriminate]. eauto.
Qed.

(** The C prefixes exclude the A prefixes. *)
Lemma c_prefix_not_a (d : string) :
  startswith d Spec.c_prefixes = true -> startswith d Spec.a_prefixes = false.
Proof.
  unfold startswith, Spec.c_prefixes, Spec.a_prefixes. cbn [existsb].
  rewrite !orb_true_iff. intros [H|[H|[H|H]]]; try discriminate;
    apply prefix2_inv in H as [rest ->]; reflexivity.
Qed.

End RuleClassifier.

(** C3: under the rule-based classifier, a diagnosis that starts with one of
    A1, A2, A3, B1, B2 is put in group A with confidence 0.75, one that
    starts with one of C1, C2, D1 in group C with confidence 0.65, every
    other one in group B with confidence 0.60; the code is the group followed
    by 001; two diagnoses with the same first two characters get the same
    prediction.  With no model loaded, the diagnosis A11 is predicted group A,
    confidence 0.75, code A001. *)
Theorem C3_rule_based_group (cfg : Settings.t) (data : pydict) (d : string) :
  dict_get data "principal_diagnosis" (PyStr "") = PyStr d ->
  (exists r : GroupPrediction,
      _predict_with_rules cfg data = Ok r
      /\ (predicted_group r, confidence r) = Spec.rule_group d
      /\ drg_code r = str (predicted_group r) +:+ "001"
      /\ (startswith d Spec.a_prefixes = true ->
          predicted_group r = "A" /\ confidence r = 0.75%float)
      /\ (startswith d Spec.c_prefixes = true ->
          predicted_group r = "C" /\ confidence r = 0.65%float)
      /\ (startswith d Spec.a_prefixes = false ->
          startswith d Spec.c_prefixes = false ->
          predicted_group r = "B" /\ confidence r = 0.60%float)
      /\ (forall (data' : pydict) (d' : string),
             dict_get data' "principal_diagnosis" (PyStr "") = PyStr d' ->
             take_chars 2 d' = take_chars 2 d ->
             _predict_with_rules cfg data' = Ok r))
  /\ (exists r1 : GroupPrediction,
         fst (predict_group Scenario.scenario1 Scenario.rule_based) = Ok r1
         /\ predicted_group r1 = "A"
         /\ confidence r1 = 0.75%float
         /\ drg_code r1 = "A001").
Proof.
  intros Hd. split.
  - pose proof (c_prefix_not_a d) as Hdisjoint.
    assert (Hext : forall data' d',
               dict_get data' "principal_diagnosis" (PyStr "") = PyStr d' ->
               take_chars 2 d' = take_chars 2 d ->
               _predict_with_rules cfg data' = _predict_with_rules cfg data).
    { intros data' d' Hd' Htake.
      apply (rules_by_prefix_tests cfg data data' d d' Hd Hd').
      - unfold Spec.a_prefixes.
        now rewrite <- (startswith_a_take_chars d'), Htake, startswith_a_take_chars.
      - unfold Spec.c_prefixes.
        now rewrite <- (startswith_c_take_chars d'), Htake, startswith_c_take_chars. }
    assert (Hspec : Spec.rule_group d
                    = if startswith d Spec.a_prefixes then (LStr "A", 0.75%float)
                      else if startswith d Spec.c_prefixes
                           then (LStr "C", 0.65%float)
                           else (LStr "B", 0.60%float)).
    { unfold Spec.rule_group, Spec.a_prefixes, Spec.c_prefixes.
      now rewrite startswith_a_take_chars, startswith_c_take_chars. }
    rewrite Hspec. clear Hspec.
    destruct (startswith d Spec.a_prefixes) eqn:Ha;
      [|destruct (startswith d Spec.c_prefixes) eqn:Hc];
      (eassert (E : _predict_with_rules cfg data = Ok _);
       [ unfold _predict_with_rules; rewrite Hd; unfold method_startswith;
         cbn [rbind];
         change ["A1"; "A2"; "A3"; "B1"; "B2"] with Spec.a_prefixes;
         change ["C1"; "C2"; "D1"] with Spec.c_prefixes;
         rewrite Ha; cbn [rbind]; rewrite ?Hc; cbn [rbind]; reflexivity
       | rewrite E in Hext; eexists; split; [exact E|];
         repeat split; try reflexivity; try discriminate; try exact Hext ]).
    all: exfalso;
      match goal with
      | H : startswith _ Spec.c_prefixes = true |- _ =>
          specialize (Hdisjoint H); discriminate
      end.
  - eexists. split; [vm_compute; reflexivity|]. repeat split; reflexivity.
Qed.

(** The rules at scenario 1, with the default settings. *)
Lemma C3_rule_based_group_witness :
  dict_get Scenario.scenario1 "principal_diagnosis" (PyStr "") = PyStr "A11"
  /\ exists r : GroupPrediction,
       _predict_with_rules Settings.default Scenario.scenario1 = Ok r
       /\ (predicted_group r, confidence r) = Spec.rule_group "A11"
       /\ drg_code r = str (predicted_group r) +:+ "001".
Proof.
  split; [reflexivity|].
  destruct (C3_rule_based_group Settings.default Scenario.scenario1 "A11" eq_refl)
    as [[r (Hr & Hg & Hc & _)] _].
  exists r. repeat split; assumption.
Defined.

(** ** The outcome estimator (C4, C5, C10) *)

Section Outcome.

(** What a comprehensive assessment is made of, once it returns. *)
Lemma comprehensive_inv (data : pydict) (w w' : Process) (r : Assessment) :
  predict_comprehensive data w = (Ok r, w') ->
  exists w1,
    predict_group data w = (Ok (group_prediction r), w1)
    /\ predict_denial_risk data w1 = (Ok (denial_risk r), w')
    /\ (estimated_cmi r, potential_cmi r)
       = Spec.cmi_row (predicted_group (group_prediction r))
                      (can_upgrade (group_prediction r))
    /\ revenue_impact r = ((potential_cmi r - estimated_cmi r) * 300000)%float
    /\ recommendations r
       = _generate_recommendations (group_prediction r) (denial_risk r).
Proof.
  unfold predict_comprehensive, bind at 1.
  destruct (predict_group data w) as [[gp|e] w1] eqn:Eg; [|discriminate].
  unfold bind at 1.
  destruct (predict_denial_risk data w1) as [[dr|e] w2] eqn:Ed; [|discriminate].
  unfold bind, lift, ret. rewrite !lookup_insert.
  destruct (decide ("C" = "B")) as [|_]; [discriminate|].
  destruct (decide ("B" = "B")) as [_|]; [|congruence].
  intros [= <- <-]. exists w1.
  cbn [group_prediction denial_risk estimated_cmi potential_cmi
       revenue_impact recommendations].
  split; [reflexivity|]. split; [exact Ed|].
  split; [|split; reflexivity].
  unfold Spec.cmi_row, label_eq, get_label.
  destruct (predicted_group gp) as [group|number]; [|reflexivity].
  destruct (String.eqb_spec group "A") as [->|HA]; [reflexivity|].
  destruct (String.eqb_spec group "C") as [->|HC]; [reflexivity|].
  rewrite !lookup_insert. repeat case_decide; try congruence; reflexivity.
Qed.

(** Conversely, the assessment returns once its two predictions do. *)
Lemma comprehensive_of_parts (data : pydict) (w w1 w2 : Process)
    (gp : GroupPrediction) (dr : DenialRisk.t) :
  predict_group data w = (Ok gp, w1) ->
  predict_denial_risk data w1 = (Ok dr, w2) ->
  exists r : Assessment,
    predict_comprehensive data w = (Ok r, w2)
    /\ group_prediction r = gp
    /\ denial_risk r = dr.
Proof.
  intros Hg Hd. unfold predict_comprehensive.
  unfold bind at 1. rewrite Hg. unfold bind at 1. rewrite Hd.
  unfold bind, lift, ret. rewrite !lookup_insert.
  destruct (decide ("C" = "B")) as [|_]; [discriminate|].
  destruct (decide ("B" = "B")) as [_|]; [|congruence].
  eexists. split; [reflexivity|]. split; reflexivity.
Qed.

(** The revenue of a row of the table. *)
Lemma revenue_of_row (group : label) (up : bool) (est pot : float) :
  (est, pot) = Spec.cmi_row group up ->
  PrimFloat.compare ((pot - est) * 300000) 0 = PrimFloat.compare (pot - est) 0
  /\ (if up && negb (label_eq group "A")
      then (0 <? (pot - est) * 300000)%float = true
      else ((pot - est) * 300000)%float = 0%float).
Proof.
  unfold Spec.cmi_row.
  destruct (label_eq group "A"), (label_eq group "C"), up;
    intros [= -> ->]; split; reflexivity.
Qed.

(** The rules with the default threshold: only group A can upgrade. *)
Lemma rules_upgrade (cfg : Settings.t) (data : pydict) (d : string) :
  dict_get data "principal_diagnosis" (PyStr "") = PyStr d ->
  Settings.A_GROUP_THRESHOLD cfg = 0.6%float ->
  exists gp : GroupPrediction,
    _predict_with_rules cfg data = Ok gp
    /\ (predicted_group gp = "A" /\ can_upgrade gp = true
        \/ predicted_group gp = "B" /\ can_upgrade gp = false
        \/ predicted_group gp = "C" /\ can_upgrade gp = false).
Proof.
  intros Hd Hthr. unfold _predict_with_rules. rewrite Hd, Hthr.
  unfold method_startswith. cbn [rbind].
  destruct (startswith d _); cbn [rbind];
    [|destruct (startswith d _); cbn [rbind]];
    eexists; (split; [reflexivity|]); cbn; auto.
Qed.

Lemma rule_based_group (data : pydict) (w : Process) :
  use_ml (prediction_service w) = false ->
  predict_group data w = (_predict_with_rules (settings w) data, w).
Proof.
  intros Hml. unfold predict_group, bind, gets, lift, ret. rewrite Hml.
  cbn. destruct (_predict_with_rules (settings w) data); reflexivity.
Qed.

Lemma rule_based_denial (data : pydict) (w : Process) :
  use_ml (prediction_service w) = false ->
  predict_denial_risk data w = (_predict_denial_with_rules data, w).
Proof.
  intros Hml. unfold predict_denial_risk, bind, gets, lift. rewrite Hml.
  reflexivity.
Qed.

(** The service's own risk rules return on a typed record. *)
Lemma service_rules_return (data : pydict) (d : string) (days : Z) :
  dict_get data "principal_diagnosis" (PyStr "") = PyStr d ->
  dict_get data "length_of_stay" (PyInt 0) = PyInt days ->
  exists dr : DenialRisk.t, _predict_denial_with_rules data = Ok dr.
Proof.
  intros Hd Hdays. unfold _predict_denial_with_rules. rewrite Hd, Hdays.
  cbn [truthy len rbind int_operand].
  destruct (negb (negb _)), (py_len d <? 3)%nat, ((days <? 1) || (days >? 365));
    eexists; reflexivity.
Qed.

End Outcome.

(** C4: [predict_comprehensive] returns exactly when [predict_group] and
    then [predict_denial_risk] return on the record, and its group
    prediction and its risk are theirs.  The pair (estimated CMI, potential
    CMI) is the row of the fixed table for the group that [predict_group]
    predicted, A: (1.3, 1.3), B: (1.0, 1.3 if upgradable else 1.0), C: (0.7,
    1.0 if upgradable else 0.7), any other group value taking the B row, and
    the revenue impact is (potential - estimated) * 300000.  With no model
    loaded the diagnosis B50 is group B, not upgradable: estimated 1.0,
    potential 1.0, revenue impact 0; A11 takes the A row and C10 the C row;
    with a threshold of 0.25, B50 is upgradable and takes 1.0 and 1.3; a
    class that the learned classifier numbers takes the B row. *)
Theorem C4_cmi_lookup (data : pydict) (w : Process) :
  (forall (gp : GroupPrediction) (dr : DenialRisk.t) (w1 w2 : Process),
      predict_group data w = (Ok gp, w1) ->
      predict_denial_risk data w1 = (Ok dr, w2) ->
      exists r : Assessment,
        predict_comprehensive data w = (Ok r, w2)
        /\ group_prediction r = gp
        /\ denial_risk r = dr
        /\ (estimated_cmi r, potential_cmi r)
           = Spec.cmi_row (predicted_group gp) (can_upgrade gp)
        /\ revenue_impact r
           = ((potential_cmi r - estimated_cmi r) * 300000)%float)
  /\ (forall (r : Assessment) (w' : Process),
         predict_comprehensive data w = (Ok r, w') ->
         (exists w1 : Process,
             predict_group data w = (Ok (group_prediction r), w1)
             /\ predict_denial_risk data w1 = (Ok (denial_risk r), w'))
         /\ (estimated_cmi r, potential_cmi r)
            = Spec.cmi_row (predicted_group (group_prediction r))
                           (can_upgrade (group_prediction r))
         /\ revenue_impact r
            = ((potential_cmi r - estimated_cmi r) * 300000)%float)
  /\ (exists r3 : Assessment,
         fst (predict_comprehensive Scenario.scenario3 Scenario.rule_based) = Ok r3
         /\ predicted_group (group_prediction r3) = "B"
         /\ can_upgrade (group_prediction r3) = false
         /\ estimated_cmi r3 = 1.0%float
         /\ potential_cmi r3 = 1.0%float
         /\ revenue_impact r3 = 0%float)
  /\ (exists r1 : Assessment,
         fst (predict_comprehensive Scenario.scenario1 Scenario.rule_based) = Ok r1
         /\ predicted_group (group_prediction r1) = "A"
         /\ estimated_cmi r1 = 1.3%float
         /\ potential_cmi r1 = 1.3%float
         /\ revenue_impact r1 = 0%float)
  /\ (exists rc : Assessment,
         fst (predict_comprehensive (<["principal_diagnosis" := PyStr "C10"]> ∅)
                Scenario.rule_based) = Ok rc
         /\ predicted_group (group_prediction rc) = "C"
         /\ can_upgrade (group_prediction rc) = false
         /\ estimated_cmi rc = 0.7%float
         /\ potential_cmi rc = 0.7%float
         /\ revenue_impact rc = 0%float)
  /\ (exists ru : Assessment,
         fst (predict_comprehensive Scenario.scenario3
                (Scenario.boot {| Settings.A_GROUP_THRESHOLD := 0.25;
                                  Settings.DENIAL_THRESHOLD := 0.5 |}
                               Scenario.no_files)) = Ok ru
         /\ predicted_group (group_prediction ru) = "B"
         /\ can_upgrade (group_prediction ru) = true
         /\ estimated_cmi ru = 1.0%float
         /\ potential_cmi ru = 1.3%float
         /\ revenue_impact ru = ((1.3 - 1.0) * 300000)%float)
  /\ (exists rn : Assessment,
         fst (predict_comprehensive Scenario.scenario3
                (Scenario.learned Fixture.numbered)) = Ok rn
         /\ predicted_group (group_prediction rn) = LInt 1
         /\ can_upgrade (group_prediction rn) = false
         /\ estimated_cmi rn = 1.0%float
         /\ potential_cmi rn = 1.0%float
         /\ revenue_impact rn = 0%float).
Proof.
  split; [|split].
  - intros gp dr w1 w2 Hg Hd.
    destruct (comprehensive_of_parts data w w1 w2 gp dr Hg Hd)
      as (r & Hr & Hrg & Hrd).
    destruct (comprehensive_inv _ _ _ _ Hr) as (_ & _ & _ & Hrow & Hrev & _).
    exists r. rewrite Hrg in Hrow. repeat split; assumption.
  - intros r w' Hrun.
    destruct (comprehensive_inv _ _ _ _ Hrun) as (w1 & Hg & Hd & Hrow & Hrev & _).
    split; [exists w1; split; assumption|]. split; assumption.
  - repeat split;
      (eexists; split; [vm_compute; reflexivity|]; repeat split; reflexivity).
Qed.

(** C5, as stated, at scenario 1: with no model loaded the diagnosis A11 is
    group A with [can_upgrade] true, and the revenue impact is zero, not
    strictly positive. *)
Lemma C5_upgradable_group_a_has_no_revenue :
  exists r : Assessment,
    fst (predict_comprehensive Scenario.scenario1 Scenario.rule_based) = Ok r
    /\ can_upgrade (group_prediction r) = true
    /\ (0 <? revenue_impact r)%float = false
    /\ revenue_impact r = 0%float.
Proof.
  eexists. split; [vm_compute; reflexivity|]. repeat split; reflexivity.
Qed.

(** C5, amended: when [predict_comprehensive] returns, the revenue impact
    compares with zero as (potential CMI - estimated CMI) does; it is strictly
    positive when [can_upgrade] is true and the predicted group is not A, and
    exactly zero otherwise (group A is already at the top row, upgradable or
    not). *)
Theorem C5_revenue_sign (data : pydict) (w w' : Process) (r : Assessment) :
  predict_comprehensive data w = (Ok r, w') ->
  PrimFloat.compare (revenue_impact r) 0
  = PrimFloat.compare (potential_cmi r - estimated_cmi r) 0
  /\ (if can_upgrade (group_prediction r)
         && negb (label_eq (predicted_group (group_prediction r)) "A")
      then (0 <? revenue_impact r)%float = true
      else revenue_impact r = 0%float).
Proof.
  intros Hrun.
  destruct (comprehensive_inv _ _ _ _ Hrun) as (w1 & _ & _ & Hrow & Hrev & _).
  rewrite Hrev. exact (revenue_of_row _ _ _ _ Hrow).
Qed.

(** The sign of the revenue at scenario 1, with no model loaded. *)
Lemma C5_revenue_sign_witness :
  exists (r : Assessment) (w' : Process),
    predict_comprehensive Scenario.scenario1 Scenario.rule_based = (Ok r, w')
    /\ PrimFloat.compare (revenue_impact r) 0
       = PrimFloat.compare (potential_cmi r - estimated_cmi r) 0
    /\ (if can_upgrade (group_prediction r)
           && negb (label_eq (predicted_group (group_prediction r)) "A")
        then (0 <? revenue_impact r)%float = true
        else revenue_impact r = 0%float).
Proof.
  destruct (predict_comprehensive Scenario.scenario1 Scenario.rule_based)
    as [[r|e] w'] eqn:E.
  - exists r, w'. split; [reflexivity|]. exact (C5_revenue_sign _ _ _ _ E).
  - vm_compute in E. discriminate.
Defined.

(** C10: with the default threshold 0.6 and no model loaded, the rule-based
    classifier sets [can_upgrade] exactly when the predicted group is A;
    whatever [predict_comprehensive] then returns has revenue impact 0; and on
    a record whose length of stay is an integer (or absent) it does return,
    leaving the process as it was. *)
Theorem C10_rule_based_no_revenue (data : pydict) (d : string) (w : Process) :
  dict_get data "principal_diagnosis" (PyStr "") = PyStr d ->
  Settings.A_GROUP_THRESHOLD (settings w) = 0.6%float ->
  use_ml (prediction_service w) = false ->
  (exists gp : GroupPrediction,
      predict_group data w = (Ok gp, w)
      /\ (can_upgrade gp = true <-> predicted_group gp = "A"))
  /\ (forall (r : Assessment) (w' : Process),
         predict_comprehensive data w = (Ok r, w') -> revenue_impact r = 0%float)
  /\ (forall days : Z,
         dict_get data "length_of_stay" (PyInt 0) = PyInt days ->
         exists r : Assessment,
           predict_comprehensive data w = (Ok r, w)
           /\ revenue_impact r = 0%float).
Proof.
  intros Hd Hthr Hml.
  destruct (rules_upgrade (settings w) data d Hd Hthr) as (gp & Hgp & Hcases).
  assert (Hgroup : predict_group data w = (Ok gp, w)).
  { rewrite (rule_based_group data w Hml), Hgp. reflexivity. }
  assert (Hzero : forall r w',
             predict_comprehensive data w = (Ok r, w') ->
             revenue_impact r = 0%float).
  { intros r w' Hrun.
    destruct (comprehensive_inv _ _ _ _ Hrun) as (w1 & Hg & _ & Hrow & Hrev & _).
    rewrite Hgroup in Hg. injection Hg as Hg _. rewrite <- Hg in Hrow.
    rewrite Hrev. clear Hrev Hrun.
    destruct Hcases as [[Hp Hu]|[[Hp Hu]|[Hp Hu]]]; rewrite Hp, Hu in Hrow;
      injection Hrow as -> ->; reflexivity. }
  split; [|split].
  - exists gp. split; [exact Hgroup|].
    destruct Hcases as [[Hp Hu]|[[Hp Hu]|[Hp Hu]]]; rewrite Hp, Hu;
      split; intros; first [reflexivity|discriminate].
  - exact Hzero.
  - intros days Hdays.
    destruct (service_rules_return data d days Hd Hdays) as (dr & Hdr).
    destruct (predict_comprehensive data w) as [[r|e] w'] eqn:Hrun.
    + assert (w' = w) as ->.
      { destruct (comprehensive_inv _ _ _ _ Hrun) as (w1 & Hg & Hden & _).
        rewrite Hgroup in Hg. injection Hg as _ <-.
        rewrite (rule_based_denial data w Hml) in Hden. now injection Hden. }
      exists r. split; [reflexivity|]. eapply Hzero. reflexivity.
    + exfalso. revert Hrun. unfold predict_comprehensive, bind at 1.
      rewrite Hgroup. unfold bind at 1.
      rewrite (rule_based_denial data w Hml), Hdr.
      unfold bind, lift, ret. rewrite !lookup_insert.
      destruct (decide ("C" = "B")) as [|_]; [discriminate|].
      destruct (decide ("B" = "B")) as [_|]; [|congruence]. discriminate.
Qed.

(** Scenario 3 in the process with no model loaded: the call returns, with
    no revenue, and leaves the process as it was. *)
Lemma C10_rule_based_no_revenue_witness :
  dict_get Scenario.scenario3 "principal_diagnosis" (PyStr "") = PyStr "B50"
  /\ Settings.A_GROUP_THRESHOLD (settings Scenario.rule_based) = 0.6%float
  /\ use_ml (prediction_service Scenario.rule_based) = false
  /\ (exists gp : GroupPrediction,
         predict_group Scenario.scenario3 Scenario.rule_based
         = (Ok gp, Scenario.rule_based)
         /\ (can_upgrade gp = true <-> predicted_group gp = "A"))
  /\ (exists r : Assessment,
         predict_comprehensive Scenario.scenario3 Scenario.rule_based
         = (Ok r, Scenario.rule_based)
         /\ revenue_impact r = 0%float).
Proof.
  split; [reflexivity|]. split; [reflexivity|]. split; [reflexivity|].
  destruct (C10_rule_based_no_revenue Scenario.scenario3 "B50" Scenario.rule_based
              eq_refl eq_refl eq_refl) as (Hgp & _ & Hlive).
  split; [exact Hgp|]. exact (Hlive 0 eq_refl).
Defined.

(** ** Fallback and the persisted mode (C9) *)

Section Frame.

Lemma set_a_group_classifier_same (w : Process) :
  set_a_group_classifier (a_group_classifier w) w = w.
Proof. destruct w; reflexivity. Qed.

(** A classifier that holds a model predicts without touching itself. *)
Lemma classifier_predict_frame (cfg : Settings.t) (fs : ModelFiles)
    (data : pydict) (self : AGroupClassifier.t) :
  is_not_none (AGroupClassifier.model self) = true ->
  snd (AGroupClassifier.predict cfg fs data self) = self.
Proof.
  unfold AGroupClassifier.predict, bind, gets, ret, lift, throw.
  destruct (AGroupClassifier.model self) as [est|] eqn:E; [|discriminate].
  intros _. rewrite E. destruct (rbind _ _); reflexivity.
Qed.

Lemma learned_group_frame (data : pydict) (w : Process) :
  is_not_none (AGroupClassifier.model (a_group_classifier w)) = true ->
  snd (_predict_with_ml data w) = w.
Proof.
  intros Hmodel. unfold _predict_with_ml, bind, gets, zoom, ret.
  pose proof (classifier_predict_frame (settings w) (files w) data
                (a_group_classifier w) Hmodel) as Hframe.
  destruct (AGroupClassifier.predict _ _ _ _) as [[out|e] self']; cbn in *;
    subst self'; apply set_a_group_classifier_same.
Qed.

(** Neither prediction writes to the process, whichever path it takes. *)
Lemma predict_group_frame (data : pydict) (w : Process) :
  snd (predict_group data w) = w.
Proof.
  unfold predict_group, bind, gets, ret, try_except, lift.
  destruct (use_ml (prediction_service w)); cbn [andb].
  - destruct (is_not_none _) eqn:Hmodel.
    + pose proof (learned_group_frame data w Hmodel) as Hframe.
      destruct (_predict_with_ml data w) as [[gp|e] w1]; cbn in *; subst w1.
      * reflexivity.
      * destruct (_predict_with_rules (settings w) data); reflexivity.
    + destruct (_predict_with_rules (settings w) data); reflexivity.
  - destruct (_predict_with_rules (settings w) data); reflexivity.
Qed.

Lemma predict_denial_frame (data : pydict) (w : Process) :
  snd (predict_denial_risk data w) = w.
Proof.
  unfold predict_denial_risk, bind, gets, try_except, lift.
  destruct (use_ml _ && is_not_none _); [|reflexivity].
  destruct (DenialPredictor.predict_risk _ _); reflexivity.
Qed.

End Frame.

(** C9: in a process where the learned models are in use, a call of
    [predict_group] whose learned path raises returns what the rule-based
    classifier returns, and a call of [predict_denial_risk] whose learned
    path raises returns what the rule-based scorer returns; either way the
    process is left as it was: the service's flags and both model handles are
    unchanged, so the next call takes the learned path first again. *)
Theorem C9_learned_failure_falls_back (data : pydict) (w : Process) :
  use_ml (prediction_service w) = true ->
  is_not_none (AGroupClassifier.model (a_group_classifier w)) = true ->
  is_not_none (DenialPredictor.model (denial_predictor w)) = true ->
  (forall e : exn,
      fst (_predict_with_ml data w) = Raise e ->
      predict_group data w = (_predict_with_rules (settings w) data, w))
  /\ (forall e : exn,
         DenialPredictor.predict_risk (denial_predictor w) data = Raise e ->
         predict_denial_risk data w = (_predict_denial_with_rules data, w))
  /\ (forall next : pydict,
         predict_group next (snd (predict_group data w)) = predict_group next w
         /\ predict_denial_risk next (snd (predict_denial_risk data w))
            = predict_denial_risk next w)
  /\ prediction_service (snd (predict_group data w)) = prediction_service w
  /\ prediction_service (snd (predict_denial_risk data w)) = prediction_service w.
Proof.
  intros Hml Hclf Hden. split; [|split; [|split]].
  - intros e Hraise.
    pose proof (learned_group_frame data w Hclf) as Hframe.
    unfold predict_group, bind, gets, ret, try_except, lift.
    rewrite Hml, Hclf. cbn [andb].
    destruct (_predict_with_ml data w) as [[gp|e'] w1]; cbn in *;
      [discriminate|]. subst w1.
    destruct (_predict_with_rules (settings w) data); reflexivity.
  - intros e Hraise.
    unfold predict_denial_risk, bind, gets, try_except, lift.
    rewrite Hml, Hden, Hraise. reflexivity.
  - intros next. now rewrite predict_group_frame, predict_denial_frame.
  - now rewrite predict_group_frame, predict_denial_frame.
Qed.

(** Both learned models loaded from an artifact that raises on every
    record: both calls answer by the rules and leave the process as it was. *)
Lemma C9_learned_failure_falls_back_witness :
  use_ml (prediction_service (Scenario.learned Scenario.broken)) = true
  /\ is_not_none (AGroupClassifier.model
                    (a_group_classifier (Scenario.learned Scenario.broken))) = true
  /\ is_not_none (DenialPredictor.model
                    (denial_predictor (Scenario.learned Scenario.broken))) = true
  /\ fst (_predict_with_ml Scenario.scenario1 (Scenario.learned Scenario.broken))
     = Raise (LibraryError "feature shape mismatch")
  /\ DenialPredictor.predict_risk
       (denial_predictor (Scenario.learned Scenario.broken)) Scenario.scenario1
     = Raise (LibraryError "feature shape mismatch")
  /\ predict_group Scenario.scenario1 (Scenario.learned Scenario.broken)
     = (_predict_with_rules Settings.default Scenario.scenario1,
        Scenario.learned Scenario.broken)
  /\ predict_denial_risk Scenario.scenario1 (Scenario.learned Scenario.broken)
     = (_predict_denial_with_rules Scenario.scenario1,
        Scenario.learned Scenario.broken).
Proof.
  destruct (C9_learned_failure_falls_back Scenario.scenario1
              (Scenario.learned Scenario.broken) eq_refl eq_refl eq_refl)
    as (Hgroup & Hdenial & _).
  do 5 (split; [reflexivity|]).
  split; [exact (Hgroup _ eq_refl)|exact (Hdenial _ eq_refl)].
Defined.

(** ** The recommendation synthesizers (C6) *)

Section Synthesizers.

Lemma prefix_refl (s : string) : String.prefix s s = true.
Proof.
  induction s as [|c s IH]; [reflexivity|]. cbn [String.prefix].
  destruct (ascii_dec c c); [exact IH|congruence].
Qed.

Lemma contains_refl (s : string) : contains s s = true.
Proof. destruct s; cbn [contains]; now rewrite prefix_refl. Qed.

(** A line that ends with the factor holds the factor. *)
Lemma contains_suffix (lead s : string) : contains s (lead +:+ s) = true.
Proof.
  induction lead as [|c lead IH]; [apply contains_refl|].
  change (String c lead +:+ s) with (String c (lead +:+ s)).
  cbn [contains]. rewrite IH. apply orb_true_r.
Qed.

Lemma factor_lines_hold_factors (factors : list string) :
  Forall2 (fun line factor => contains factor line = true)
          (map (fun rf => "위험 요인: " +:+ rf) factors) factors.
Proof.
  induction factors as [|rf factors IH]; constructor; [|exact IH].
  apply contains_suffix.
Qed.

(** The shape of section 4.5 fixes the number of lines. *)
Lemma synthesized_length (up : bool) (level : string)
    (factors out : list string) :
  Spec.synthesized up level factors out ->
  length out
  = ((if up then 1 else 0)
     + (if String.eqb level "MEDIUM" || String.eqb level "HIGH" then 1 else 0)
     + length factors)%nat.
Proof.
  intros (u & l & f & -> & Hu & Hl & Hf).
  rewrite !length_app, Hu, Hl, (Forall2_length _ _ _ Hf). lia.
Qed.

End Synthesizers.

(** C6, as stated: at scenario 2 with no model loaded the risk scorer
    records three factors, and the service's synthesizer returns the one
    risk-level line without any of them; on a [MEDIUM] risk the HIM service's
    synthesizer returns the factor lines without a risk-level line.  Neither
    list has the shape the claim describes. *)
Lemma C6_synthesizers_differ_from_the_stated_order :
  (exists r : Assessment,
      fst (predict_comprehensive Scenario.scenario2 Scenario.rule_based) = Ok r
      /\ DenialRisk.risk_factors (denial_risk r)
         = ["주진단 미기재"; "진단 코드 불명확"; "비정상 재원일수: 400일"]
      /\ recommendations r = ["청구 삭감 위험: HIGH"]
      /\ ~ Spec.synthesized (can_upgrade (group_prediction r))
                            (DenialRisk.risk_level (denial_risk r))
                            (DenialRisk.risk_factors (denial_risk r))
                            (recommendations r))
  /\ (let results :=
        {| HIMService.group_prediction := None;
           HIMService.denial_risk :=
             Some {| DenialRisk.denial_probability := 0.5;
                     DenialRisk.risk_level := "MEDIUM";
                     DenialRisk.risk_factors := ["주진단 미기재"];
                     DenialRisk.recommendations := None |};
           HIMService.extracted_entities := None;
           HIMService.upgrade_suggestions := None;
           HIMService.recommendations := None;
           HIMService.admission_id := None |} in
      HIMService._generate_recommendations results = ["위험 요인: 주진단 미기재"]
      /\ ~ Spec.synthesized false "MEDIUM" ["주진단 미기재"]
                            (HIMService._generate_recommendations results)).
Proof.
  split.
  - eexists. split; [vm_compute; reflexivity|].
    split; [reflexivity|]. split; [reflexivity|].
    intros H. apply synthesized_length in H. vm_compute in H. discriminate.
  - split; [reflexivity|].
    intros H. apply synthesized_length in H. vm_compute in H. discriminate.
Qed.

(** C6, amended: the prediction service's synthesizer returns the
    upgrade-probability line when [can_upgrade] is true, then the risk-level
    line when the level is [HIGH] or [MEDIUM], and nothing else: no risk
    factor is appended.  The HIM service's synthesizer returns its upgrade
    line when [can_upgrade] is true, then its high-risk line when the level is
    [HIGH] only, then one line per risk factor, in the scorer's order, each
    holding its factor; so it has the shape of section 4.5 whenever the level
    is not [MEDIUM]. *)
Theorem C6_recommendation_order
    (group_pred : GroupPrediction) (denial_pred : DenialRisk.t)
    (classified : AGroupClassifier.Prediction)
    (entities : option (list HIMService.Entity * list HIMService.Entity))
    (advice : option HIMService.UpgradeAdvice) :
  _generate_recommendations group_pred denial_pred
  = ((if can_upgrade group_pred
      then ["A그룹 전환 가능성: "
            +:+ format_1f (a_group_probability group_pred * 100)%float +:+ "%"]
      else [])
     ++ (if String.eqb (DenialRisk.risk_level denial_pred) "HIGH"
            || String.eqb (DenialRisk.risk_level denial_pred) "MEDIUM"
         then ["청구 삭감 위험: " +:+ DenialRisk.risk_level denial_pred]
         else []))%list
  /\ (let results :=
        {| HIMService.group_prediction := Some classified;
           HIMService.denial_risk := Some denial_pred;
           HIMService.extracted_entities := entities;
           HIMService.upgrade_suggestions := advice;
           HIMService.recommendations := None;
           HIMService.admission_id := None |} in
      HIMService._generate_recommendations results
      = ((if AGroupClassifier.can_upgrade classified
          then ["A그룹 전환 가능성 있음 ("
                +:+ format_1f (AGroupClassifier.a_group_probability classified * 100)%float
                +:+ "%)"]
          else [])
         ++ (if String.eqb (DenialRisk.risk_level denial_pred) "HIGH"
             then ["삭감 위험도 높음 ("
                   +:+ format_1f (DenialRisk.denial_probability denial_pred * 100)%float
                   +:+ "%)"]
             else [])
         ++ map (fun rf => "위험 요인: " +:+ rf)
                (DenialRisk.risk_factors denial_pred))%list
      /\ (String.eqb (DenialRisk.risk_level denial_pred) "MEDIUM" = false ->
          Spec.synthesized (AGroupClassifier.can_upgrade classified)
                           (DenialRisk.risk_level denial_pred)
                           (DenialRisk.risk_factors denial_pred)
                           (HIMService._generate_recommendations results))).
Proof.
  split.
  - unfold _generate_recommendations, append. cbn [existsb].
    rewrite orb_false_r.
    destruct (can_upgrade group_pred), (String.eqb _ "HIGH"), (String.eqb _ "MEDIUM");
      reflexivity.
  - intros results.
    assert (Hform : HIMService._generate_recommendations results
                    = ((if AGroupClassifier.can_upgrade classified
                        then ["A그룹 전환 가능성 있음 ("
                              +:+ format_1f (AGroupClassifier.a_group_probability classified * 100)%float
                              +:+ "%)"]
                        else [])
                       ++ (if String.eqb (DenialRisk.risk_level denial_pred) "HIGH"
                           then ["삭감 위험도 높음 ("
                                 +:+ format_1f (DenialRisk.denial_probability denial_pred * 100)%float
                                 +:+ "%)"]
                           else [])
                       ++ map (fun rf => "위험 요인: " +:+ rf)
                              (DenialRisk.risk_factors denial_pred))%list).
    { unfold HIMService._generate_recommendations, append, results.
      cbn [HIMService.group_prediction HIMService.denial_risk].
      destruct (AGroupClassifier.can_upgrade classified),
        (String.eqb (DenialRisk.risk_level denial_pred) "HIGH"),
        (DenialRisk.risk_factors denial_pred); reflexivity. }
    split; [exact Hform|].
    intros Hmedium. rewrite Hform. unfold Spec.synthesized.
    eexists _, _, _. split; [reflexivity|].
    split; [destruct (AGroupClassifier.can_upgrade classified); reflexivity|].
    split; [|apply factor_lines_hold_factors].
    rewrite Hmedium. cbn [orb].
    destruct (String.eqb (DenialRisk.risk_level denial_pred) "HIGH"); reflexivity.
Qed.

(** ** Batch prediction (C8) *)

Section Batch.

(** The HIM service's loop makes one entry per record and never raises. *)
Lemma him_batch_loop_run (ds : list pydict) :
  forall (acc : list HIMService.BatchEntry) (env : HIMService.Env),
  exists entries env',
    HIMService.batch_loop ds acc env = (Ok (acc ++ entries)%list, env')
    /\ Spec.batch_run ds env entries env'.
Proof.
  induction ds as [|d rest IH]; intros acc env.
  - exists [], env. rewrite app_nil_r. split; [reflexivity|constructor].
  - cbn [HIMService.batch_loop]. unfold bind, try_except, ret, append.
    destruct (HIMService.predict_admission_outcome d env) as [[p|e] env1] eqn:E.
    + destruct (IH (acc ++ [HIMService.Prediction
                              (Spec.with_admission_id p
                                 (dict_get d "admission_id" PyNone))])%list env1)
        as (entries & env' & Hloop & Hrun).
      eexists (_ :: entries), env'. split.
      * unfold Spec.with_admission_id in Hloop. rewrite Hloop.
        now rewrite <- app_assoc.
      * eapply Spec.batch_predicted; eassumption.
    + destruct (IH (acc ++ [HIMService.Error (dict_get d "admission_id" PyNone)
                              (exn_message e)])%list env1)
        as (entries & env' & Hloop & Hrun).
      eexists (_ :: entries), env'. split.
      * rewrite Hloop. now rewrite <- app_assoc.
      * eapply Spec.batch_failed; eassumption.
Qed.

Lemma batch_run_length (ds : list pydict) (env env' : HIMService.Env)
    (entries : list HIMService.BatchEntry) :
  Spec.batch_run ds env entries env' -> length entries = length ds.
Proof. induction 1; cbn; congruence. Qed.

Lemma batch_run_ids (ds : list pydict) (env env' : HIMService.Env)
    (entries : list HIMService.BatchEntry) :
  Spec.batch_run ds env entries env' ->
  forall (i : nat) (d : pydict),
    ds !! i = Some d ->
    exists entry,
      entries !! i = Some entry
      /\ Spec.entry_admission_id entry = Some (dict_get d "admission_id" PyNone).
Proof.
  induction 1 as [env|d0 rest env env1 env' p entries Hp Hrun IH
                     |d0 rest env env1 env' e entries Hp Hrun IH];
    intros i d Hi.
  - destruct i; discriminate.
  - destruct i as [|i]; [|exact (IH i d Hi)].
    injection Hi as <-. eexists. split; reflexivity.
  - destruct i as [|i]; [|exact (IH i d Hi)].
    injection Hi as <-. eexists. split; reflexivity.
Qed.

(** The records the routes build hold the request's diagnosis as a string. *)
Lemma batch_data_diagnosis (i : nat) (req : schemas.GroupPredictionRequest) :
  dict_get (predictions.batch_admission_data i req) "principal_diagnosis" (PyStr "")
  = PyStr (schemas.principal_diagnosis req).
Proof. reflexivity. Qed.

Lemma rules_return (cfg : Settings.t) (data : pydict) (d : string) :
  dict_get data "principal_diagnosis" (PyStr "") = PyStr d ->
  exists gp : GroupPrediction, _predict_with_rules cfg data = Ok gp.
Proof.
  intros Hd. unfold _predict_with_rules. rewrite Hd.
  unfold method_startswith. cbn [rbind].
  destruct (startswith d _); cbn [rbind];
    [|destruct (startswith d _); cbn [rbind]]; eexists; reflexivity.
Qed.

(** On a record whose diagnosis is a string, [predict_group] returns, by
    the learned classifier or, when that raises, by the rules. *)
Lemma predict_group_returns (data : pydict) (d : string) (w : Process) :
  dict_get data "principal_diagnosis" (PyStr "") = PyStr d ->
  exists gp : GroupPrediction,
    predict_group data w = (Ok gp, w)
    /\ (forall e : exn,
           use_ml (prediction_service w) = true ->
           is_not_none (AGroupClassifier.model (a_group_classifier w)) = true ->
           fst (_predict_with_ml data w) = Raise e ->
           _predict_with_rules (settings w) data = Ok gp).
Proof.
  intros Hd. destruct (rules_return (settings w) data d Hd) as (rp & Hrules).
  pose proof (predict_group_frame data w) as Hframe. revert Hframe.
  unfold predict_group, bind, gets, ret, try_except, lift. rewrite Hrules.
  destruct (use_ml (prediction_service w)); cbn [andb].
  - destruct (is_not_none _).
    + destruct (_predict_with_ml data w) as [[gp|e'] w1]; cbn [fst snd];
        intros ->.
      * exists gp. split; [reflexivity|]. intros e _ _ H. discriminate.
      * exists rp. split; [reflexivity|]. reflexivity.
    + intros _. exists rp. split; [reflexivity|]. intros e _ H. discriminate.
  - intros _. exists rp. split; [reflexivity|]. intros e H. discriminate.
Qed.

Lemma api_batch_loop (requests : list schemas.GroupPredictionRequest) (w : Process) :
  forall (i : nat) (acc : list predictions.BatchItem),
  exists items : list predictions.BatchItem,
    predictions.batch_loop requests i acc w = (Ok (acc ++ items)%list, w)
    /\ length items = length requests
    /\ (forall (k : nat) (req : schemas.GroupPredictionRequest),
           requests !! k = Some req ->
           exists gp : GroupPrediction,
             predict_group (predictions.batch_admission_data (i + k) req) w = (Ok gp, w)
             /\ items !! k = Some (Spec.batch_item (i + k) gp)
             /\ (forall e : exn,
                    use_ml (prediction_service w) = true ->
                    is_not_none (AGroupClassifier.model (a_group_classifier w))
                    = true ->
                    fst (_predict_with_ml (predictions.batch_admission_data (i + k) req) w)
                    = Raise e ->
                    _predict_with_rules (settings w)
                      (predictions.batch_admission_data (i + k) req) = Ok gp)).
Proof.
  induction requests as [|req rest IH]; intros i acc.
  - exists []. rewrite app_nil_r. split; [reflexivity|]. split; [reflexivity|].
    intros k r Hk. destruct k; discriminate.
  - destruct (predict_group_returns (predictions.batch_admission_data i req) _ w
                (batch_data_diagnosis i req)) as (gp & Hgp & Hfallback).
    destruct (IH (S i) (append acc (Spec.batch_item i gp)))
      as (items & Hloop & Hlen & Hitems).
    exists (Spec.batch_item i gp :: items). split; [|split].
    + cbn [predictions.batch_loop]. unfold bind at 1. rewrite Hgp.
      change (predictions.batch_loop rest (S i) (append acc (Spec.batch_item i gp)) w
              = (Ok (acc ++ Spec.batch_item i gp :: items)%list, w)).
      rewrite Hloop. unfold append. now rewrite <- app_assoc.
    + cbn. now rewrite Hlen.
    + intros [|k] r Hk.
      * injection Hk as <-. rewrite Nat.add_0_r. exists gp.
        split; [exact Hgp|]. split; [reflexivity|exact Hfallback].
      * rewrite <- plus_n_Sm. exact (Hitems k r Hk).
Qed.

End Batch.

(** C8: a batch over N records returns exactly N results, the i-th one
    carrying the identifier of the i-th input, and no record's failure aborts
    the batch.  The HIM service's [batch_predict_admissions] never raises: it
    runs the records in order, and a record whose prediction raises is
    entered as an error entry under its own identifier while the others are
    entered with their predictions.  The batch route never answers with an
    error: each request is entered as [batch_i] with the group prediction of
    its record, which is the rule-based one when the learned classifier
    raises on it.  Scenario 4: of a record with a null length of stay and a
    sound record, the first is entered as an error and the second as a
    prediction. *)
Theorem C8_batch_prediction
    (admissions_data : list pydict) (env : HIMService.Env)
    (requests : list schemas.GroupPredictionRequest) (w : Process) :
  (exists (entries : list HIMService.BatchEntry) (env' : HIMService.Env),
      HIMService.batch_predict_admissions admissions_data env = (Ok entries, env')
      /\ Spec.batch_run admissions_data env entries env'
      /\ length entries = length admissions_data
      /\ (forall (i : nat) (d : pydict),
             admissions_data !! i = Some d ->
             exists entry : HIMService.BatchEntry,
               entries !! i = Some entry
               /\ Spec.entry_admission_id entry
                  = Some (dict_get d "admission_id" PyNone)))
  /\ (exists items : list predictions.BatchItem,
         predictions.batch_predict requests w
         = (Ok (predictions.HTTP200
                  {| predictions.results := items;
                     predictions.count := length requests |}), w)
         /\ length items = length requests
         /\ (forall (i : nat) (req : schemas.GroupPredictionRequest),
                requests !! i = Some req ->
                exists gp : GroupPrediction,
                  predict_group (predictions.batch_admission_data i req) w
                  = (Ok gp, w)
                  /\ items !! i = Some (Spec.batch_item i gp)
                  /\ (forall e : exn,
                         use_ml (prediction_service w) = true ->
                         is_not_none
                           (AGroupClassifier.model (a_group_classifier w)) = true ->
                         fst (_predict_with_ml
                                (predictions.batch_admission_data i req) w)
                         = Raise e ->
                         _predict_with_rules (settings w)
                           (predictions.batch_admission_data i req) = Ok gp)))
  /\ (exists (message : string) (prediction : HIMService.Results)
             (env' : HIMService.Env),
         HIMService.batch_predict_admissions
           [Scenario.corrupt_record; Scenario.sound_record]
           (Scenario.him_env Scenario.steady)
         = (Ok [HIMService.Error (PyStr "ADM001") message;
                HIMService.Prediction prediction], env')
         /\ HIMService.admission_id prediction = Some (PyStr "ADM002")
         /\ is_not_none (HIMService.group_prediction prediction) = true
         /\ is_not_none (HIMService.denial_risk prediction) = true).
Proof.
  split; [|split].
  - destruct (him_batch_loop_run admissions_data [] env)
      as (entries & env' & Hloop & Hrun).
    exists entries, env'. split; [exact Hloop|]. split; [exact Hrun|].
    split; [eapply batch_run_length, Hrun|eapply batch_run_ids, Hrun].
  - destruct (api_batch_loop requests w 0%nat []) as (items & Hloop & Hlen & Hitems).
    exists items. split; [|split; [exact Hlen|exact Hitems]].
    unfold predictions.batch_predict, try_except, bind, ret.
    rewrite Hloop. cbn [app]. now rewrite Hlen.
  - eexists _, _, _. split; [vm_compute; reflexivity|]. repeat split.
Qed.

(** ** Records with a null length of stay (C2) *)

Section NullStay.

Lemma service_rules_null_stay (data : pydict) (d : string) :
  dict_get data "principal_diagnosis" (PyStr "") = PyStr d ->
  dict_get data "length_of_stay" (PyInt 0) = PyNone ->
  _predict_denial_with_rules data = Raise TypeError.
Proof.
  intros Hd Hlos. unfold _predict_denial_with_rules. rewrite Hd, Hlos.
  cbn [truthy len rbind int_operand].
  destruct (negb (negb _)), (py_len d <? 3)%nat; reflexivity.
Qed.

(** The predictor raises too, whether it holds a model or not. *)
Lemma predictor_null_stay (self : DenialPredictor.t) (data : pydict) :
  dict_get data "length_of_stay" (PyInt 0) = PyNone ->
  exists e : exn, DenialPredictor.predict_risk self data = Raise e.
Proof.
  intros Hlos. unfold DenialPredictor.predict_risk.
  destruct (DenialPredictor.model self) as [est|].
  - destruct (predict_proba est data) as [proba|e]; cbn [rbind]; [|eauto].
    unfold DenialPredictor._identify_risk_factors. rewrite Hlos.
    cbn [int_operand rbind]. eauto.
  - unfold DenialPredictor._rule_based_prediction. rewrite Hlos.
    destruct (negb (truthy _)); cbn [int_operand rbind]; eauto.
Qed.

Lemma denial_null_stay (data : pydict) (d : string) (w : Process) :
  dict_get data "principal_diagnosis" (PyStr "") = PyStr d ->
  dict_get data "length_of_stay" (PyInt 0) = PyNone ->
  predict_denial_risk data w = (Raise TypeError, w).
Proof.
  intros Hd Hlos.
  unfold predict_denial_risk, bind, gets, try_except, lift.
  rewrite (service_rules_null_stay data d Hd Hlos).
  destruct (use_ml _ && is_not_none _); [|reflexivity].
  destruct (predictor_null_stay (denial_predictor w) data Hlos) as (e & ->).
  reflexivity.
Qed.

Lemma comprehensive_null_stay (data : pydict) (d : string) (w : Process) :
  dict_get data "principal_diagnosis" (PyStr "") = PyStr d ->
  dict_get data "length_of_stay" (PyInt 0) = PyNone ->
  predict_comprehensive data w = (Raise TypeError, w).
Proof.
  intros Hd Hlos.
  destruct (predict_group_returns data d w Hd) as (gp & Hgp & _).
  unfold predict_comprehensive, bind at 1. rewrite Hgp.
  unfold bind at 1. now rewrite (denial_null_stay data d w Hd Hlos).
Qed.

End NullStay.

(** C2 fails on the code: a request that leaves [length_of_stay] out reaches
    the service as a record whose ["length_of_stay"] is [None]; in every
    process, [predict_group] returns on it, but [predict_denial_risk] and
    [predict_comprehensive] raise [TypeError] (the rule-based scorer compares
    [None] with 1), and both routes answer with the error of status 500,
    whose detail is the route's prefix followed by the text of that
    exception.  So it is for the request of the repository's own test
    [test_predict_comprehensive_with_admission_id], which expects status 200. *)
Theorem C2_null_length_of_stay_raises
    (w : Process) (diagnosis : string) (secondary procedures : list string)
    (age : option Z) (gender department notes : option string)
    (admission_id : option string) :
  let request :=
    {| schemas.principal_diagnosis := diagnosis;
       schemas.secondary_diagnoses := secondary;
       schemas.procedures := procedures;
       schemas.age := age;
       schemas.gender := gender;
       schemas.department := department;
       schemas.length_of_stay := None;
       schemas.clinical_notes := notes |} in
  (exists gp : GroupPrediction,
      predict_group (predictions.comprehensive_admission_data request admission_id) w
      = (Ok gp, w))
  /\ predict_denial_risk (predictions.common_fields request) w
     = (Raise TypeError, w)
  /\ predict_comprehensive
       (predictions.comprehensive_admission_data request admission_id) w
     = (Raise TypeError, w)
  /\ (exists message : string,
         predictions.predict_denial_risk request w
         = (Ok (predictions.HTTP500 ("위험도 예측 중 오류 발생: " +:+ message)), w))
  /\ (exists message : string,
         predictions.predict_comprehensive request admission_id w
         = (Ok (predictions.HTTP500 ("종합 예측 중 오류 발생: " +:+ message)), w))
  /\ (exists message : string,
         fst (predictions.predict_comprehensive Scenario.request_a01
                (Some "ADM001") Scenario.rule_based)
         = Ok (predictions.HTTP500 ("종합 예측 중 오류 발생: " +:+ message))).
Proof.
  intros request.
  assert (Hd1 : dict_get (predictions.common_fields request)
                  "principal_diagnosis" (PyStr "") = PyStr diagnosis)
    by reflexivity.
  assert (Hl1 : dict_get (predictions.common_fields request)
                  "length_of_stay" (PyInt 0) = PyNone) by reflexivity.
  assert (Hd2 : dict_get (predictions.comprehensive_admission_data request admission_id)
                  "principal_diagnosis" (PyStr "") = PyStr diagnosis)
    by reflexivity.
  assert (Hl2 : dict_get (predictions.comprehensive_admission_data request admission_id)
                  "length_of_stay" (PyInt 0) = PyNone) by reflexivity.
  pose proof (denial_null_stay _ _ w Hd1 Hl1) as Hdenial.
  pose proof (comprehensive_null_stay _ _ w Hd2 Hl2) as Hcomp.
  split; [|split; [exact Hdenial|split; [exact Hcomp|split; [|split]]]].
  - destruct (predict_group_returns _ _ w Hd2) as (gp & Hgp & _). eauto.
  - eexists. unfold predictions.predict_denial_risk, try_except, bind at 1.
    rewrite Hdenial. reflexivity.
  - eexists. unfold predictions.predict_comprehensive, try_except, bind at 1.
    rewrite Hcomp. reflexivity.
  - exists (exn_message TypeError). reflexivity.
Qed.

(** * Further properties of the code *)

(** ** Construction of the service *)


(** X2: the service has one flag for both models.  When the classifier
    artifact is missing, the denial predictor loads its own artifact all the
    same, yet [predict_denial_risk] answers by the rules on every record;
    when both artifacts load, it answers with what the learned predictor
    returns. *)
Theorem X2_denial_mode_follows_classifier
    (cfg : Settings.t) (classifier scorer : Estimator) (data : pydict) :
  (let w := Scenario.boot cfg {| a_group_classifier_pkl := None;
                                 a_group_classifier_pkl_rest := false;
                                 denial_predictor_pkl := Some scorer |} in
   DenialPredictor.model (denial_predictor w) = Some scorer
   /\ predict_denial_risk data w = (_predict_denial_with_rules data, w))
  /\ (let w := Scenario.boot cfg {| a_group_classifier_pkl := Some classifier;
                                    a_group_classifier_pkl_rest := true;
                                    denial_predictor_pkl := Some scorer |} in
      forall r : DenialRisk.t,
        DenialPredictor.predict_risk {| DenialPredictor.model := Some scorer |} data
        = Ok r ->
        predict_denial_risk data w = (Ok r, w)).
Proof.
  split.
  - split; reflexivity.
  - intros w r Hr. unfold predict_denial_risk, bind, gets, try_except, lift.
    change (denial_predictor w) with {| DenialPredictor.model := Some scorer |}.
    change (use_ml (prediction_service w)) with true. cbn [andb is_not_none
      DenialPredictor.model]. now rewrite Hr.
Qed.

(** ** What every group prediction satisfies *)

Section GroupInvariants.

(** The three fields that the other fields of a group prediction determine. *)
Local Abbreviation consistent cfg gp :=
  (drg_code gp = str (predicted_group gp) +:+ "001"
   /\ can_upgrade gp = ge (a_group_probability gp) (Settings.A_GROUP_THRESHOLD cfg)
   /\ upgrade_suggestions gp
      = _get_upgrade_suggestions (predicted_group gp) PyNone).

Lemma suggestions_ignore_diagnosis (group : label) (v v' : pyval) :
  _get_upgrade_suggestions group v = _get_upgrade_suggestions group v'.
Proof. reflexivity. Qed.

Lemma rules_consistent (cfg : Settings.t) (data : pydict) (gp : GroupPrediction) :
  _predict_with_rules cfg data = Ok gp -> consistent cfg gp.
Proof.
  unfold _predict_with_rules.
  destruct (method_startswith _ _) as [[|]|]; cbn [rbind]; [| |discriminate].
  - intros [= <-]. repeat split.
  - destruct (method_startswith _ _) as [[|]|]; cbn [rbind]; [| |discriminate];
      intros [= <-]; repeat split.
Qed.

Lemma learned_consistent (data : pydict) (w : Process) (gp : GroupPrediction) :
  fst (_predict_with_ml data w) = Ok gp -> consistent (settings w) gp.
Proof.
  unfold _predict_with_ml, bind, gets, zoom, ret.
  destruct (AGroupClassifier.predict _ _ _ _) as [[out|e] self']; cbn [fst];
    [|discriminate].
  intros [= <-]. repeat split.
Qed.

Lemma predict_group_consistent (data : pydict) (w : Process) (gp : GroupPrediction) :
  fst (predict_group data w) = Ok gp -> consistent (settings w) gp.
Proof.
  unfold predict_group, bind, gets, ret, try_except, lift.
  destruct (use_ml _ && is_not_none _).
  - destruct (_predict_with_ml data w) as [[gp'|e] w1] eqn:E.
    + cbn [fst]. intros [= <-]. apply (learned_consistent data w).
      now rewrite E.
    + destruct (_predict_with_rules (settings w) data) eqn:R; cbn [fst];
        [|discriminate].
      intros [= <-]. eapply rules_consistent, R.
  - destruct (_predict_with_rules (settings w) data) eqn:R; cbn [fst];
      [|discriminate].
    intros [= <-]. eapply rules_consistent, R.
Qed.

End GroupInvariants.

(** X3: whichever path answers, a prediction that [predict_group] returns has
    the group followed by 001 as its code, has [can_upgrade] set exactly when
    its A-group probability reaches the configured threshold, and carries the
    suggestions of the static table for its group: three for B, two for C,
    none for any other group. *)
Theorem X3_group_prediction_is_consistent
    (data : pydict) (w : Process) (gp : GroupPrediction) :
  fst (predict_group data w) = Ok gp ->
  drg_code gp = str (predicted_group gp) +:+ "001"
  /\ can_upgrade gp
     = ge (a_group_probability gp) (Settings.A_GROUP_THRESHOLD (settings w))
  /\ length (upgrade_suggestions gp)
     = (if label_eq (predicted_group gp) "B" then 3
        else if label_eq (predicted_group gp) "C" then 2 else 0)%nat
  /\ Forall (fun s => (0 <? expected_impact s)%float = true
                      /\ (expected_impact s <? 1)%float = true)
            (upgrade_suggestions gp).
Proof.
  intros Hrun. destruct (predict_group_consistent data w gp Hrun) as (Hc & Hu & Hs).
  split; [exact Hc|]. split; [exact Hu|]. rewrite Hs.
  unfold _get_upgrade_suggestions.
  destruct (label_eq (predicted_group gp) "B");
    [|destruct (label_eq (predicted_group gp) "C")];
    (split; [reflexivity|]); repeat constructor.
Qed.

(** The learned classifier of scenario 1's record answers group B. *)
Lemma X3_group_prediction_is_consistent_witness :
  exists gp : GroupPrediction,
    fst (predict_group Scenario.scenario1 (Scenario.learned Scenario.steady)) = Ok gp
    /\ predicted_group gp = "B"
    /\ drg_code gp = str (predicted_group gp) +:+ "001"
    /\ can_upgrade gp
       = ge (a_group_probability gp)
            (Settings.A_GROUP_THRESHOLD (settings (Scenario.learned Scenario.steady)))
    /\ length (upgrade_suggestions gp) = 3%nat.
Proof.
  destruct (fst (predict_group Scenario.scenario1 (Scenario.learned Scenario.steady)))
    as [gp|e] eqn:E.
  - exists gp. split; [reflexivity|].
    destruct (X3_group_prediction_is_consistent _ _ _ E) as (Hc & Hu & Hl & _).
    assert (Hg : predicted_group gp = "B")
      by (vm_compute in E; injection E as <-; reflexivity).
    rewrite Hg in Hl. repeat split; assumption.
  - vm_compute in E. discriminate.
Defined.

(** ** The group route *)

Section GroupRoute.

(** The rules name their group by a string. *)
Lemma rules_group_is_text (cfg : Settings.t) (data : pydict) (gp : GroupPrediction) :
  _predict_with_rules cfg data = Ok gp ->
  exists group : string, predicted_group gp = LStr group.
Proof.
  unfold _predict_with_rules.
  destruct (method_startswith _ _) as [[|]|]; cbn [rbind]; [| |discriminate].
  - intros [= <-]. eauto.
  - destruct (method_startswith _ _) as [[|]|]; cbn [rbind]; [| |discriminate];
      intros [= <-]; eauto.
Qed.

(** The learned path answers with one of the classes of the model. *)
Lemma learned_group_is_class (data : pydict) (w : Process) (est : Estimator)
    (gp : GroupPrediction) :
  AGroupClassifier.model (a_group_classifier w) = Some est ->
  fst (_predict_with_ml data w) = Ok gp ->
  In (predicted_group gp) (classes_ est).
Proof.
  intros Hmodel. unfold _predict_with_ml, bind, gets, zoom, ret.
  unfold AGroupClassifier.predict, bind, gets, ret, lift.
  rewrite Hmodel. cbn [fst snd]. rewrite Hmodel.
  destruct (predict_proba est data) as [proba|]; cbn [rbind fst]; [|discriminate].
  destruct (AGroupClassifier.group_probs_loop _ _ _ _); cbn [rbind fst];
    [|discriminate].
  destruct (numpy.argmax proba) as [winner|]; cbn [rbind fst]; [|discriminate].
  destruct (nth_error (classes_ est) winner) as [cls|] eqn:Hcls; cbn [rbind fst];
    [|discriminate].
  destruct (numpy.max proba); cbn [rbind fst]; [|discriminate].
  intros [= <-]. cbn [predicted_group AGroupClassifier.predicted_group].
  eapply nth_error_In, Hcls.
Qed.

Lemma predict_group_numbered (data : pydict) (w : Process) (gp : GroupPrediction)
    (number : Z) :
  fst (predict_group data w) = Ok gp ->
  predicted_group gp = LInt number ->
  use_ml (prediction_service w) = true
  /\ exists est : Estimator,
       AGroupClassifier.model (a_group_classifier w) = Some est
       /\ In (LInt number) (classes_ est).
Proof.
  unfold predict_group, bind, gets, ret, try_except, lift.
  destruct (use_ml (prediction_service w)); cbn [andb].
  - destruct (AGroupClassifier.model (a_group_classifier w)) as [est|] eqn:Hmodel;
      cbn [is_not_none].
    + destruct (_predict_with_ml data w) as [[gp'|e] w1] eqn:E.
      * cbn [fst]. intros [= <-] Hnumber. split; [reflexivity|].
        exists est. split; [reflexivity|]. rewrite <- Hnumber.
        apply (learned_group_is_class data w est gp' Hmodel). now rewrite E.
      * destruct (_predict_with_rules (settings w) data) eqn:R; cbn [fst];
          [|discriminate].
        intros [= <-] Hnumber.
        destruct (rules_group_is_text _ _ _ R) as (group & Hgroup). congruence.
    + destruct (_predict_with_rules (settings w) data) eqn:R; cbn [fst];
        [|discriminate].
      intros [= <-] Hnumber.
      destruct (rules_group_is_text _ _ _ R) as (group & Hgroup). congruence.
  - destruct (_predict_with_rules (settings w) data) eqn:R; cbn [fst];
      [|discriminate].
    intros [= <-] Hnumber.
    destruct (rules_group_is_text _ _ _ R) as (group & Hgroup). congruence.
Qed.

End GroupRoute.

(** X4: the group route never raises and leaves the process as it was.  The
    service's prediction for the record the route builds always returns.
    When its group is a string, the route answers with status 200 and a body
    that carries the group, the confidence and the code of that prediction
    and the descriptions of its suggestions.  When its group is an integer,
    the response model rejects it and the route answers with status 500
    instead; this happens only on the learned path, with a model that has
    that integer among its classes, as in the process that loaded the
    numbered estimator. *)
Theorem X4_group_route_always_answers
    (request : schemas.GroupPredictionRequest) (w : Process) :
  exists gp : GroupPrediction,
    predict_group
      (<["clinical_notes" := predictions.notes_or_empty request]>
         (predictions.common_fields request)) w = (Ok gp, w)
    /\ match predicted_group gp with
       | LStr group =>
           predictions.predict_group request w
           = (Ok (predictions.HTTP200
                    {| schemas.predicted_group := group;
                       schemas.confidence := confidence gp;
                       schemas.drg_code := Some (group +:+ "001");
                       schemas.upgrade_suggestions :=
                         Some (map description (upgrade_suggestions gp)) |}), w)
       | LInt number =>
           (exists detail : string,
               predictions.predict_group request w
               = (Ok (predictions.HTTP500 detail), w))
           /\ use_ml (prediction_service w) = true
           /\ (exists est : Estimator,
                  AGroupClassifier.model (a_group_classifier w) = Some est
                  /\ In (LInt number) (classes_ est))
       end
    /\ (exists detail : string,
           predictions.predict_group request (Scenario.learned Fixture.numbered)
           = (Ok (predictions.HTTP500 detail), Scenario.learned Fixture.numbered)).
Proof.
  assert (Hd : dict_get
                 (<["clinical_notes" := predictions.notes_or_empty request]>
                    (predictions.common_fields request))
                 "principal_diagnosis" (PyStr "")
               = PyStr (schemas.principal_diagnosis request)) by reflexivity.
  destruct (predict_group_returns _ _ w Hd) as (gp & Hgp & _).
  exists gp. split; [exact Hgp|]. split.
  - pose proof (f_equal fst Hgp) as Hfst. cbn [fst] in Hfst.
    destruct (predict_group_consistent _ w gp Hfst) as (Hcode & _).
    pose proof (fun number => predict_group_numbered _ w gp number Hfst)
      as Hnumbered.
    unfold predictions.predict_group, try_except, bind, ret, lift. rewrite Hgp.
    unfold predictions.group_response. rewrite Hcode.
    destruct (predicted_group gp) as [group|number].
    + reflexivity.
    + split; [eexists; reflexivity|]. exact (Hnumbered number eq_refl).
  - eexists. reflexivity.
Qed.

(** ** The comprehensive assessment as a composition *)

(** X5: [predict_comprehensive] leaves the process as it was, whether it
    returns or raises.  When it returns, its group prediction and its denial
    risk are exactly what [predict_group] and [predict_denial_risk] return on
    the same record in the same process, it has at most two recommendations,
    and a second call gives the same answer. *)
Theorem X5_comprehensive_composes (data : pydict) (w : Process) :
  snd (predict_comprehensive data w) = w
  /\ predict_comprehensive data (snd (predict_comprehensive data w))
     = predict_comprehensive data w
  /\ (forall r : Assessment,
         fst (predict_comprehensive data w) = Ok r ->
         predict_group data w = (Ok (group_prediction r), w)
         /\ predict_denial_risk data w = (Ok (denial_risk r), w)
         /\ (length (recommendations r) <= 2)%nat).
Proof.
  assert (Hframe : snd (predict_comprehensive data w) = w).
  { pose proof (predict_group_frame data w) as Hg.
    unfold predict_comprehensive, bind at 1.
    destruct (predict_group data w) as [[gp|e] w1]; cbn [snd] in Hg; subst w1;
      [|reflexivity].
    pose proof (predict_denial_frame data w) as Hd. unfold bind at 1.
    destruct (predict_denial_risk data w) as [[dr|e] w2]; cbn [snd] in Hd;
      subst w2; [|reflexivity].
    unfold bind, lift, ret. rewrite !lookup_insert.
    destruct (decide ("C" = "B")) as [|_]; [discriminate|].
    destruct (decide ("B" = "B")) as [_|]; [|congruence]. reflexivity. }
  split; [exact Hframe|]. split; [now rewrite Hframe|].
  intros r Hr.
  destruct (predict_comprehensive data w) as [res w'] eqn:Hrun.
  cbn [fst snd] in *. subst res w'.
  destruct (comprehensive_inv _ _ _ _ Hrun) as (w1 & Hg & Hd & _ & _ & Hrec).
  pose proof (predict_group_frame data w) as Hgf. rewrite Hg in Hgf.
  cbn [snd] in Hgf. subst w1.
  split; [exact Hg|]. split; [exact Hd|].
  rewrite Hrec. unfold _generate_recommendations, append.
  destruct (can_upgrade _), (existsb _ _); cbn; lia.
Qed.

(** ** The denial routes on the learned path *)

Section LearnedDenial.

(** The predictor's dictionaries have no ["recommendations"] key. *)
Lemma predictor_sets_no_recommendations (self : DenialPredictor.t)
    (claim_data : pydict) (r : DenialRisk.t) :
  DenialPredictor.predict_risk self claim_data = Ok r ->
  DenialRisk.recommendations r = None.
Proof.
  unfold DenialPredictor.predict_risk, DenialPredictor._rule_based_prediction.
  destruct (DenialPredictor.model self) as [est|].
  - destruct (predict_proba est claim_data); cbn [rbind]; [|discriminate].
    destruct (DenialPredictor._identify_risk_factors claim_data); cbn [rbind];
      [|discriminate].
    now intros [= <-].
  - destruct (negb _); destruct (int_operand _) as [days|]; cbn [rbind];
      try discriminate;
      destruct ((days <? 1) || (days >? 365)); destruct (negb _);
      destruct (int_operand _) as [past|]; cbn [rbind]; try discriminate;
      destruct (past >? 0); now intros [= <-].
Qed.

Lemma learned_denial_answer (data : pydict) (w : Process) (r : DenialRisk.t) :
  use_ml (prediction_service w) = true ->
  is_not_none (DenialPredictor.model (denial_predictor w)) = true ->
  DenialPredictor.predict_risk (denial_predictor w) data = Ok r ->
  predict_denial_risk data w = (Ok r, w).
Proof.
  intros Hml Hmodel Hr. unfold predict_denial_risk, bind, gets, try_except, lift.
  now rewrite Hml, Hmodel, Hr.
Qed.

End LearnedDenial.

(** X6: when the learned denial predictor is in use and returns on the
    record of a request, the service returns its dictionary, which has no
    ["recommendations"] key; the denial-risk route then fails on that key and
    answers with status 500 instead of the prediction, and so does the
    comprehensive route. *)
Theorem X6_learned_denial_breaks_the_routes
    (request : schemas.GroupPredictionRequest) (admission_id : option string)
    (w : Process) (r r' : DenialRisk.t) :
  use_ml (prediction_service w) = true ->
  is_not_none (DenialPredictor.model (denial_predictor w)) = true ->
  DenialPredictor.predict_risk (denial_predictor w) (predictions.common_fields request)
  = Ok r ->
  DenialPredictor.predict_risk (denial_predictor w)
    (predictions.comprehensive_admission_data request admission_id) = Ok r' ->
  predict_denial_risk (predictions.common_fields request) w = (Ok r, w)
  /\ DenialRisk.recommendations r = None
  /\ (exists detail : string,
         predictions.predict_denial_risk request w
         = (Ok (predictions.HTTP500 detail), w))
  /\ (exists detail : string,
         predictions.predict_comprehensive request admission_id w
         = (Ok (predictions.HTTP500 detail), w)).
Proof.
  intros Hml Hmodel Hr Hr'.
  pose proof (learned_denial_answer _ w r Hml Hmodel Hr) as Hden.
  pose proof (learned_denial_answer _ w r' Hml Hmodel Hr') as Hden'.
  split; [exact Hden|].
  split; [exact (predictor_sets_no_recommendations _ _ _ Hr)|].
  split.
  - eexists. unfold predictions.predict_denial_risk, try_except, bind at 1.
    rewrite Hden. unfold bind, lift, ret, predictions.denial_response.
    now rewrite (predictor_sets_no_recommendations _ _ _ Hr).
  - assert (Hd : dict_get (predictions.comprehensive_admission_data request admission_id)
                   "principal_diagnosis" (PyStr "")
                 = PyStr (schemas.principal_diagnosis request)) by reflexivity.
    destruct (predict_group_returns _ _ w Hd) as (gp & Hgp & _).
    destruct (predict_comprehensive
                (predictions.comprehensive_admission_data request admission_id) w)
      as [[a|e] w'] eqn:Hrun.
    + destruct (comprehensive_inv _ _ _ _ Hrun) as (w1 & Hg & Hd' & _).
      rewrite Hgp in Hg. injection Hg as Hg <-. rewrite Hden' in Hd'.
      injection Hd' as Hd' <-.
      unfold predictions.predict_comprehensive, try_except, bind at 1.
      rewrite Hrun. unfold bind at 1, lift at 1.
      destruct (predictions.group_response (group_prediction a)) as [body|e];
        [|eexists; reflexivity].
      unfold bind, lift, ret, predictions.denial_response.
      rewrite <- Hd', (predictor_sets_no_recommendations _ _ _ Hr').
      eexists. reflexivity.
    + exfalso. revert Hrun. unfold predict_comprehensive, bind at 1.
      rewrite Hgp. unfold bind at 1. rewrite Hden'.
      unfold bind, lift, ret. rewrite !lookup_insert.
      destruct (decide ("C" = "B")) as [|_]; [discriminate|].
      destruct (decide ("B" = "B")) as [_|]; [|congruence]. discriminate.
Qed.

(** Both models loaded from an artifact that answers every record, and the
    request of [test_predict_group_success]. *)
Lemma X6_learned_denial_breaks_the_routes_witness :
  exists r : DenialRisk.t,
    DenialPredictor.predict_risk
      (denial_predictor (Scenario.learned Scenario.steady))
      (predictions.common_fields Fixture.request_full) = Ok r
    /\ predict_denial_risk (predictions.common_fields Fixture.request_full)
         (Scenario.learned Scenario.steady)
       = (Ok r, Scenario.learned Scenario.steady)
    /\ DenialRisk.recommendations r = None
    /\ (exists detail : string,
           predictions.predict_denial_risk Fixture.request_full
             (Scenario.learned Scenario.steady)
           = (Ok (predictions.HTTP500 detail), Scenario.learned Scenario.steady))
    /\ (exists detail : string,
           predictions.predict_comprehensive Fixture.request_full (Some "ADM001")
             (Scenario.learned Scenario.steady)
           = (Ok (predictions.HTTP500 detail), Scenario.learned Scenario.steady)).
Proof.
  destruct (DenialPredictor.predict_risk
              (denial_predictor (Scenario.learned Scenario.steady))
              (predictions.common_fields Fixture.request_full)) as [r|e] eqn:Hr;
    [|vm_compute in Hr; discriminate].
  destruct (DenialPredictor.predict_risk
              (denial_predictor (Scenario.learned Scenario.steady))
              (predictions.comprehensive_admission_data Fixture.request_full
                 (Some "ADM001"))) as [r'|e] eqn:Hr';
    [|vm_compute in Hr'; discriminate].
  exists r. split; [reflexivity|].
  exact (X6_learned_denial_breaks_the_routes Fixture.request_full (Some "ADM001")
           (Scenario.learned Scenario.steady) r r' eq_refl eq_refl Hr Hr').
Defined.

(** ** The two rule-based scorers *)

Section RuleScores.

Ltac float_neq :=
  let H := fresh in
  intros H; apply (f_equal (fun x => (x =? 0)%float)) in H; vm_compute in H;
  discriminate.

Ltac closed_score :=
  split; [reflexivity|]; split; [reflexivity|];
  split; [split; [first [reflexivity|float_neq]
                 |first [reflexivity|discriminate]]
         |reflexivity].

Lemma service_rules_count (data : pydict) (r : DenialRisk.t) :
  _predict_denial_with_rules data = Ok r ->
  (0 <=? DenialRisk.denial_probability r)%float = true
  /\ (DenialRisk.denial_probability r <=? 1)%float = true
  /\ (DenialRisk.denial_probability r = 0%float <-> DenialRisk.risk_factors r = [])
  /\ DenialRisk.risk_level r
     = (if (3 <=? length (DenialRisk.risk_factors r))%nat then "HIGH"
        else if (2 <=? length (DenialRisk.risk_factors r))%nat then "MEDIUM"
        else "LOW").
Proof.
  unfold _predict_denial_with_rules.
  destruct (negb (truthy _)); destruct (len _) as [n|]; cbn [rbind];
    try discriminate;
    destruct (n <? 3)%nat; destruct (int_operand _) as [days|]; cbn [rbind];
    try discriminate;
    destruct ((days <? 1) || (days >? 365)); intros [= <-]; closed_score.
Qed.

Lemma predictor_rules_count (data : pydict) (r : DenialRisk.t) :
  DenialPredictor._rule_based_prediction data = Ok r ->
  (0 <=? DenialRisk.denial_probability r)%float = true
  /\ (DenialRisk.denial_probability r <=? 1)%float = true
  /\ (DenialRisk.denial_probability r = 0%float <-> DenialRisk.risk_factors r = [])
  /\ DenialRisk.risk_level r
     = (if (3 <=? length (DenialRisk.risk_factors r))%nat then "HIGH"
        else if (2 <=? length (DenialRisk.risk_factors r))%nat then "MEDIUM"
        else "LOW").
Proof.
  unfold DenialPredictor._rule_based_prediction.
  destruct (negb (truthy (dict_get data "principal_diagnosis" PyNone)));
    destruct (int_operand (dict_get data "length_of_stay" _)) as [days|];
    cbn [rbind]; try discriminate;
    destruct ((days <? 1) || (days >? 365));
    destruct (negb (truthy (dict_get data "drg_code" PyNone)));
    destruct (int_operand (dict_get data "past_denials" _)) as [past|];
    cbn [rbind]; try discriminate;
    destruct (past >? 0); intros [= <-]; closed_score.
Qed.

End RuleScores.

(** X7: what either rule-based scorer returns has a probability between 0
    and 1, which is 0 exactly when no factor is recorded, and a tier that
    counts the factors: [LOW] for at most one, [MEDIUM] for two, [HIGH] for
    three or more. *)
Theorem X7_rule_scores_count_factors (data : pydict) (r : DenialRisk.t) :
  _predict_denial_with_rules data = Ok r
  \/ DenialPredictor._rule_based_prediction data = Ok r ->
  (0 <=? DenialRisk.denial_probability r)%float = true
  /\ (DenialRisk.denial_probability r <=? 1)%float = true
  /\ (DenialRisk.denial_probability r = 0%float <-> DenialRisk.risk_factors r = [])
  /\ DenialRisk.risk_level r
     = (if (3 <=? length (DenialRisk.risk_factors r))%nat then "HIGH"
        else if (2 <=? length (DenialRisk.risk_factors r))%nat then "MEDIUM"
        else "LOW").
Proof.
  intros [H|H]; [exact (service_rules_count data r H)
                |exact (predictor_rules_count data r H)].
Qed.

(** Scenario 2 under the service's rules: three factors, tier [HIGH]. *)
Lemma X7_rule_scores_count_factors_witness :
  exists r : DenialRisk.t,
    _predict_denial_with_rules Scenario.scenario2 = Ok r
    /\ length (DenialRisk.risk_factors r) = 3%nat
    /\ (DenialRisk.denial_probability r <=? 1)%float = true
    /\ DenialRisk.risk_level r
       = (if (3 <=? length (DenialRisk.risk_factors r))%nat then "HIGH"
          else if (2 <=? length (DenialRisk.risk_factors r))%nat then "MEDIUM"
          else "LOW").
Proof.
  destruct (_predict_denial_with_rules Scenario.scenario2) as [r|e] eqn:E;
    [|vm_compute in E; discriminate].
  exists r. split; [reflexivity|].
  destruct (X7_rule_scores_count_factors Scenario.scenario2 r (or_introl E))
    as (_ & Hle & _ & Hlevel).
  split; [vm_compute in E; injection E as <-; reflexivity|].
  split; assumption.
Defined.

(** ** The recommendations of the rule-based scorer *)

Section Recommendations.

Lemma append_cons (c : ascii) (s t : string) :
  String c s +:+ t = String c (s +:+ t).
Proof. reflexivity. Qed.

Lemma append_nil (t : string) : "" +:+ t = t.
Proof. reflexivity. Qed.

(** A position where the needle does not start can be skipped. *)
Lemma contains_step (needle : string) (c : ascii) (hay : string) :
  String.prefix needle (String c hay) = false ->
  contains needle (String c hay) = contains needle hay.
Proof. intros H. cbn [contains]. now rewrite H. Qed.

(** A run of bytes none of which starts the needle can be skipped. *)
Lemma contains_skip (lead : ascii) (rest run tail : string) :
  Forall (fun c => c <> lead) (list_ascii_of_string run) ->
  contains (String lead rest) (run +:+ tail) = contains (String lead rest) tail.
Proof.
  induction run as [|c run IH]; intros Hrun; [reflexivity|].
  cbn [list_ascii_of_string] in Hrun. inversion Hrun as [|? ? Hc Hrun']; subst.
  change (String c run +:+ tail) with (String c (run +:+ tail)).
  rewrite contains_step; [exact (IH Hrun')|].
  cbn [String.prefix]. destruct (ascii_dec lead c); [congruence|reflexivity].
Qed.

(** The decimal rendering of an integer holds digits and a sign only. *)
Lemma uint_digits (d : Decimal.uint) :
  Forall (fun c => c <> "236"%char)
         (list_ascii_of_string (NilEmpty.string_of_uint d)).
Proof.
  induction d; cbn [NilEmpty.string_of_uint list_ascii_of_string];
    constructor; try assumption; discriminate.
Qed.

Lemma str_of_int_digits (z : Z) :
  Forall (fun c => c <> "236"%char) (list_ascii_of_string (str_of_int z)).
Proof.
  unfold str_of_int, NilZero.string_of_int.
  assert (Hu : forall d, Forall (fun c => c <> "236"%char)
                           (list_ascii_of_string (NilZero.string_of_uint d))).
  { intros d. unfold NilZero.string_of_uint.
    destruct d; try apply uint_digits. repeat constructor. discriminate. }
  destruct (Z.to_int z) as [d|d]; cbn [list_ascii_of_string]; [apply Hu|].
  constructor; [discriminate|apply Hu].
Qed.

(** The abnormal-stay factor mentions the stay and not the diagnosis. *)
Lemma stay_factor_mentions_stay (days : Z) :
  contains "재원" ("비정상 재원일수: " +:+ str_of_int days +:+ "일") = true.
Proof. reflexivity. Qed.

Lemma stay_factor_skips_diagnosis (days : Z) :
  contains "진단" ("비정상 재원일수: " +:+ str_of_int days +:+ "일") = false.
Proof.
  rewrite !append_cons, append_nil.
  repeat (rewrite contains_step by reflexivity).
  rewrite (contains_skip _ _ _ _ (str_of_int_digits days)). reflexivity.
Qed.

End Recommendations.

(** X8: on a record whose diagnosis is the string [d] and whose length of
    stay is the integer [days], the rule-based scorer recommends checking the
    diagnosis code exactly when the diagnosis is shorter than three
    characters, checking the admission and discharge dates exactly when the
    stay is below 1 or above 365 days, and checking the completeness of the
    record exactly when neither holds; in that order, with nothing else. *)
Theorem X8_rule_recommendations (data : pydict) (d : string) (days : Z) :
  dict_get data "principal_diagnosis" (PyStr "") = PyStr d ->
  dict_get data "length_of_stay" (PyInt 0) = PyInt days ->
  exists r : DenialRisk.t,
    _predict_denial_with_rules data = Ok r
    /\ DenialRisk.recommendations r
       = Some ((if (py_len d <? 3)%nat then ["진단 코드 정확성 확인"] else [])
               ++ (if (days <? 1) || (days >? 365) then ["입퇴원일자 확인"] else [])
               ++ (if (py_len d <? 3)%nat || ((days <? 1) || (days >? 365))
                   then [] else ["기록完整性 확인"]))%list.
Proof.
  intros Hd Hdays. unfold _predict_denial_with_rules. rewrite Hd, Hdays.
  cbn [truthy len rbind int_operand].
  assert (Hshort : String.eqb d "" = true -> (py_len d <? 3)%nat = true)
    by (destruct d; [reflexivity|discriminate]).
  destruct (String.eqb d ""); [rewrite (Hshort eq_refl)|clear Hshort;
    destruct (py_len d <? 3)%nat];
    destruct ((days <? 1) || (days >? 365));
    eexists; (split; [reflexivity|]);
    cbn [DenialRisk.recommendations negb]; f_equal;
    unfold _get_denial_recommendations, append; cbn [existsb app];
    rewrite ?stay_factor_skips_diagnosis, ?stay_factor_mentions_stay;
    reflexivity.
Qed.

(** A sound diagnosis with a stay of 400 days: the dates are to be checked. *)
Lemma X8_rule_recommendations_witness :
  exists r : DenialRisk.t,
    _predict_denial_with_rules
      (<["length_of_stay" := PyInt 400]> (<["principal_diagnosis" := PyStr "I50"]> ∅))
    = Ok r
    /\ DenialRisk.recommendations r = Some ["입퇴원일자 확인"].
Proof.
  exact (X8_rule_recommendations
           (<["length_of_stay" := PyInt 400]> (<["principal_diagnosis" := PyStr "I50"]> ∅))
           "I50" 400 eq_refl eq_refl).
Defined.

(** X9: whatever the factors, the list of mitigations is never empty, has at
    most two entries and no entry twice, and holds the generic completeness
    check exactly when no factor mentions the diagnosis or the stay. *)
Theorem X9_recommendations_never_empty (risk_factors : list string) :
  let recs := _get_denial_recommendations risk_factors in
  recs <> []
  /\ (length recs <= 2)%nat
  /\ NoDup recs
  /\ (In "기록完整性 확인" recs
      <-> existsb (contains "진단") risk_factors = false
          /\ existsb (contains "재원") risk_factors = false).
Proof.
  unfold _get_denial_recommendations, append.
  destruct (existsb (contains "진단") risk_factors),
    (existsb (contains "재원") risk_factors); cbn [app];
    (split; [discriminate|]); (split; [cbn; lia|]);
    (split; [apply (bool_decide_unpack _); reflexivity|]);
    cbn; intuition (try discriminate; try congruence).
Qed.

(** ** The compliance route *)

(** X10: the compliance route answers with status 200 for every request; it
    reports the request compliant exactly when the diagnosis has at least
    three characters, with one issue and one recommendation otherwise and
    none when compliant.  It agrees with the rule-based scorer: on any record
    with the same diagnosis that the scorer accepts, the scorer records the
    ambiguous-code factor exactly when the route reports non-compliance. *)
Theorem X10_compliance_route
    (request : schemas.GroupPredictionRequest) (w : Process) :
  exists body : compliance.Body,
    compliance.check_compliance request w = (Ok (predictions.HTTP200 body), w)
    /\ compliance.is_compliant body
       = negb (py_len (schemas.principal_diagnosis request) <? 3)%nat
    /\ length (compliance.issues body)
       = (if compliance.is_compliant body then 0 else 1)%nat
    /\ length (compliance.recommendations body)
       = (if compliance.is_compliant body then 0 else 1)%nat
    /\ (forall (data : pydict) (r : DenialRisk.t),
           dict_get data "principal_diagnosis" (PyStr "")
           = PyStr (schemas.principal_diagnosis request) ->
           _predict_denial_with_rules data = Ok r ->
           (In "진단 코드 불명확" (DenialRisk.risk_factors r)
            <-> compliance.is_compliant body = false)).
Proof.
  unfold compliance.check_compliance, try_except, bind, lift, ret, append.
  cbn [len].
  destruct (py_len (schemas.principal_diagnosis request) <? 3)%nat eqn:Hshort;
    eexists; (split; [reflexivity|]); cbn [compliance.is_compliant
      compliance.issues compliance.recommendations length app Nat.eqb negb];
    (split; [reflexivity|]); (split; [reflexivity|]); (split; [reflexivity|]);
    intros data r Hd; unfold _predict_denial_with_rules; rewrite Hd;
    cbn [truthy len rbind]; rewrite Hshort;
    destruct (negb (negb _)); destruct (int_operand _) as [days|];
    cbn [rbind]; try discriminate;
    destruct ((days <? 1) || (days >? 365)); intros [= <-];
    cbn [DenialRisk.risk_factors]; unfold append; cbn [app In];
    rewrite ?append_cons; split; intros H; try reflexivity; try discriminate;
    intuition discriminate.
Qed.

(** ** The learned classifier *)

Section Classifier.

Lemma not_nan_spec (x : float) :
  PrimFloat.is_nan x = false -> Prim2SF x <> S754_nan.
Proof.
  intros H. unfold Prim2SF. rewrite H.
  destruct (is_zero x); [discriminate|].
  destruct (is_infinity x); [discriminate|].
  destruct (Z.frexp x) as [m e].
  destruct (shr_fexp _ _ _ _ _) as [shr e'].
  destruct (shr_m shr); discriminate.
Qed.

Lemma SFltb_SFleb (x y : spec_float) : SFltb x y = true -> SFleb x y = true.
Proof. unfold SFltb, SFleb. destruct (SFcompare x y) as [[| |]|]; easy. Qed.

Lemma SFleb_refl (x : spec_float) : x <> S754_nan -> SFleb x x = true.
Proof.
  unfold SFleb, SFcompare. intros Hx.
  destruct x as [[|]|[|]| |[|] m e]; try reflexivity; try congruence;
    rewrite Z.compare_refl;
    change (Pos.compare_cont Eq m m) with (Pos.compare m m);
    rewrite Pos.compare_refl; reflexivity.
Qed.

(** Two numbers compare one way or the other. *)
Lemma leb_false_ltb (x y : float) :
  PrimFloat.is_nan x = false -> PrimFloat.is_nan y = false ->
  (x <=? y)%float = false -> (y <? x)%float = true.
Proof.
  intros Hx Hy. rewrite leb_spec, ltb_spec. intros H.
  apply SFleb_false_SFltb; auto using not_nan_spec.
Qed.

Lemma ltb_leb (x y : float) : (x <? y)%float = true -> (x <=? y)%float = true.
Proof. rewrite leb_spec, ltb_spec. apply SFltb_SFleb. Qed.

Lemma leb_refl (x : float) : PrimFloat.is_nan x = false -> (x <=? x)%float = true.
Proof. intros Hx. rewrite leb_spec. apply SFleb_refl, not_nan_spec, Hx. Qed.

Lemma Forall_at {A} (P : A -> Prop) (l : list A) :
  Forall P l -> forall (k : nat) (x : A), nth_error l k = Some x -> P x.
Proof.
  induction 1 as [|y l Hy _ IH]; intros [|k] x Hx; try discriminate.
  - now injection Hx as <-.
  - exact (IH k x Hx).
Qed.

(** One step of [np.max] on a running maximum that is a number. *)
Lemma maximum_step (mp x : float) :
  PrimFloat.is_nan mp = false ->
  numpy.maximum mp x = if (x <=? mp)%float then mp else x.
Proof. intros Hmp. unfold numpy.maximum, ge. now rewrite Hmp, orb_false_r. Qed.

(** The running maximum of [np.max] is the value at the index of
    [np.argmax]. *)
Lemma argmax_holds_max (rest : list float) :
  forall (pre : list float) (mp : float) (k : nat),
    nth_error pre k = Some mp ->
    nth_error (pre ++ rest) (numpy.argmax_from mp k (length pre) rest)
    = Some (fold_left numpy.maximum rest mp).
Proof.
  induction rest as [|x rest IH]; intros pre mp k Hk.
  - cbn. rewrite app_nil_r. exact Hk.
  - cbn [numpy.argmax_from fold_left].
    destruct (PrimFloat.is_nan mp) eqn:Hnan.
    + assert (Hstay : forall l, fold_left numpy.maximum l mp = mp).
      { induction l as [|y l IHl]; [reflexivity|]. cbn [fold_left].
        unfold numpy.maximum at 2. now rewrite Hnan, orb_true_r. }
      unfold numpy.maximum at 2. rewrite Hnan, orb_true_r, Hstay.
      rewrite nth_error_app1; [exact Hk|]. apply nth_error_Some. congruence.
    + rewrite (maximum_step mp x Hnan). destruct (x <=? mp)%float; cbn [negb].
      * specialize (IH (pre ++ [x])%list mp k).
        rewrite length_app, Nat.add_1_r, <- app_assoc in IH. apply IH.
        rewrite nth_error_app1; [exact Hk|]. apply nth_error_Some. congruence.
      * specialize (IH (pre ++ [x])%list x (length pre)).
        rewrite length_app, Nat.add_1_r, <- app_assoc in IH. apply IH.
        rewrite nth_error_app2, Nat.sub_diag; [reflexivity|lia].
Qed.

(** On a row of numbers, [np.argmax] is the first index of the maximum:
    every entry is at most the entry there, and every earlier entry is
    strictly below it. *)
Lemma argmax_is_first_maximum (rest : list float) :
  forall (pre : list float) (mp : float) (k : nat),
    nth_error pre k = Some mp ->
    Forall (fun x => PrimFloat.is_nan x = false) pre ->
    Forall (fun x => PrimFloat.is_nan x = false) rest ->
    Forall (fun x => (x <=? mp)%float = true) pre ->
    (forall (j : nat) (x : float),
        (j < k)%nat -> nth_error pre j = Some x -> (x <? mp)%float = true) ->
    Forall (fun x => (x <=? fold_left numpy.maximum rest mp)%float = true)
           (pre ++ rest)
    /\ (forall (j : nat) (x : float),
           (j < numpy.argmax_from mp k (length pre) rest)%nat ->
           nth_error (pre ++ rest) j = Some x ->
           (x <? fold_left numpy.maximum rest mp)%float = true).
Proof.
  induction rest as [|x rest IH]; intros pre mp k Hk Hpre Hrest Hle Hlt.
  - cbn. rewrite app_nil_r. split; assumption.
  - assert (Hmp : PrimFloat.is_nan mp = false).
    { exact (Forall_at _ _ Hpre k mp Hk). }
    inversion Hrest as [|? ? Hx Hrest']; subst.
    cbn [numpy.argmax_from fold_left]. rewrite Hmp, (maximum_step mp x Hmp).
    assert (Hsplit : (pre ++ x :: rest = (pre ++ [x]) ++ rest)%list)
      by now rewrite <- app_assoc.
    rewrite Hsplit.
    destruct (x <=? mp)%float eqn:Hcmp; cbn [negb].
    + specialize (IH (pre ++ [x])%list mp k).
      rewrite length_app, Nat.add_1_r in IH. apply IH.
      * rewrite nth_error_app1; [exact Hk|]. apply nth_error_Some. congruence.
      * apply Forall_app. split; [exact Hpre|]. now constructor.
      * exact Hrest'.
      * apply Forall_app. split; [exact Hle|]. now constructor.
      * intros j y Hj Hy. apply (Hlt j y Hj).
        rewrite nth_error_app1 in Hy; [exact Hy|].
        apply Nat.lt_trans with k; [exact Hj|].
        apply nth_error_Some. congruence.
    + pose proof (leb_false_ltb x mp Hx Hmp Hcmp) as Hup.
      specialize (IH (pre ++ [x])%list x (length pre)).
      rewrite length_app, Nat.add_1_r in IH. apply IH.
      * rewrite nth_error_app2, Nat.sub_diag; [reflexivity|lia].
      * apply Forall_app. split; [exact Hpre|]. now constructor.
      * exact Hrest'.
      * apply Forall_app. split.
        -- eapply Forall_impl; [exact Hle|]. cbn. intros y Hy.
           exact (leb_trans _ _ _ Hy (ltb_leb _ _ Hup)).
        -- constructor; [exact (leb_refl x Hx)|constructor].
      * intros j y Hj Hy. rewrite nth_error_app1 in Hy by exact Hj.
        exact (leb_ltb_trans _ _ _ (Forall_at _ _ Hle j y Hy) Hup).
Qed.

(** [group_probs] maps the name of a class that occurs once to its
    probability. *)
Lemma group_probs_other (classes : list label) (proba : list float) :
  forall (i : nat) (acc m : gmap string float) (key : string),
    AGroupClassifier.group_probs_loop classes proba i acc = Ok m ->
    ~ In key (map str classes) ->
    m !! key = acc !! key.
Proof.
  induction classes as [|c classes IH]; intros i acc m key Hrun Hnot.
  - now injection Hrun as <-.
  - cbn [AGroupClassifier.group_probs_loop] in Hrun.
    destruct (nth_error proba i) as [p|]; [|discriminate].
    rewrite (IH _ _ _ key Hrun); [|intros H; apply Hnot; now right].
    apply lookup_insert_ne. intros E. apply Hnot. now left.
Qed.

Lemma group_probs_lookup (classes : list label) (proba : list float) :
  forall (i : nat) (acc m : gmap string float) (j : nat) (cls : label),
    AGroupClassifier.group_probs_loop classes proba i acc = Ok m ->
    List.NoDup (map str classes) ->
    nth_error classes j = Some cls ->
    exists p : float, nth_error proba (i + j) = Some p /\ m !! str cls = Some p.
Proof.
  induction classes as [|c classes IH]; intros i acc m j cls Hrun Hnd Hj.
  - destruct j; discriminate.
  - cbn [AGroupClassifier.group_probs_loop] in Hrun.
    destruct (nth_error proba i) as [p|] eqn:Hp; [|discriminate].
    cbn [map] in Hnd. inversion Hnd as [|? ? Hnot Hnd']; subst.
    destruct j as [|j].
    + injection Hj as <-. exists p. rewrite Nat.add_0_r. split; [exact Hp|].
      rewrite (group_probs_other _ _ _ _ _ (str c) Hrun Hnot).
      apply lookup_insert_eq.
    + rewrite <- plus_n_Sm. exact (IH (S i) _ m j cls Hrun Hnd' Hj).
Qed.

End Classifier.

(** X11: when a classifier that holds a model returns, it has left itself
    as it was.  The predicted group is the class label, as it is, at an
    index of the probability row, and the confidence is the probability at
    that index; on a row without NaN this index is the first maximum: every
    probability of the row is at most the confidence and every earlier one
    is strictly below it.  The probabilities are recorded under the names of
    the classes: if the names are distinct, the probability recorded for the
    name of the predicted group is the confidence.  [can_upgrade] is set
    exactly when the probability recorded under ["A"] (0 if there is none)
    reaches the threshold. *)
Theorem X11_classifier_prediction
    (cfg : Settings.t) (fs : ModelFiles) (data : pydict)
    (self self' : AGroupClassifier.t) (est : Estimator)
    (out : AGroupClassifier.Prediction) :
  AGroupClassifier.model self = Some est ->
  AGroupClassifier.predict cfg fs data self = (Ok out, self') ->
  self' = self
  /\ (exists (proba : list float) (i : nat),
         predict_proba est data = Ok proba
         /\ nth_error (classes_ est) i = Some (AGroupClassifier.predicted_group out)
         /\ nth_error proba i = Some (AGroupClassifier.confidence out)
         /\ (Forall (fun x => PrimFloat.is_nan x = false) proba ->
             Forall (fun x => (x <=? AGroupClassifier.confidence out)%float = true)
                    proba
             /\ (forall (j : nat) (x : float),
                    (j < i)%nat -> nth_error proba j = Some x ->
                    (x <? AGroupClassifier.confidence out)%float = true))
         /\ (List.NoDup (map str (classes_ est)) ->
             AGroupClassifier.probabilities out
               !! str (AGroupClassifier.predicted_group out)
             = Some (AGroupClassifier.confidence out)))
  /\ AGroupClassifier.a_group_probability out
     = default 0%float (AGroupClassifier.probabilities out !! "A")
  /\ AGroupClassifier.can_upgrade out
     = ge (AGroupClassifier.a_group_probability out) (Settings.A_GROUP_THRESHOLD cfg).
Proof.
  intros Hmodel. unfold AGroupClassifier.predict, bind, gets, ret, lift.
  rewrite Hmodel. cbn [fst snd]. rewrite Hmodel.
  destruct (predict_proba est data) as [proba|] eqn:Hproba; cbn [rbind];
    [|discriminate].
  destruct (AGroupClassifier.group_probs_loop (classes_ est) proba 0 ∅)
    as [probs|] eqn:Hprobs; cbn [rbind]; [|discriminate].
  destruct proba as [|x0 rest]; [discriminate|].
  cbn [numpy.argmax numpy.max rbind].
  destruct (nth_error (classes_ est) (numpy.argmax_from x0 0 1 rest))
    as [cls|] eqn:Hcls; cbn [rbind]; [|discriminate].
  intros [= <- <-]. split; [reflexivity|].
  cbn [AGroupClassifier.predicted_group AGroupClassifier.confidence
       AGroupClassifier.probabilities AGroupClassifier.a_group_probability
       AGroupClassifier.can_upgrade].
  split; [|split; reflexivity].
  pose proof (argmax_holds_max rest [x0] x0 0%nat eq_refl) as Hmax.
  cbn [app length] in Hmax.
  exists (x0 :: rest), (numpy.argmax_from x0 0 1 rest).
  split; [reflexivity|]. split; [exact Hcls|]. split; [exact Hmax|]. split.
  - intros Hnum. inversion Hnum as [|? ? H0 Hrest]; subst.
    apply (argmax_is_first_maximum rest [x0] x0 0%nat eq_refl).
    + constructor; [exact H0|constructor].
    + exact Hrest.
    + constructor; [exact (leb_refl x0 H0)|constructor].
    + intros j x Hj. lia.
  - intros Hnd.
    destruct (group_probs_lookup _ _ 0%nat ∅ probs _ cls Hprobs Hnd Hcls)
      as (p & Hp & Hlookup).
    cbn [Nat.add] in Hp. rewrite Hmax in Hp. injection Hp as <-. exact Hlookup.
Qed.

(** The steady classifier on scenario 1: group B with confidence 0.7. *)
Lemma X11_classifier_prediction_witness :
  exists out : AGroupClassifier.Prediction,
    AGroupClassifier.predict Settings.default Scenario.no_files Scenario.scenario1
      {| AGroupClassifier.model := Some Scenario.steady |}
    = (Ok out, {| AGroupClassifier.model := Some Scenario.steady |})
    /\ AGroupClassifier.predicted_group out = "B"
    /\ AGroupClassifier.confidence out = 0.7%float
    /\ AGroupClassifier.a_group_probability out
       = default 0%float (AGroupClassifier.probabilities out !! "A")
    /\ AGroupClassifier.can_upgrade out
       = ge (AGroupClassifier.a_group_probability out)
            (Settings.A_GROUP_THRESHOLD Settings.default).
Proof.
  destruct (AGroupClassifier.predict Settings.default Scenario.no_files
              Scenario.scenario1 {| AGroupClassifier.model := Some Scenario.steady |})
    as [[out|e] self'] eqn:E; [|vm_compute in E; discriminate].
  destruct (X11_classifier_prediction Settings.default Scenario.no_files
              Scenario.scenario1 {| AGroupClassifier.model := Some Scenario.steady |}
              self' Scenario.steady out eq_refl E)
    as (-> & _ & Ha & Hu).
  exists out. split; [reflexivity|].
  assert (Hout : AGroupClassifier.predicted_group out = "B"
                 /\ AGroupClassifier.confidence out = 0.7%float).
  { vm_compute in E. injection E as <-. split; reflexivity. }
  destruct Hout as (Hg & Hc). repeat split; assumption.
Defined.

(** ** The tallies of the HIM service *)

Section TallyCounts.

(** The number of rows whose column reads [g] after [or 'Unknown']. *)
Local Abbreviation rows_of column rows g :=
  (count_occ string_dec (map (fun row => Tallies.or_unknown (column row)) rows) g).

Lemma group_dist_lookup (admissions : list Tallies.Admission) :
  forall (acc : gmap string Z) (g : string),
    Tallies.group_dist_loop admissions acc !! g
    = if (rows_of Tallies.drg_group admissions g =? 0)%nat then acc !! g
      else Some (default 0 (acc !! g) + Z.of_nat (rows_of Tallies.drg_group admissions g)).
Proof.
  induction admissions as [|adm admissions IH]; intros acc g; [reflexivity|].
  cbn [Tallies.group_dist_loop map]. rewrite IH.
  destruct (string_dec (Tallies.or_unknown (Tallies.drg_group adm)) g) as [Heq|Hne].
  - rewrite (count_occ_cons_eq string_dec _ Heq). rewrite Heq, lookup_insert_eq.
    cbn [default Nat.eqb].
    destruct (count_occ _ _ g =? 0)%nat eqn:Hz.
    + apply Nat.eqb_eq in Hz. rewrite Hz. unfold id. reflexivity.
    + apply (f_equal Some). unfold id. lia.
  - rewrite (count_occ_cons_neq string_dec _ Hne).
    rewrite lookup_insert_ne by exact Hne. reflexivity.
Qed.

Lemma denial_reasons_lookup (claims : list Tallies.Admission) :
  forall (acc : gmap string Z) (g : string),
    Tallies.denial_reasons_loop claims acc !! g
    = if (rows_of Tallies.denial_reason claims g =? 0)%nat then acc !! g
      else Some (default 0 (acc !! g) + Z.of_nat (rows_of Tallies.denial_reason claims g)).
Proof.
  induction claims as [|claim claims IH]; intros acc g; [reflexivity|].
  cbn [Tallies.denial_reasons_loop map]. rewrite IH.
  destruct (string_dec (Tallies.or_unknown (Tallies.denial_reason claim)) g) as [Heq|Hne].
  - rewrite (count_occ_cons_eq string_dec _ Heq). rewrite Heq, lookup_insert_eq.
    cbn [default Nat.eqb].
    destruct (count_occ _ _ g =? 0)%nat eqn:Hz.
    + apply Nat.eqb_eq in Hz. rewrite Hz. unfold id. reflexivity.
    + apply (f_equal Some). unfold id. lia.
  - rewrite (count_occ_cons_neq string_dec _ Hne).
    rewrite lookup_insert_ne by exact Hne. reflexivity.
Qed.

Lemma or_unknown_not_empty (rows : list Tallies.Admission)
    (column : Tallies.Admission -> option string) :
  rows_of column rows "" = 0%nat.
Proof.
  apply count_occ_not_In. intros Hin. apply in_map_iff in Hin.
  destruct Hin as (row & Heq & _). unfold Tallies.or_unknown in Heq.
  destruct (column row) as [text|]; [|discriminate].
  destruct (String.eqb text "") eqn:E; [discriminate|].
  apply String.eqb_neq in E. congruence.
Qed.

End TallyCounts.

(** X12: the group distribution of [calculate_cmi_metrics] and the reason
    distribution of [get_denial_analytics], started from the empty
    dictionary, hold for a key the number of rows whose column reads that
    key, a NULL or empty column counting as ['Unknown']; a key no row reads
    is absent (no zero entries), and the empty string is never a key. *)
Theorem X12_tallies_count_rows (rows : list Tallies.Admission) (g : string) :
  let groups := count_occ string_dec
                  (map (fun row => Tallies.or_unknown (Tallies.drg_group row)) rows) g in
  let reasons := count_occ string_dec
                   (map (fun row => Tallies.or_unknown (Tallies.denial_reason row)) rows) g in
  Tallies.group_dist_loop rows ∅ !! g
  = (if (groups =? 0)%nat then None else Some (Z.of_nat groups))
  /\ Tallies.denial_reasons_loop rows ∅ !! g
     = (if (reasons =? 0)%nat then None else Some (Z.of_nat reasons))
  /\ Tallies.group_dist_loop rows ∅ !! "" = None
  /\ Tallies.denial_reasons_loop rows ∅ !! "" = None.
Proof.
  cbv zeta. rewrite !group_dist_lookup, !denial_reasons_lookup.
  rewrite !or_unknown_not_empty, !lookup_empty. cbn [default Z.add Nat.eqb].
  repeat split; reflexivity.
Qed.

(** ** The extraction of procedures *)

Section Procedures.

Lemma procedures_loop_text (items : list (string * list string)) (text : string) :
  forall acc : list ClinicalEntityExtractor.Procedure,
    ClinicalEntityExtractor.procedures_loop items (PyStr text) acc
    = Ok (acc ++ map (fun entry =>
                        {| ClinicalEntityExtractor.keyword := fst entry;
                           ClinicalEntityExtractor.suggested_codes := snd entry |})
                     (List.filter (fun entry => contains (fst entry) text) items))%list.
Proof.
  induction items as [|[keyword codes] items IH]; intros acc.
  - cbn. now rewrite app_nil_r.
  - cbn [ClinicalEntityExtractor.procedures_loop ClinicalEntityExtractor.keyword_in
         rbind List.filter fst snd].
    rewrite IH. destruct (contains keyword text).
    + unfold append. cbn [map]. now rewrite <- app_assoc.
    + reflexivity.
Qed.

End Procedures.

(** X13: on a text, [extract_procedures] returns one entry for each keyword
    of the procedure table that occurs in the text, in the order of the
    table, with the codes of the table, and nothing else; on [None] or a
    number it raises [TypeError] as soon as the table has a keyword, as it
    has once the knowledge base is loaded, while an extractor whose
    knowledge base is not loaded returns the empty list for every
    argument. *)
Theorem X13_extract_procedures
    (self : ClinicalEntityExtractor.t) (text : string) (other : pyval) (n : Z) :
  ClinicalEntityExtractor.extract_procedures self (PyStr text)
  = Ok (map (fun entry =>
               {| ClinicalEntityExtractor.keyword := fst entry;
                  ClinicalEntityExtractor.suggested_codes := snd entry |})
            (List.filter (fun entry => contains (fst entry) text)
                         (ClinicalEntityExtractor.procedure_keywords self)))
  /\ (ClinicalEntityExtractor.procedure_keywords self <> [] ->
      ClinicalEntityExtractor.extract_procedures self PyNone = Raise TypeError
      /\ ClinicalEntityExtractor.extract_procedures self (PyInt n) = Raise TypeError)
  /\ ClinicalEntityExtractor.extract_procedures
       ClinicalEntityExtractor.__init__ other = Ok []
  /\ ClinicalEntityExtractor.extract_procedures
       (snd (ClinicalEntityExtractor.load_knowledge_base self)) PyNone
     = Raise TypeError.
Proof.
  unfold ClinicalEntityExtractor.extract_procedures.
  split; [apply procedures_loop_text|]. split; [|split].
  - intros Hne. destruct (ClinicalEntityExtractor.procedure_keywords self)
      as [|[keyword codes] items]; [congruence|]. split; reflexivity.
  - reflexivity.
  - reflexivity.
Qed.

(** ** The HIM service *)

Section HimService.

(** What the classifier sets in a prediction it returns. *)
Lemma classifier_can_upgrade (cfg : Settings.t) (fs : ModelFiles) (data : pydict)
    (self self' : AGroupClassifier.t) (out : AGroupClassifier.Prediction) :
  AGroupClassifier.predict cfg fs data self = (Ok out, self') ->
  AGroupClassifier.can_upgrade out
  = ge (AGroupClassifier.a_group_probability out) (Settings.A_GROUP_THRESHOLD cfg).
Proof.
  unfold AGroupClassifier.predict, AGroupClassifier.load_model,
    bind, gets, ret, lift, throw.
  destruct (AGroupClassifier.model self) as [est0|] eqn:Hmodel; cbn [fst snd].
  - rewrite Hmodel.
    destruct (predict_proba est0 data) as [proba|]; cbn [rbind]; [|discriminate].
    destruct (AGroupClassifier.group_probs_loop _ _ _ _); cbn [rbind]; [|discriminate].
    destruct (numpy.argmax proba); cbn [rbind]; [|discriminate].
    destruct (nth_error _ _); cbn [rbind]; [|discriminate].
    destruct (numpy.max proba); cbn [rbind]; [|discriminate].
    now intros [= <- <-].
  - destruct (a_group_classifier_pkl fs) as [est|];
      [destruct (a_group_classifier_pkl_rest fs)|];
      cbn [fst snd AGroupClassifier.model];
      [| |rewrite Hmodel; discriminate];
      (destruct (predict_proba est data) as [proba|]; cbn [rbind]; [|discriminate];
       destruct (AGroupClassifier.group_probs_loop _ _ _ _); cbn [rbind];
         [|discriminate];
       destruct (numpy.argmax proba); cbn [rbind]; [|discriminate];
       destruct (nth_error _ _); cbn [rbind]; [|discriminate];
       destruct (numpy.max proba); cbn [rbind]; [|discriminate];
       now intros [= <- <-]).
Qed.

(** A classifier without a model and without an artifact raises and stays
    as it is. *)
Lemma classifier_without_model (cfg : Settings.t) (fs : ModelFiles) (data : pydict)
    (self : AGroupClassifier.t) :
  AGroupClassifier.model self = None ->
  a_group_classifier_pkl fs = None ->
  AGroupClassifier.predict cfg fs data self = (Raise AttributeError, self).
Proof.
  intros Hmodel Hfile.
  unfold AGroupClassifier.predict, AGroupClassifier.load_model,
    bind, gets, ret, lift, throw.
  rewrite Hmodel, Hfile. cbn [fst snd]. now rewrite Hmodel.
Qed.

Lemma env_eta (env : HIMService.Env) :
  HIMService.set_process
    (set_a_group_classifier (a_group_classifier (HIMService.process env))
                            (HIMService.process env)) env
  = env.
Proof. destruct env as [[cfg fs c d s] x r]. reflexivity. Qed.

Lemma him_without_model (data : pydict) (env : HIMService.Env) :
  AGroupClassifier.model (a_group_classifier (HIMService.process env)) = None ->
  a_group_classifier_pkl (files (HIMService.process env)) = None ->
  HIMService.predict_admission_outcome data env = (Raise AttributeError, env).
Proof.
  intros Hmodel Hfile.
  unfold HIMService.predict_admission_outcome, bind at 1 2 3, gets at 1 2, zoom.
  cbn [fst snd].
  rewrite (classifier_without_model _ _ data _ Hmodel Hfile).
  now rewrite env_eta.
Qed.

End HimService.

(** X14: while the classifier holds no model and finds no artifact, the HIM
    service's prediction raises [AttributeError] for every record, and its
    batch returns, for every list of records, one error entry per record,
    in order, under the record's own identifier; the service is left as it
    was. *)
Theorem X14_him_service_without_classifier
    (env : HIMService.Env) (data : pydict) (records : list pydict) :
  AGroupClassifier.model (a_group_classifier (HIMService.process env)) = None ->
  a_group_classifier_pkl (files (HIMService.process env)) = None ->
  HIMService.predict_admission_outcome data env = (Raise AttributeError, env)
  /\ HIMService.batch_predict_admissions records env
     = (Ok (map (fun record =>
                   HIMService.Error (dict_get record "admission_id" PyNone)
                                    (exn_message AttributeError))
                records),
        env).
Proof.
  intros Hmodel Hfile. split; [exact (him_without_model data env Hmodel Hfile)|].
  unfold HIMService.batch_predict_admissions.
  change (@nil HIMService.BatchEntry) with
    (map (fun record =>
            HIMService.Error (dict_get record "admission_id" PyNone)
                             (exn_message AttributeError))
         (@nil pydict)) at 1.
  assert (Hloop : forall (rest : list pydict) (acc : list HIMService.BatchEntry),
             HIMService.batch_loop rest acc env
             = (Ok (acc ++ map (fun record =>
                                  HIMService.Error
                                    (dict_get record "admission_id" PyNone)
                                    (exn_message AttributeError)) rest)%list,
                env)).
  { induction rest as [|d rest IH]; intros acc.
    - cbn. now rewrite app_nil_r.
    - cbn [HIMService.batch_loop map]. unfold bind at 1, try_except, bind at 1.
      rewrite (him_without_model d env Hmodel Hfile). unfold ret at 1.
      rewrite IH. unfold append. now rewrite <- app_assoc. }
  cbn [map]. rewrite Hloop. reflexivity.
Qed.

(** The service over the process without artifacts, on the corrupt and the
    sound record. *)
Lemma X14_him_service_without_classifier_witness :
  HIMService.predict_admission_outcome Scenario.sound_record Fixture.bare_env
  = (Raise AttributeError, Fixture.bare_env)
  /\ HIMService.batch_predict_admissions
       [Scenario.corrupt_record; Scenario.sound_record] Fixture.bare_env
     = (Ok (map (fun record =>
                   HIMService.Error (dict_get record "admission_id" PyNone)
                                    (exn_message AttributeError))
                [Scenario.corrupt_record; Scenario.sound_record]),
        Fixture.bare_env).
Proof.
  exact (X14_him_service_without_classifier Fixture.bare_env Scenario.sound_record
           [Scenario.corrupt_record; Scenario.sound_record] eq_refl eq_refl).
Defined.

Section HimOutcome.

Lemma him_recommendations_length (results : HIMService.Results) :
  length (HIMService._generate_recommendations results)
  = ((match HIMService.group_prediction results with
      | Some gp => if AGroupClassifier.can_upgrade gp then 1 else 0
      | None => 0
      end)
     + (match HIMService.denial_risk results with
        | Some dr =>
            (if String.eqb (DenialRisk.risk_level dr) "HIGH" then 1 else 0)
            + length (DenialRisk.risk_factors dr)
        | None => 0
        end))%nat.
Proof.
  unfold HIMService._generate_recommendations, append.
  destruct (HIMService.group_prediction results) as [gp|];
    destruct (HIMService.denial_risk results) as [dr|];
    repeat match goal with
           | |- context [if ?b then _ else _] => destruct b
           end;
    try destruct (DenialRisk.risk_factors dr);
    cbn [length app]; rewrite ?length_app, ?length_map; cbn [length app]; lia.
Qed.

End HimOutcome.

Ltac him_shape :=
  cbn [HIMService.group_prediction HIMService.denial_risk
       HIMService.recommendations HIMService.admission_id
       HIMService.upgrade_suggestions HIMService.extracted_entities
       HIMService.empty_results is_not_none];
  repeat match goal with
         | |- _ /\ _ => split
         | |- length (HIMService._generate_recommendations _) = _ =>
             rewrite him_recommendations_length;
             cbn [HIMService.group_prediction HIMService.denial_risk]; lia
         | |- _ -> _ => intros ?
         | H : _ -> _ -> False |- _ = None =>
             first [reflexivity | exfalso; apply H; [reflexivity|assumption]]
         | H : ?x = ?b |- ?b = ?x => symmetry; exact H
         | |- _ => reflexivity
         | |- _ => assumption
         end.

(** X15: when the HIM service's prediction of a record returns, the result
    holds the classifier's prediction, the risk and the recommendations and
    no identifier; the retrieval advice is there exactly when the
    probability of group A is below the threshold, so never together with
    [can_upgrade]; the entities are there exactly when the record has
    non-empty clinical notes; there is one recommendation for
    [can_upgrade], one for a [HIGH] risk and one per risk factor; and the
    service has changed at most the classifier. *)
Theorem X15_him_outcome
    (data : pydict) (env env' : HIMService.Env) (res : HIMService.Results) :
  HIMService.predict_admission_outcome data env = (Ok res, env') ->
  exists (gp : AGroupClassifier.Prediction) (dr : DenialRisk.t) (recs : list string),
    HIMService.group_prediction res = Some gp
    /\ HIMService.denial_risk res = Some dr
    /\ HIMService.recommendations res = Some recs
    /\ HIMService.admission_id res = None
    /\ is_not_none (HIMService.upgrade_suggestions res)
       = (AGroupClassifier.a_group_probability gp
          <? Settings.A_GROUP_THRESHOLD (settings (HIMService.process env)))%float
    /\ (AGroupClassifier.can_upgrade gp = true ->
        HIMService.upgrade_suggestions res = None)
    /\ is_not_none (HIMService.extracted_entities res)
       = truthy (dict_get data "clinical_notes" (PyStr ""))
    /\ length recs
       = ((if AGroupClassifier.can_upgrade gp then 1 else 0)
          + (if String.eqb (DenialRisk.risk_level dr) "HIGH" then 1 else 0)
          + length (DenialRisk.risk_factors dr))%nat
    /\ DenialPredictor.predict_risk
         (denial_predictor (HIMService.process env)) data = Ok dr
    /\ env' = HIMService.set_process
                (set_a_group_classifier
                   (a_group_classifier (HIMService.process env'))
                   (HIMService.process env)) env.
Proof.
  unfold HIMService.predict_admission_outcome.
  unfold bind at 1 2 3, gets at 1 2, zoom. cbn [fst snd].
  destruct (AGroupClassifier.predict _ _ data _) as [[gp|e] c'] eqn:Hgp;
    [|discriminate].
  pose proof (classifier_can_upgrade _ _ _ _ _ _ Hgp) as Hup.
  set (env1 := HIMService.set_process _ env).
  unfold bind at 1 2, gets at 1, lift at 1. cbn [fst snd].
  assert (Hpred : denial_predictor (HIMService.process env1)
                  = denial_predictor (HIMService.process env)) by reflexivity.
  rewrite Hpred.
  destruct (DenialPredictor.predict_risk _ data) as [dr|e] eqn:Hdr; [|discriminate].
  unfold bind at 1 2, gets at 1. cbn [fst snd].
  set (notes := dict_get data "clinical_notes" (PyStr "")).
  set (thr := Settings.A_GROUP_THRESHOLD (settings (HIMService.process env))) in *.
  assert (Henv1 : env1 = HIMService.set_process
                           (set_a_group_classifier
                              (a_group_classifier (HIMService.process env1))
                              (HIMService.process env)) env) by reflexivity.
  assert (Hnever : (AGroupClassifier.a_group_probability gp <? thr)%float = true ->
                   AGroupClassifier.can_upgrade gp = true -> False).
  { intros Hlow Hcan. rewrite Hup in Hcan. unfold ge in Hcan.
    now rewrite (ltb_leb_false _ _ Hlow) in Hcan. }
  destruct (truthy notes) eqn:Hnotes.
  - unfold bind at 1 2, lift at 1.
    destruct (HIMService.extract_diagnoses _ notes) as [ds|]; [|discriminate].
    unfold lift at 1.
    destruct (HIMService.extract_procedures _ notes) as [ps|]; [|discriminate].
    unfold ret at 1. unfold bind at 1 2, gets at 1. cbn [fst snd].
    destruct (AGroupClassifier.a_group_probability gp <? thr)%float eqn:Hlow.
    + unfold bind at 1, lift at 1.
      destruct (HIMService.suggest_a_group_upgrade _ _ _ _ _) as [advice|];
        [|discriminate].
      unfold ret. intros [= <- <-]. eexists gp, dr, _. him_shape.
    + unfold ret. intros [= <- <-]. eexists gp, dr, _. him_shape.
  - unfold ret at 1. unfold bind at 1 2, gets at 1. cbn [fst snd].
    destruct (AGroupClassifier.a_group_probability gp <? thr)%float eqn:Hlow.
    + unfold bind at 1, lift at 1.
      destruct (HIMService.suggest_a_group_upgrade _ _ _ _ _) as [advice|];
        [|discriminate].
      unfold ret. intros [= <- <-]. eexists gp, dr, _. him_shape.
    + unfold ret. intros [= <- <-]. eexists gp, dr, _. him_shape.
Qed.

(** The service over the steady artifacts, on the sound record. *)
Lemma X15_him_outcome_witness :
  exists (res : HIMService.Results) (env' : HIMService.Env)
         (gp : AGroupClassifier.Prediction) (dr : DenialRisk.t) (recs : list string),
    HIMService.predict_admission_outcome Scenario.sound_record
      (Scenario.him_env Scenario.steady)
    = (Ok res, env')
    /\ HIMService.group_prediction res = Some gp
    /\ HIMService.denial_risk res = Some dr
    /\ HIMService.recommendations res = Some recs
    /\ HIMService.admission_id res = None
    /\ is_not_none (HIMService.upgrade_suggestions res)
       = (AGroupClassifier.a_group_probability gp
          <? Settings.A_GROUP_THRESHOLD
               (settings (HIMService.process (Scenario.him_env Scenario.steady))))%float
    /\ length recs
       = ((if AGroupClassifier.can_upgrade gp then 1 else 0)
          + (if String.eqb (DenialRisk.risk_level dr) "HIGH" then 1 else 0)
          + length (DenialRisk.risk_factors dr))%nat.
Proof.
  destruct (HIMService.predict_admission_outcome Scenario.sound_record
              (Scenario.him_env Scenario.steady)) as [[res|e] env'] eqn:E;
    [|vm_compute in E; discriminate].
  destruct (X15_him_outcome Scenario.sound_record (Scenario.him_env Scenario.steady)
              env' res E)
    as (gp & dr & recs & Hgp & Hdr & Hrecs & Hid & Hadvice & _ & _ & Hlen & _ & _).
  exists res, env', gp, dr, recs.
  split; [reflexivity|]. repeat split; assumption.
Defined.

(** ** The routes of a rule-based process *)

Section RoutesUnderRules.

(** The rule-based classifier reads the principal diagnosis only. *)
Lemma group_rules_read_diagnosis (cfg : Settings.t) (data data' : pydict) :
  dict_get data "principal_diagnosis" (PyStr "")
  = dict_get data' "principal_diagnosis" (PyStr "") ->
  _predict_with_rules cfg data = _predict_with_rules cfg data'.
Proof. unfold _predict_with_rules. now intros ->. Qed.

(** The rule-based scorer reads the principal diagnosis and the stay. *)
Lemma denial_rules_read_two_keys (data data' : pydict) :
  dict_get data "principal_diagnosis" (PyStr "")
  = dict_get data' "principal_diagnosis" (PyStr "") ->
  dict_get data "length_of_stay" (PyInt 0)
  = dict_get data' "length_of_stay" (PyInt 0) ->
  _predict_denial_with_rules data = _predict_denial_with_rules data'.
Proof. unfold _predict_denial_with_rules. now intros -> ->. Qed.

Lemma denial_rules_recommend (data : pydict) (dr : DenialRisk.t) :
  _predict_denial_with_rules data = Ok dr ->
  DenialRisk.recommendations dr
  = Some (_get_denial_recommendations (DenialRisk.risk_factors dr)).
Proof.
  unfold _predict_denial_with_rules.
  destruct (negb _);
    (destruct (len _) as [n|]; cbn [rbind]; [|discriminate]);
    destruct (n <? 3)%nat;
    (destruct (int_operand _) as [days|]; cbn [rbind]; [|discriminate]);
    destruct (_ || _); intros [= <-]; reflexivity.
Qed.

Lemma comprehensive_returns (data : pydict) (w : Process)
    (gp : GroupPrediction) (dr : DenialRisk.t) :
  predict_group data w = (Ok gp, w) ->
  predict_denial_risk data w = (Ok dr, w) ->
  exists r : Assessment,
    predict_comprehensive data w = (Ok r, w)
    /\ group_prediction r = gp
    /\ denial_risk r = dr
    /\ revenue_impact r = ((potential_cmi r - estimated_cmi r) * 300000)%float.
Proof.
  intros Hgp Hdr. unfold predict_comprehensive.
  unfold bind at 1. rewrite Hgp. unfold bind at 1. rewrite Hdr.
  unfold bind, lift, ret. eexists. split; [reflexivity|].
  repeat split; reflexivity.
Qed.

End RoutesUnderRules.

(** X16: in a process that predicts by rules, a request that gives its
    length of stay is answered with status 200 by the group route, the
    denial route and the comprehensive route, and the process is left as it
    was; the comprehensive answer holds the body of the group route and the
    body of the denial route on the same request, the identifier it was
    given (["temp"] when there is none or an empty one) and a revenue impact
    of 300000 times the difference of its two CMI values; the
    recommendations of the risk are those its reasons call for. *)
Theorem X16_routes_under_rules
    (request : schemas.GroupPredictionRequest) (admission_id : option string)
    (w : Process) (days : Z) :
  use_ml (prediction_service w) = false ->
  schemas.length_of_stay request = Some days ->
  exists (group : schemas.GroupPredictionResponse)
         (risk : schemas.DenialRiskResponse) (body : schemas.PredictionResponse),
    predictions.predict_group request w = (Ok (predictions.HTTP200 group), w)
    /\ predictions.predict_denial_risk request w
       = (Ok (predictions.HTTP200 risk), w)
    /\ predictions.predict_comprehensive request admission_id w
       = (Ok (predictions.HTTP200 body), w)
    /\ schemas.group_prediction body = group
    /\ schemas.denial_risk body = risk
    /\ schemas.admission_id body
       = Some (match admission_id with
               | Some "" | None => "temp"
               | Some id => id
               end)
    /\ schemas.recommendations risk
       = _get_denial_recommendations (schemas.denial_reasons risk)
    /\ (exists est pot : float,
           schemas.estimated_cmi body = Some est
           /\ schemas.potential_cmi body = Some pot
           /\ schemas.revenue_impact body = Some ((pot - est) * 300000)%float).
Proof.
  intros Hrules Hstay.
  destruct request as [diagnosis secondary procedures age gender department stay notes].
  cbn [schemas.length_of_stay] in Hstay. subst stay.
  set (request := {| schemas.principal_diagnosis := diagnosis;
                     schemas.length_of_stay := Some days |}).
  set (data_g := <["clinical_notes" := predictions.notes_or_empty request]>
                   (predictions.common_fields request)).
  set (data_d := predictions.common_fields request).
  set (data_c := predictions.comprehensive_admission_data request admission_id).
  assert (Hdg : dict_get data_g "principal_diagnosis" (PyStr "") = PyStr diagnosis)
    by reflexivity.
  assert (Hdd : dict_get data_d "principal_diagnosis" (PyStr "") = PyStr diagnosis)
    by reflexivity.
  assert (Hdc : dict_get data_c "principal_diagnosis" (PyStr "") = PyStr diagnosis)
    by reflexivity.
  assert (Hld : dict_get data_d "length_of_stay" (PyInt 0) = PyInt days)
    by reflexivity.
  assert (Hlc : dict_get data_c "length_of_stay" (PyInt 0) = PyInt days)
    by reflexivity.
  destruct (rules_return (settings w) data_g diagnosis Hdg) as (gp & Hgp).
  destruct (service_rules_return data_d diagnosis days Hdd Hld) as (dr & Hdr).
  pose proof (denial_rules_recommend _ _ Hdr) as Hrecs.
  assert (Hgroup_g : predict_group data_g w = (Ok gp, w)).
  { now rewrite (rule_based_group data_g w Hrules), Hgp. }
  assert (Hgroup_c : predict_group data_c w = (Ok gp, w)).
  { rewrite (rule_based_group data_c w Hrules).
    rewrite (group_rules_read_diagnosis _ data_c data_g), Hgp; [reflexivity|].
    now rewrite Hdc, Hdg. }
  assert (Hrisk_d : predict_denial_risk data_d w = (Ok dr, w)).
  { now rewrite (rule_based_denial data_d w Hrules), Hdr. }
  assert (Hrisk_c : predict_denial_risk data_c w = (Ok dr, w)).
  { rewrite (rule_based_denial data_c w Hrules).
    rewrite (denial_rules_read_two_keys data_c data_d), Hdr; [reflexivity| |].
    - now rewrite Hdc, Hdd.
    - now rewrite Hlc, Hld. }
  destruct (comprehensive_returns data_c w gp dr Hgroup_c Hrisk_c)
    as (r & Hr & Hrg & Hrd & Hrev).
  destruct (rules_group_is_text _ _ _ Hgp) as (group & Hgroup).
  assert (Hbody : exists body : schemas.GroupPredictionResponse,
             predictions.group_response gp = Ok body).
  { unfold predictions.group_response. rewrite Hgroup. eauto. }
  destruct Hbody as (body & Hbody).
  exists body. eexists _, _.
  split; [|split; [|split]].
  - unfold predictions.predict_group, try_except, bind, ret, lift.
    fold data_g. now rewrite Hgroup_g, Hbody.
  - unfold predictions.predict_denial_risk, try_except, bind, ret, lift.
    fold data_d. rewrite Hrisk_d. unfold predictions.denial_response.
    rewrite Hrecs. reflexivity.
  - unfold predictions.predict_comprehensive, try_except, bind, ret, lift.
    fold data_c. rewrite Hr, Hrg, Hrd, Hbody. unfold predictions.denial_response.
    rewrite Hrecs. reflexivity.
  - cbn [schemas.group_prediction schemas.denial_risk schemas.admission_id
         schemas.recommendations schemas.denial_reasons schemas.estimated_cmi
         schemas.potential_cmi schemas.revenue_impact].
    do 4 (split; [reflexivity|]).
    eexists _, _. split; [reflexivity|]. split; [reflexivity|].
    now rewrite Hrev.
Qed.

(** The rule-based process on the request of [test_predict_group_success]. *)
Lemma X16_routes_under_rules_witness :
  exists (group : schemas.GroupPredictionResponse)
         (risk : schemas.DenialRiskResponse) (body : schemas.PredictionResponse),
    predictions.predict_group Fixture.request_full Scenario.rule_based
    = (Ok (predictions.HTTP200 group), Scenario.rule_based)
    /\ predictions.predict_denial_risk Fixture.request_full Scenario.rule_based
       = (Ok (predictions.HTTP200 risk), Scenario.rule_based)
    /\ predictions.predict_comprehensive Fixture.request_full (Some "ADM001")
         Scenario.rule_based
       = (Ok (predictions.HTTP200 body), Scenario.rule_based)
    /\ schemas.group_prediction body = group
    /\ schemas.denial_risk body = risk
    /\ schemas.admission_id body = Some "ADM001".
Proof.
  destruct (X16_routes_under_rules Fixture.request_full (Some "ADM001")
              Scenario.rule_based 5 eq_refl eq_refl)
    as (group & risk & body & Hg & Hr & Hb & Hbg & Hbr & Hid & _).
  exists group, risk, body. repeat split; assumption.
Defined.

(** ** The two rule-based scorers *)

(** X17: the rule-based scorer of the service and the one of the denial
    predictor agree on a record whose principal diagnosis has at least three
    characters, whose DRG code is set and which has no past denials: both
    return, with the same probability, the same tier and the same factors;
    only the service's result carries recommendations. *)
Theorem X17_rule_scorers_agree
    (data : pydict) (d : string) (days past : Z) :
  data !! "principal_diagnosis" = Some (PyStr d) ->
  (3 <=? py_len d)%nat = true ->
  dict_get data "length_of_stay" (PyInt 0) = PyInt days ->
  truthy (dict_get data "drg_code" PyNone) = true ->
  dict_get data "past_denials" (PyInt 0) = PyInt past ->
  past <= 0 ->
  exists by_service by_predictor : DenialRisk.t,
    _predict_denial_with_rules data = Ok by_service
    /\ DenialPredictor._rule_based_prediction data = Ok by_predictor
    /\ DenialRisk.denial_probability by_service
       = DenialRisk.denial_probability by_predictor
    /\ DenialRisk.risk_level by_service = DenialRisk.risk_level by_predictor
    /\ DenialRisk.risk_factors by_service = DenialRisk.risk_factors by_predictor
    /\ DenialRisk.recommendations by_predictor = None
    /\ DenialRisk.recommendations by_service
       = Some (_get_denial_recommendations (DenialRisk.risk_factors by_service)).
Proof.
  intros Hd Hlen Hstay Hcode Hpast Hnone.
  assert (Htruthy : truthy (PyStr d) = true).
  { destruct d; [discriminate Hlen|reflexivity]. }
  assert (Hshort : (py_len d <? 3)%nat = false).
  { apply Nat.ltb_ge. now apply Nat.leb_le. }
  assert (Hnopast : (past >? 0) = false).
  { rewrite Z.gtb_ltb. apply Z.ltb_ge. exact Hnone. }
  assert (Hds : dict_get data "principal_diagnosis" (PyStr "") = PyStr d).
  { unfold dict_get. now rewrite Hd. }
  assert (Hdp : dict_get data "principal_diagnosis" PyNone = PyStr d).
  { unfold dict_get. now rewrite Hd. }
  unfold _predict_denial_with_rules, DenialPredictor._rule_based_prediction,
    DenialPredictor._get_risk_level.
  rewrite Hds, Hdp, Hstay, Hcode, Hpast, Htruthy.
  cbn [negb len int_operand rbind]. rewrite Hshort, Hnopast.
  destruct ((days <? 1) || (days >? 365)); eexists _, _;
    (split; [reflexivity|]); (split; [reflexivity|]); repeat split.
Qed.

(** The sound record of scenario 4 with a DRG code. *)
Lemma X17_rule_scorers_agree_witness :
  exists by_service by_predictor : DenialRisk.t,
    _predict_denial_with_rules (<["drg_code" := PyStr "A001"]> Scenario.sound_record)
    = Ok by_service
    /\ DenialPredictor._rule_based_prediction
         (<["drg_code" := PyStr "A001"]> Scenario.sound_record)
       = Ok by_predictor
    /\ DenialRisk.denial_probability by_service
       = DenialRisk.denial_probability by_predictor
    /\ DenialRisk.risk_level by_service = DenialRisk.risk_level by_predictor
    /\ DenialRisk.risk_factors by_service = DenialRisk.risk_factors by_predictor.
Proof.
  assert (Hd : (<["drg_code" := PyStr "A001"]> Scenario.sound_record : pydict)
               !! "principal_diagnosis" = Some (PyStr "A01")) by reflexivity.
  assert (Hpast : 0 <= 0) by lia.
  destruct (X17_rule_scorers_agree
              (<["drg_code" := PyStr "A001"]> Scenario.sound_record) "A01" 5 0
              Hd eq_refl eq_refl eq_refl eq_refl Hpast)
    as (s & p & Hs & Hp & Hprob & Hlevel & Hfactors & _).
  exists s, p. repeat split; assumption.
Defined.

(** ** The learned denial predictor *)



(** ** Lazy loading *)

Section LazyLoading.

(** A classifier without a model loads the artifact at its first prediction
    and keeps it, whatever the prediction then does. *)
Lemma classifier_lazy_load (cfg : Settings.t) (fs : ModelFiles) (data : pydict)
    (self : AGroupClassifier.t) (est : Estimator) :
  AGroupClassifier.model self = None ->
  a_group_classifier_pkl fs = Some est ->
  AGroupClassifier.predict cfg fs data self
  = (fst (AGroupClassifier.predict cfg fs data {| AGroupClassifier.model := Some est |}),
     {| AGroupClassifier.model := Some est |}).
Proof.
  intros Hmodel Hfile.
  unfold AGroupClassifier.predict, AGroupClassifier.load_model,
    bind, gets, ret, lift, throw.
  rewrite Hmodel, Hfile.
  destruct (a_group_classifier_pkl_rest fs);
    cbn [fst snd AGroupClassifier.model]; reflexivity.
Qed.

(** What a returned prediction of the HIM service is made of. *)
Lemma him_outcome_inv (data : pydict) (env env' : HIMService.Env)
    (res : HIMService.Results) :
  HIMService.predict_admission_outcome data env = (Ok res, env') ->
  exists (gp : AGroupClassifier.Prediction) (c' : AGroupClassifier.t)
         (dr : DenialRisk.t),
    AGroupClassifier.predict (settings (HIMService.process env))
      (files (HIMService.process env)) data
      (a_group_classifier (HIMService.process env)) = (Ok gp, c')
    /\ DenialPredictor.predict_risk (denial_predictor (HIMService.process env)) data
       = Ok dr
    /\ HIMService.group_prediction res = Some gp
    /\ HIMService.denial_risk res = Some dr
    /\ env' = HIMService.set_process
                (set_a_group_classifier c' (HIMService.process env)) env.
Proof.
  unfold HIMService.predict_admission_outcome.
  unfold bind at 1 2 3, gets at 1 2, zoom. cbn [fst snd].
  destruct (AGroupClassifier.predict _ _ data _) as [[gp|e] c'] eqn:Hgp;
    [|discriminate].
  set (env1 := HIMService.set_process _ env).
  unfold bind at 1 2, gets at 1, lift at 1. cbn [fst snd].
  assert (Hpred : denial_predictor (HIMService.process env1)
                  = denial_predictor (HIMService.process env)) by reflexivity.
  rewrite Hpred.
  destruct (DenialPredictor.predict_risk _ data) as [dr|e] eqn:Hdr; [|discriminate].
  unfold bind at 1 2, gets at 1. cbn [fst snd].
  intros Hrun. exists gp, c', dr. split; [reflexivity|]. split; [reflexivity|].
  revert Hrun.
  destruct (truthy _).
  - unfold bind at 1 2, lift at 1.
    destruct (HIMService.extract_diagnoses _ _) as [ds|]; [|discriminate].
    unfold lift at 1.
    destruct (HIMService.extract_procedures _ _) as [ps|]; [|discriminate].
    unfold ret at 1. unfold bind at 1 2, gets at 1. cbn [fst snd].
    destruct (_ <? _)%float.
    + unfold bind at 1, lift at 1.
      destruct (HIMService.suggest_a_group_upgrade _ _ _ _ _); [|discriminate].
      unfold ret. intros [= <- <-]. repeat split.
    + unfold ret. intros [= <- <-]. repeat split.
  - unfold ret at 1. unfold bind at 1 2, gets at 1. cbn [fst snd].
    destruct (_ <? _)%float.
    + unfold bind at 1, lift at 1.
      destruct (HIMService.suggest_a_group_upgrade _ _ _ _ _); [|discriminate].
      unfold ret. intros [= <- <-]. repeat split.
    + unfold ret. intros [= <- <-]. repeat split.
Qed.

End LazyLoading.

(** X19: the two predictors load differently.  A classifier without a model
    loads its artifact at the first prediction and keeps it, whether that
    prediction returns or raises.  The denial predictor never loads by
    itself: in a service where neither model is loaded while both artifacts
    exist, a prediction of the HIM service that returns has used the
    classifier's artifact, which the classifier holds from then on, and has
    scored the risk with the predictor's rules, the predictor still being
    without a model. *)
Theorem X19_lazy_loading
    (env : HIMService.Env) (data : pydict) (est : Estimator) :
  AGroupClassifier.model (a_group_classifier (HIMService.process env)) = None ->
  DenialPredictor.model (denial_predictor (HIMService.process env)) = None ->
  a_group_classifier_pkl (files (HIMService.process env)) = Some est ->
  snd (AGroupClassifier.predict (settings (HIMService.process env))
         (files (HIMService.process env)) data
         (a_group_classifier (HIMService.process env)))
  = {| AGroupClassifier.model := Some est |}
  /\ (forall (res : HIMService.Results) (env' : HIMService.Env),
         HIMService.predict_admission_outcome data env = (Ok res, env') ->
         AGroupClassifier.model (a_group_classifier (HIMService.process env'))
         = Some est
         /\ DenialPredictor.model (denial_predictor (HIMService.process env')) = None
         /\ (exists gp : AGroupClassifier.Prediction,
                HIMService.group_prediction res = Some gp
                /\ AGroupClassifier.predict (settings (HIMService.process env))
                     (files (HIMService.process env)) data
                     {| AGroupClassifier.model := Some est |}
                   = (Ok gp, {| AGroupClassifier.model := Some est |}))
         /\ (exists dr : DenialRisk.t,
                HIMService.denial_risk res = Some dr
                /\ DenialPredictor._rule_based_prediction data = Ok dr)).
Proof.
  intros Hclassifier Hpredictor Hfile.
  pose proof (classifier_lazy_load (settings (HIMService.process env))
                (files (HIMService.process env)) data _ est Hclassifier Hfile)
    as Hload.
  split; [now rewrite Hload|]. intros res env' Hrun.
  destruct (him_outcome_inv data env env' res Hrun)
    as (gp & c' & dr & Hgp & Hdr & Hresg & Hresd & ->).
  rewrite Hload in Hgp. injection Hgp as Hfst <-.
  split; [reflexivity|]. split; [exact Hpredictor|]. split.
  - exists gp. split; [exact Hresg|].
    assert (Hkeep : snd (AGroupClassifier.predict
                           (settings (HIMService.process env))
                           (files (HIMService.process env)) data
                           {| AGroupClassifier.model := Some est |})
                    = {| AGroupClassifier.model := Some est |}).
    { unfold AGroupClassifier.predict, bind, gets, ret, lift.
      cbn [fst snd AGroupClassifier.model]. reflexivity. }
    apply injective_projections; [exact Hfst|exact Hkeep].
  - exists dr. split; [exact Hresd|].
    unfold DenialPredictor.predict_risk in Hdr. now rewrite Hpredictor in Hdr.
Qed.

(** The HIM service before anything is loaded, the steady artifacts on disk,
    on the sound record. *)
Lemma X19_lazy_loading_witness :
  exists (res : HIMService.Results) (env' : HIMService.Env),
    HIMService.predict_admission_outcome Scenario.sound_record
      {| HIMService.process := Scenario.cold Settings.default Fixture.steady_files;
         HIMService.entity_extractor := Scenario.quiet_extractor;
         HIMService.rag_retriever := Scenario.canned_retriever |}
    = (Ok res, env')
    /\ AGroupClassifier.model (a_group_classifier (HIMService.process env'))
       = Some Scenario.steady
    /\ DenialPredictor.model (denial_predictor (HIMService.process env')) = None
    /\ (exists dr : DenialRisk.t,
           HIMService.denial_risk res = Some dr
           /\ DenialPredictor._rule_based_prediction Scenario.sound_record = Ok dr).
Proof.
  destruct (HIMService.predict_admission_outcome Scenario.sound_record
              {| HIMService.process := Scenario.cold Settings.default Fixture.steady_files;
                 HIMService.entity_extractor := Scenario.quiet_extractor;
                 HIMService.rag_retriever := Scenario.canned_retriever |})
    as [[res|e] env'] eqn:E; [|vm_compute in E; discriminate].
  destruct (X19_lazy_loading
              {| HIMService.process := Scenario.cold Settings.default Fixture.steady_files;
                 HIMService.entity_extractor := Scenario.quiet_extractor;
                 HIMService.rag_retriever := Scenario.canned_retriever |}
              Scenario.sound_record Scenario.steady eq_refl eq_refl eq_refl)
    as (_ & Hreturned).
  destruct (Hreturned res env' E) as (Hheld & Hnone & _ & Hrisk).
  exists res, env'. split; [reflexivity|]. split; [exact Hheld|].
  split; [exact Hnone|exact Hrisk].
Defined.
